(** * in17clock: shallow embedding of the firmware core

    The firmware targets an ATmega328P (avr-gcc): [int] and [unsigned int]
    are 16 bits wide, [long] is 32 bits, [float] is IEEE-754 binary32 and
    [millis()] returns a 32-bit [unsigned long] that wraps around.

    Every C++ object becomes a record, every member function a function
    from the record (and the values read from the hardware during the call)
    to the updated record.  Unsigned integers are [Z] with the wrap-around
    written out. *)

From Stdlib Require Import ZArith List Bool Lia Permutation QArith Qround.
From Stdlib Require Import Floats.SpecFloat.
Import ListNotations.
Local Open Scope Z_scope.

(** ** Fixed-width unsigned integers *)

Definition u8 (x : Z) : Z := x mod 2 ^ 8.
Definition u16 (x : Z) : Z := x mod 2 ^ 16.
Definition u32 (x : Z) : Z := x mod 2 ^ 32.
Definition u64 (x : Z) : Z := x mod 2 ^ 64.

(** [~x] on a 16-bit unsigned operand. *)
Definition not16 (x : Z) : Z := Z.lxor x 65535.

(** Two's-complement reading of the low 16 and 32 bits ([int16_t], [long]). *)
Definition s16 (x : Z) : Z := (x + 2 ^ 15) mod 2 ^ 16 - 2 ^ 15.
Definition s32 (x : Z) : Z := (x + 2 ^ 31) mod 2 ^ 32 - 2 ^ 31.

(** Clock frequency the firmware is built for (16 MHz ATmega328P). *)
Definition F_CPU : Z := 16000000.

(** ** [float]: IEEE-754 binary32, round to nearest even *)

Module F32.

Definition prec : Z := 24.
Definition emax : Z := 128.

Definition float := spec_float.

(** Conversion of an integer, and the four operations the firmware uses. *)
Definition of_Z (z : Z) : float := binary_normalize prec emax z 0 false.
Definition add : float -> float -> float := SFadd prec emax.
Definition mul : float -> float -> float := SFmul prec emax.
Definition div : float -> float -> float := SFdiv prec emax.

(** Conversion to an integer type discards the fractional part.  The
    conversion of an infinity or a NaN is undefined in C; the firmware never
    converts one and the model returns 0. *)
Definition to_Z (f : float) : Z :=
  match f with
  | S754_finite s m e =>
      let a := if 0 <=? e then Zpos m * 2 ^ e else Zpos m / 2 ^ (- e) in
      if s then - a else a
  | _ => 0
  end.

(** The rational number a finite float denotes. *)
Definition to_Q (f : float) : Q :=
  match f with
  | S754_finite s m e =>
      let a := if 0 <=? e then inject_Z (Zpos m * 2 ^ e)
               else Qmake (Zpos m) (Pos.pow 2 (Z.to_pos (- e))) in
      if s then Qopp a else a
  | _ => 0%Q
  end.

End F32.

(** Arduino core: [long map(long x, long in_min, long in_max, long out_min,
    long out_max)], integer arithmetic on 32-bit [long], division truncating
    towards zero. *)
Definition map_long (x in_min in_max out_min out_max : Z) : Z :=
  s32 (Z.quot (s32 (s32 (x - in_min) * s32 (out_max - out_min)))
              (s32 (in_max - in_min))
       + out_min).

(** ** buttons.h / buttons.cpp *)

Module Buttons.

(** The five logical inputs served by the class. *)
Inductive LogicalInput := UP | DOWN | WEATHER | SET | ALARM.

(** Data members of [class Buttons] that take part in sampling and
    debouncing: the [volatile boolean] raw levels written by the pin-change
    interrupt, the reported values [*_last] and the 16-bit histories
    [*_state]. *)
Record t := mk {
  up : bool; down : bool; weather : bool; set : bool; alarm : bool;
  up_last : bool; down_last : bool; weather_last : bool;
  set_last : bool; alarm_last : bool;
  up_state : Z; down_state : Z; weather_state : Z;
  set_state : Z; alarm_state : Z
}.

(** Electrical levels of the five input pins ([true] is HIGH; the inputs
    have pull-ups, so a pressed button reads LOW). *)
Record Pins := mkPins {
  pin_up : bool; pin_down : bool; pin_weather : bool;
  pin_set : bool; pin_alarm : bool
}.

(** [digitalPinToPCICRbit] of the Arduino core for the pins of pins.h:
    D5 and D6 are on port D (bit 2), A1..A3 on port C (bit 1). *)
Definition PCICR_BTN_UP : Z := 2.
Definition PCICR_BTN_DOWN : Z := 1.
Definition PCICR_BTN_WEATHER : Z := 1.
Definition PCICR_BTN_SET : Z := 2.
Definition PCICR_SW_ALARM : Z := 1.

(** [Buttons::read]: refresh the raw level of every input whose
    pin-change vector fired (255 refreshes all of them). *)
Definition read (pcicr_bit : Z) (p : Pins) (b : t) : t :=
  let sel (bit : Z) (old new : bool) :=
    if (pcicr_bit =? bit) || (pcicr_bit =? 255) then new else old in
  mk (sel PCICR_BTN_UP (up b) (negb (pin_up p)))
     (sel PCICR_BTN_DOWN (down b) (negb (pin_down p)))
     (sel PCICR_BTN_WEATHER (weather b) (negb (pin_weather p)))
     (sel PCICR_BTN_SET (set b) (negb (pin_set p)))
     (sel PCICR_SW_ALARM (alarm b) (negb (pin_alarm p)))
     (up_last b) (down_last b) (weather_last b) (set_last b) (alarm_last b)
     (up_state b) (down_state b) (weather_state b) (set_state b)
     (alarm_state b).

(** The macro [DEBOUNCING_RETURN(name, name_state, name_last)]:
    the new history, and the new reported value, which is also the value
    returned. *)
Definition DEBOUNCING_RETURN (name : bool) (name_state : Z)
    (name_last : bool) : Z * bool :=
  let name_state := u16 (Z.shiftl name_state 1) in
  let name_state := u16 (Z.lor name_state (Z.land (Z.b2z name) 1)) in
  let name_last :=
    if name_state =? 65535 then true
    else if name_state =? 0 then false
    else name_last in
  (name_state, name_last).

Definition get_up (b : t) : bool * t :=
  let up_ := up b in
  let '(st, l) := DEBOUNCING_RETURN up_ (up_state b) (up_last b) in
  (l, mk (up b) (down b) (weather b) (set b) (alarm b)
         l (down_last b) (weather_last b) (set_last b) (alarm_last b)
         st (down_state b) (weather_state b) (set_state b) (alarm_state b)).

Definition get_down (b : t) : bool * t :=
  let down_ := down b in
  let '(st, l) := DEBOUNCING_RETURN down_ (down_state b) (down_last b) in
  (l, mk (up b) (down b) (weather b) (set b) (alarm b)
         (up_last b) l (weather_last b) (set_last b) (alarm_last b)
         (up_state b) st (weather_state b) (set_state b) (alarm_state b)).

Definition get_weather (b : t) : bool * t :=
  let weather_ := weather b in
  let '(st, l) :=
    DEBOUNCING_RETURN weather_ (weather_state b) (weather_last b) in
  (l, mk (up b) (down b) (weather b) (set b) (alarm b)
         (up_last b) (down_last b) l (set_last b) (alarm_last b)
         (up_state b) (down_state b) st (set_state b) (alarm_state b)).

Definition get_set (b : t) : bool * t :=
  let set_ := set b in
  let '(st, l) := DEBOUNCING_RETURN set_ (set_state b) (set_last b) in
  (l, mk (up b) (down b) (weather b) (set b) (alarm b)
         (up_last b) (down_last b) (weather_last b) l (alarm_last b)
         (up_state b) (down_state b) (weather_state b) st (alarm_state b)).

Definition get_alarm (b : t) : bool * t :=
  let alarm_ := alarm b in
  let '(st, l) := DEBOUNCING_RETURN alarm_ (alarm_state b) (alarm_last b) in
  (l, mk (up b) (down b) (weather b) (set b) (alarm b)
         (up_last b) (down_last b) (weather_last b) (set_last b) l
         (up_state b) (down_state b) (weather_state b) (set_state b) st).

(** Uniform access to the members of one logical input. *)
Definition poll (i : LogicalInput) : t -> bool * t :=
  match i with
  | UP => get_up | DOWN => get_down | WEATHER => get_weather
  | SET => get_set | ALARM => get_alarm
  end.

Definition raw (i : LogicalInput) : t -> bool :=
  match i with
  | UP => up | DOWN => down | WEATHER => weather
  | SET => set | ALARM => alarm
  end.

Definition last (i : LogicalInput) : t -> bool :=
  match i with
  | UP => up_last | DOWN => down_last | WEATHER => weather_last
  | SET => set_last | ALARM => alarm_last
  end.

Definition state (i : LogicalInput) : t -> Z :=
  match i with
  | UP => up_state | DOWN => down_state | WEATHER => weather_state
  | SET => set_state | ALARM => alarm_state
  end.

(** The interrupt handler storing the raw sample [v] for input [i]:
    [read] with the pin of [i] at the level that reads as [v] and the
    other pins at the levels that reproduce their stored samples. *)
Definition sample (i : LogicalInput) (v : bool) (b : t) : t :=
  let lvl (j : LogicalInput) (same : bool) :=
    negb (if same then v else raw j b) in
  read 255
    (mkPins (lvl UP match i with UP => true | _ => false end)
            (lvl DOWN match i with DOWN => true | _ => false end)
            (lvl WEATHER match i with WEATHER => true | _ => false end)
            (lvl SET match i with SET => true | _ => false end)
            (lvl ALARM match i with ALARM => true | _ => false end))
    b.

(** Main-loop polling of input [i] while the interrupt handler delivers
    the raw samples [vs], one before each poll; the values returned by the
    polls, oldest first, and the final object. *)
Fixpoint poll_samples (i : LogicalInput) (vs : list bool) (b : t)
    : list bool * t :=
  match vs with
  | [] => ([], b)
  | v :: vs' =>
      let '(r, b1) := poll i (sample i v b) in
      let '(rs, b2) := poll_samples i vs' b1 in
      (r :: rs, b2)
  end.

(** A global object is zero-initialised. *)
Definition initial : t :=
  mk false false false false false false false false false false 0 0 0 0 0.

End Buttons.

(** ** pins.h / digits.h / digits.cpp *)

Module Digits.

(** Number of nixies. *)
Definition DIGITS_NUM : Z := 4.

(** pins.h: anode word of each tube, cathode word of each numeral and the
    separator word, as wired to the two chained shift registers. *)
Definition PINS_ANODES : list Z := [0x2000; 0x0800; 0x0080; 0x0004].
Definition PINS_NUMBERS : list Z :=
  [0x4000; 0x0001; 0x8000; 0x1000; 0x0400; 0x0200; 0x0040; 0x0008;
   0x0020; 0x0002].
Definition PIN_SEPARATOR : Z := 0x0010.

(** [pgm_read_word(&table[i])] for an index inside the table. *)
Definition pgm_read_word (table : list Z) (i : Z) : Z :=
  nth (Z.to_nat i) table 0.

(** The preprocessor switches that select the branches of
    [Digits::write].  [anodes_num] is the bound named by the branch that
    is compiled when [ANODES_INVERTED] is not defined. *)
Record Config := mkConfig {
  ANODES_INVERTED : bool;
  NUMBERS_INVERTED : bool;
  SEPARATOR_INVERTED : bool;
  anodes_num : Z
}.

(** pins.h as shipped: only [ANODES_INVERTED] is defined. *)
Definition pins_h : Config := mkConfig true false false DIGITS_NUM.

(** [for (uint8_t i = 0; i < n; ++i) acc |= pgm_read_word(&table[i]);] *)
Definition or_all (table : list Z) (n : nat) : Z :=
  fold_left (fun acc i => u16 (Z.lor acc (pgm_read_word table (Z.of_nat i))))
            (seq 0 n) 0.

(** The 16-bit word computed by [Digits::write] before it is shifted out. *)
Definition write_mask (cfg : Config) (anode number : Z) (separator : bool)
    : Z :=
  let anode_mask :=
    if ANODES_INVERTED cfg then
      let anode_mask := or_all PINS_ANODES (Z.to_nat DIGITS_NUM) in
      if anode <? DIGITS_NUM
      then u16 (Z.land anode_mask (not16 (pgm_read_word PINS_ANODES anode)))
      else anode_mask
    else
      if anode <? anodes_num cfg then pgm_read_word PINS_ANODES anode else 0
  in
  let numbers_mask :=
    if NUMBERS_INVERTED cfg then
      let numbers_mask := or_all PINS_NUMBERS 10 in
      if number <? 10
      then u16 (Z.land numbers_mask
                       (not16 (pgm_read_word PINS_NUMBERS number)))
      else numbers_mask
    else
      if number <? 10 then pgm_read_word PINS_NUMBERS number else 0
  in
  let mask := u16 (Z.lor anode_mask numbers_mask) in
  let mask :=
    if SEPARATOR_INVERTED cfg then
      if separator then u16 (Z.land mask (not16 PIN_SEPARATOR))
      else u16 (Z.lor mask PIN_SEPARATOR)
    else mask
  in
  if separator then u16 (Z.lor mask PIN_SEPARATOR)
  else u16 (Z.land mask (not16 PIN_SEPARATOR)).

(** What reaches the shift registers. *)
Inductive spi_event :=
| LatchLow
| Transfer (byte : Z)
| LatchHigh.

(** [Digits::write]: the latch strobe around the two bytes of the mask,
    low byte first. *)
Definition write (cfg : Config) (anode number : Z) (separator : bool)
    : list spi_event :=
  let mask := write_mask cfg anode number separator in
  [LatchLow;
   Transfer (Z.land mask 0xFF);
   Transfer (Z.land (Z.shiftr mask 8) 0xFF);
   LatchHigh].

(** Data members of [class Digits] read by the multiplexing interrupt. *)
Record t := mk {
  current_numbers : list Z;
  digit_counter : Z;
  current_separator_state : bool
}.

(** Zero-initialised global object, then [init] calls [set()] with the
    default arguments (all tubes blank). *)
Definition initial : t := mk [255; 255; 255; 255] 0 false.

Definition set (digit_1 digit_2 digit_3 digit_4 : Z) (d : t) : t :=
  mk [u8 digit_1; u8 digit_2; u8 digit_3; u8 digit_4]
     (digit_counter d) (current_separator_state d).

Definition set_separator (state : bool) (d : t) : t :=
  mk (current_numbers d) (digit_counter d) state.

(** The arguments of one call of [write]. *)
Record write_call := mkCall {
  call_anode : Z; call_number : Z; call_separator : bool
}.

(** [Digits::isr_callback_handler]: the call of [write] it makes and the
    object afterwards.  [digit_counter] is a [uint8_t]. *)
Definition isr_callback_handler (d : t) : write_call * t :=
  let call :=
    mkCall (digit_counter d)
           (nth (Z.to_nat (digit_counter d)) (current_numbers d) 0)
           (current_separator_state d) in
  let digit_counter := u8 (digit_counter d + 1) in
  let digit_counter :=
    if digit_counter =? DIGITS_NUM then 0 else digit_counter in
  (call, mk (current_numbers d) digit_counter (current_separator_state d)).

(** What the shift registers receive on one timer tick. *)
Definition tick_output (cfg : Config) (d : t) : list spi_event :=
  let c := fst (isr_callback_handler d) in
  write cfg (call_anode c) (call_number c) (call_separator c).

(** The operations that touch the object: the timer interrupt and the
    two setters called from the main loop. *)
Inductive op :=
| Tick
| SetDigits (digit_1 digit_2 digit_3 digit_4 : Z)
| SetSeparator (state : bool).

Definition is_tick (o : op) : bool :=
  match o with Tick => true | _ => false end.

(** Running a schedule of operations: the calls of [write] made by the
    ticks, oldest first, and the final object. *)
Fixpoint run (ops : list op) (d : t) : list write_call * t :=
  match ops with
  | [] => ([], d)
  | Tick :: ops' =>
      let '(c, d1) := isr_callback_handler d in
      let '(cs, d2) := run ops' d1 in
      (c :: cs, d2)
  | SetDigits d1 d2 d3 d4 :: ops' => run ops' (set d1 d2 d3 d4 d)
  | SetSeparator s :: ops' => run ops' (set_separator s d)
  end.

(** Positions selected by the ticks of a schedule. *)
Definition selected (ops : list op) (d : t) : list Z :=
  map call_anode (fst (run ops d)).

(** The mask as the specification words it: the anode words of every
    position but [p], the cathode word of [d] when [d] is a numeral, the
    separator word when requested. *)
Definition mask_spec (p d : Z) (separator : bool) : Z :=
  let others := filter (fun q => negb (q =? p)) [0; 1; 2; 3] in
  let anodes :=
    fold_right (fun q acc => Z.lor (pgm_read_word PINS_ANODES q) acc)
               0 others in
  let cathode := if d <=? 9 then pgm_read_word PINS_NUMBERS d else 0 in
  let sep := if separator then PIN_SEPARATOR else 0 in
  Z.lor (Z.lor anodes cathode) sep.

(** The position counter of a well-formed object. *)
Definition counter_ok (d : t) : Prop := 0 <= digit_counter d <= 3.

(** One row of the truth table of [write_mask], as shipped: the mask is
    the one the specification words, it fits 16 bits, it carries the anode
    word of every position but [p], the cathode word of [d] alone, the
    separator word as requested and nothing on the unwired output. *)
Definition table_row_ok (p d : Z) (separator : bool) : bool :=
  let mask := write_mask pins_h p d separator in
  (mask =? mask_spec p d separator)
  && (0 <=? mask) && (mask <? 2 ^ 16)
  && forallb (fun q =>
                Z.land mask (pgm_read_word PINS_ANODES q)
                =? (if q =? p then 0 else pgm_read_word PINS_ANODES q))
             [0; 1; 2; 3]
  && forallb (fun e =>
                Z.land mask (pgm_read_word PINS_NUMBERS e)
                =? (if e =? d then pgm_read_word PINS_NUMBERS e else 0))
             [0; 1; 2; 3; 4; 5; 6; 7; 8; 9]
  && (Z.land mask PIN_SEPARATOR =? (if separator then PIN_SEPARATOR else 0))
  && (Z.land mask 0x0100 =? 0).

End Digits.

(** ** lib/PetalPID *)

Module PetalPID.

(** Modelled from the spec: the PetalPID library (lib/PetalPID/src) is not
    among the sources.  The specification describes one PID step "with
    configurable proportional/integral/derivative gains, output clamped to
    [min,max] and integral term independently clamped to prevent windup".
    The controller is modelled over the rationals. *)
Record t := mk {
  p_gain : Q; i_gain : Q; d_gain : Q;
  min_out : Q; max_out : Q;
  min_integral : Q; max_integral : Q;
  integral : Q;
  prev_error : Q;
  prev_time : Z
}.

(** Modelled from the spec: clamping of a value to a band. *)
Definition clamp (lo hi x : Q) : Q :=
  if Qle_bool x lo then lo else if Qle_bool hi x then hi else x.

(** Modelled from the spec: the constructor
    [PetalPID(p, i, d, min_out, max_out)]; the integral band is the output
    band until [set_min_max_integral] replaces it. *)
Definition create (p i d min_out max_out : Q) : t :=
  mk p i d min_out max_out min_out max_out 0 0 0.

(** Modelled from the spec: [set_min_max_integral(min, max)]. *)
Definition set_min_max_integral (lo hi : Q) (c : t) : t :=
  mk (p_gain c) (i_gain c) (d_gain c) (min_out c) (max_out c) lo hi
     (clamp lo hi (integral c)) (prev_error c) (prev_time c).

(** Modelled from the spec: [calculate(input, setpoint, time_us)], one PID
    step: the integral term accumulates the error over the elapsed time and
    is clamped to its own band, the sum of the three terms is clamped to the
    output band. *)
Definition calculate (input setpoint : Q) (time_us : Z) (c : t) : Q * t :=
  let error := (setpoint - input)%Q in
  let dt := (inject_Z (u32 (time_us - prev_time c)) / inject_Z 1000000)%Q in
  let integral :=
    clamp (min_integral c) (max_integral c)
          (integral c + i_gain c * error * dt)%Q in
  let derivative := ((error - prev_error c) / dt)%Q in
  let output :=
    clamp (min_out c) (max_out c)
          (p_gain c * error + integral + d_gain c * derivative)%Q in
  (output,
   mk (p_gain c) (i_gain c) (d_gain c) (min_out c) (max_out c)
      (min_integral c) (max_integral c) integral error time_us).

End PetalPID.

(** ** config.h / power.h / power.cpp *)

Module Power.

(** config.h *)
Definition CONVERTER_FREQUENCY : Z := 40000.
Definition CONVERTER_PERIOD_CYCLES : Z :=
  (F_CPU / 100000 * ((1000 * 1000) / CONVERTER_FREQUENCY)) / 20.
Definition CONVERTER_SOFT_START_TIME : Z := 1000.
Definition VREF_ACTUAL_MV : F32.float :=
  F32.div (F32.of_Z 1106) (F32.of_Z 1000).
Definition CONVERTER_R_HIGH : F32.float := F32.of_Z 986000.
Definition CONVERTER_R_LOW : F32.float := F32.of_Z 4270.
Definition PID_P_GAIN : Q := 85.
Definition PID_I_GAIN : Q := 114 # 10.
Definition PID_D_GAIN : Q := 0.
Definition PID_MIN_OUT : Q := 0.
Definition PID_MAX_OUT : Q := 512.
Definition PID_MIN_INTEGRAL : Q := - (1000).
Definition PID_MAX_INTEGRAL : Q := 1000.

(** Data members of [class Power] and the compare register of Timer 1. *)
Record t := mk {
  pid : PetalPID.t;
  voltage : F32.float;
  setpoint : Z;
  setpoint_temp : Z;
  time_started : Z;
  OCR1A : Z
}.

(** [Power::set_duty_cycle]: [OCR1A] is a 16-bit register, the product is
    formed in [uint32_t]. *)
Definition set_duty_cycle (duty_cycle : Z) (p : t) : t :=
  mk (pid p) (voltage p) (setpoint p) (setpoint_temp p) (time_started p)
     (u16 (Z.shiftr (u32 (CONVERTER_PERIOD_CYCLES * duty_cycle)) 10)).

(** The parts of [Power::init] that set data members: the controller is
    built from the constants of config.h and the output is switched off.
    The object is a zero-initialised global. *)
Definition init : t :=
  set_duty_cycle 0
    (mk (PetalPID.set_min_max_integral PID_MIN_INTEGRAL PID_MAX_INTEGRAL
           (PetalPID.create PID_P_GAIN PID_I_GAIN PID_D_GAIN
                            PID_MIN_OUT PID_MAX_OUT))
        (S754_zero false) 0 0 0 0).

Definition set_voltage (v : Z) (p : t) : t :=
  mk (pid p) (voltage p) (u8 v) (setpoint_temp p) (time_started p) (OCR1A p).

Definition get_voltage (p : t) : Z := setpoint p.

(** [Power::measure_voltage] for the ADC reading [adc]. *)
Definition measure_voltage (adc : Z) : F32.float :=
  let voltage := F32.mul (F32.div (F32.of_Z adc) (F32.of_Z 1023))
                         VREF_ACTUAL_MV in
  F32.div voltage
          (F32.div CONVERTER_R_LOW (F32.add CONVERTER_R_LOW CONVERTER_R_HIGH)).

(** The soft-start expression
    [(float) elapsed / (float) CONVERTER_SOFT_START_TIME * setpoint]
    converted to [uint8_t]. *)
Definition ramp (elapsed setpoint : Z) : Z :=
  u8 (F32.to_Z (F32.mul (F32.div (F32.of_Z elapsed)
                                 (F32.of_Z CONVERTER_SOFT_START_TIME))
                        (F32.of_Z setpoint))).

(** [Power::regulate] ([PID_AUTO_TUNE] is not defined).  [adc] is the
    value of [analogRead], [millis] and [micros] the clock readings of the
    call.  The PID output, a float inside the output band, is converted to
    the [uint16_t] argument of [set_duty_cycle]; the second component is that
    argument. *)
Definition regulate (adc millis micros : Z) (p : t) : t * Z :=
  let voltage := measure_voltage adc in
  let millis_current := millis in
  let time_started :=
    if time_started p =? 0 then millis_current else time_started p in
  let setpoint_temp :=
    if u64 (millis_current - time_started) >? CONVERTER_SOFT_START_TIME
    then setpoint p
    else ramp (u64 (millis_current - time_started)) (setpoint p) in
  let '(output, pid) :=
    PetalPID.calculate (F32.to_Q voltage) (inject_Z setpoint_temp) micros
                       (pid p) in
  let duty_cycle := u16 (Qfloor output) in
  (set_duty_cycle duty_cycle
     (mk pid voltage (setpoint p) setpoint_temp time_started (OCR1A p)),
   duty_cycle).

(** What the main loop does with the object: [regulate] on every pass,
    [set_voltage] when the voltage is edited. *)
Inductive op :=
| Regulate (adc millis micros : Z)
| SetVoltage (v : Z).

(** Running a schedule: the arguments given to [set_duty_cycle], oldest
    first, and the final object. *)
Fixpoint run (ops : list op) (p : t) : list Z * t :=
  match ops with
  | [] => ([], p)
  | Regulate adc millis micros :: ops' =>
      let '(p1, duty) := regulate adc millis micros p in
      let '(duties, p2) := run ops' p1 in
      (duty :: duties, p2)
  | SetVoltage v :: ops' => run ops' (set_voltage v p)
  end.

(** [f] holds of every natural number below [n]. *)
Fixpoint all_below (n : nat) (f : Z -> bool) : bool :=
  match n with
  | O => true
  | S k => f (Z.of_nat k) && all_below k f
  end.

(** The effective setpoint as the specification words it: the fraction
    [t / 1000] of the target while [t <= 1000], the target afterwards
    (rounded down to a whole number of volts). *)
Definition soft_start_spec (target t : Z) : Z :=
  if t <=? 1000 then t * target / 1000 else target.

(** The controller carries the bands of config.h and its integral term is
    inside its band. *)
Definition pid_configured (c : PetalPID.t) : Prop :=
  PetalPID.min_out c = PID_MIN_OUT
  /\ PetalPID.max_out c = PID_MAX_OUT
  /\ PetalPID.min_integral c = PID_MIN_INTEGRAL
  /\ PetalPID.max_integral c = PID_MAX_INTEGRAL
  /\ (PID_MIN_INTEGRAL <= PetalPID.integral c)%Q
  /\ (PetalPID.integral c <= PID_MAX_INTEGRAL)%Q.

End Power.

(** ** config.h / buzzer.h / buzzer.cpp *)

Module Buzzer.

(** config.h *)
Definition BUZZER_PWM_START : Z := 50.
Definition BUZZER_PWM_DEVIATION : Z := 40.
Definition DECAY_TIME : Z := 400.
Definition NOTE_DURATION_DIVIDERS : list Z := [1; 2; 2; 2; 4; 8].
Definition NOTE_DURATION_DIVIDERS_N : Z := 6.
Definition ALARM_CHIME_NOTES : list Z :=
  [0; 0; 62; 65; 69; 62; 65; 69; 86; 88; 89; 91; 93; 94; 96; 98].
Definition ALARM_CHIME_NOTES_N : Z := 16.
Definition ALARM_CHIME_BPM : F32.float := F32.of_Z 90.

(** buzzer.h; the bit numbers [CS20 = 0], [CS21 = 1], [CS22 = 2] and
    [WGM22 = 3] are those of the ATmega328P register [TCCR2B]. *)
Definition _RESOLUTION : Z := 256.
Definition _BV (bit : Z) : Z := Z.shiftl 1 bit.
Definition CS20 : Z := 0.
Definition CS21 : Z := 1.
Definition CS22 : Z := 2.
Definition WGM22 : Z := 3.
Definition _PRESCALER_1 : Z := _BV CS20.
Definition _PRESCALER_8 : Z := _BV CS21.
Definition _PRESCALER_32 : Z := Z.lor (_BV CS21) (_BV CS20).
Definition _PRESCALER_64 : Z := _BV CS22.
Definition _PRESCALER_128 : Z := Z.lor (_BV CS22) (_BV CS20).
Definition _PRESCALER_256 : Z := Z.lor (_BV CS22) (_BV CS21).
Definition _PRESCALER_1024 : Z :=
  Z.lor (Z.lor (_BV CS22) (_BV CS21)) (_BV CS20).

Definition pgm_read_byte (table : list Z) (i : Z) : Z :=
  nth (Z.to_nat i) table 0.

(** Data members of [class Buzzer], the Timer 2 registers the class writes,
    and [duty_cycle], the argument of the latest call of [set_duty_cycle]
    (the class does not store it: [OCR2B] holds its product with [OCR2A]). *)
Record t := mk {
  decay_timer : Z; chime_timer : Z;
  chime_note_duration : Z;
  prescaler_bits : Z;
  attack_pwm_value : Z; note_last : Z;
  note_duration_divider : Z; note_counter : Z;
  TCCR2B : Z; OCR2A : Z; OCR2B : Z;
  duty_cycle : Z
}.

(** [Buzzer::set_duty_cycle]: the two 8-bit operands are multiplied as 16-bit
    integers and the high byte of the product is stored in [OCR2B]. *)
Definition set_duty_cycle (duty : Z) (b : t) : t :=
  mk (decay_timer b) (chime_timer b) (chime_note_duration b)
     (prescaler_bits b) (attack_pwm_value b) (note_last b)
     (note_duration_divider b) (note_counter b)
     (TCCR2B b) (OCR2A b) (u8 (Z.shiftr (u16 (OCR2A b * duty)) 8))
     duty.

(** The prescaler search of [Buzzer::set_frequency] on the cycle count:
    the prescaler bits chosen and the count left for [OCR2A].  When no
    comparison succeeds the prescaler keeps its previous value. *)
Definition select_prescaler (old_bits cycles : Z) : Z * Z :=
  if cycles <? _RESOLUTION then (_PRESCALER_1, cycles) else
  let cycles := Z.shiftr cycles 3 in
  if cycles <? _RESOLUTION then (_PRESCALER_8, cycles) else
  let cycles := Z.shiftr cycles 2 in
  if cycles <? _RESOLUTION then (_PRESCALER_32, cycles) else
  let cycles := Z.shiftr cycles 1 in
  if cycles <? _RESOLUTION then (_PRESCALER_64, cycles) else
  let cycles := Z.shiftr cycles 1 in
  if cycles <? _RESOLUTION then (_PRESCALER_128, cycles) else
  let cycles := Z.shiftr cycles 1 in
  if cycles <? _RESOLUTION then (_PRESCALER_256, cycles) else
  let cycles := Z.shiftr cycles 2 in
  if cycles <? _RESOLUTION then (_PRESCALER_1024, cycles) else
  (old_bits, cycles).

(** [Buzzer::set_frequency]. *)
Definition set_frequency (frequency : F32.float) (b : t) : t :=
  let cycles :=
    u32 (F32.to_Z (F32.mul (F32.of_Z (F_CPU / 2000000))
                           (F32.div (F32.of_Z 1000000) frequency))) in
  let '(bits, cycles) := select_prescaler (prescaler_bits b) cycles in
  mk (decay_timer b) (chime_timer b) (chime_note_duration b)
     bits (attack_pwm_value b) (note_last b)
     (note_duration_divider b) (note_counter b)
     (u8 (Z.lor (_BV WGM22) bits)) (u8 cycles) (OCR2B b)
     (duty_cycle b).

(** The PWM configuration: what a change of frequency writes. *)
Definition frequency_registers (b : t) : Z * Z * Z :=
  (prescaler_bits b, TCCR2B b, OCR2A b).

Section Notes.

(** The value of
    [(A_BASE / 32.f) * powf(2.f, ((note_number - 9U) / 12.f))]:
    [powf] belongs to the C library and is left uninterpreted. *)
Variable note_frequency : Z -> F32.float.

(** [Buzzer::play_note]; [millis] is the clock reading of the call. *)
Definition play_note (note_number pwm : Z) (millis : Z) (b : t) : t :=
  let b :=
    if negb (note_number =? note_last b) then
      let b :=
        if negb (note_number =? 0)
        then set_frequency (note_frequency note_number) b
        else b in
      mk (decay_timer b) (chime_timer b) (chime_note_duration b)
         (prescaler_bits b) (attack_pwm_value b) note_number
         (note_duration_divider b) (note_counter b)
         (TCCR2B b) (OCR2A b) (OCR2B b) (duty_cycle b)
    else b in
  let attack := if negb (note_number =? 0) then pwm else 0 in
  let b :=
    set_duty_cycle attack
      (mk (decay_timer b) (chime_timer b) (chime_note_duration b)
          (prescaler_bits b) attack (note_last b)
          (note_duration_divider b) (note_counter b)
          (TCCR2B b) (OCR2A b) (OCR2B b) (duty_cycle b)) in
  mk millis (chime_timer b) (chime_note_duration b)
     (prescaler_bits b) (attack_pwm_value b) (note_last b)
     (note_duration_divider b) (note_counter b)
     (TCCR2B b) (OCR2A b) (OCR2B b) (duty_cycle b).

(** The note duration computed after a draw:
    [60000.f / ALARM_CHIME_BPM / (float) note_duration_divider] stored in a
    [uint16_t]. *)
Definition note_duration (divider : Z) : Z :=
  u16 (F32.to_Z (F32.div (F32.div (F32.of_Z 60000) ALARM_CHIME_BPM)
                         (F32.of_Z divider))).

(** [Buzzer::play_chime].  [millis] is the clock reading at entry,
    [millis_note] the one taken inside [play_note]; [r1], [r2], [r3] are the
    successive results of [random()] ([r3] is only consumed when a divider
    is drawn).  The boolean tells whether a note was played, the second one
    whether a divider was drawn. *)
Definition play_chime (millis millis_note r1 r2 r3 : Z) (b : t)
    : t * bool * bool :=
  let millis_current := millis in
  let timer :=
    if chime_timer b >? millis_current then millis_current
    else chime_timer b in
  if u64 (millis_current - timer) >=? chime_note_duration b then
    let timer := millis_current in
    let attack :=
      u8 (BUZZER_PWM_START
          + (s16 (Z.rem r1 BUZZER_PWM_DEVIATION * 2)
             - Z.quot (s16 BUZZER_PWM_DEVIATION) 2)) in
    let b :=
      mk (decay_timer b) timer (chime_note_duration b)
         (prescaler_bits b) attack (note_last b)
         (note_duration_divider b) (note_counter b)
         (TCCR2B b) (OCR2A b) (OCR2B b) (duty_cycle b) in
    let b :=
      play_note (pgm_read_byte ALARM_CHIME_NOTES (Z.rem r2 ALARM_CHIME_NOTES_N))
                (attack_pwm_value b) millis_note b in
    let note_counter := u8 (note_counter b + 1) in
    if note_counter >? note_duration_divider b then
      let divider :=
        pgm_read_byte NOTE_DURATION_DIVIDERS
                      (Z.rem r3 NOTE_DURATION_DIVIDERS_N) in
      (mk (decay_timer b) (chime_timer b) (note_duration divider)
          (prescaler_bits b) (attack_pwm_value b) (note_last b)
          divider 0
          (TCCR2B b) (OCR2A b) (OCR2B b) (duty_cycle b),
       true, true)
    else
      (mk (decay_timer b) (chime_timer b) (chime_note_duration b)
          (prescaler_bits b) (attack_pwm_value b) (note_last b)
          (note_duration_divider b) note_counter
          (TCCR2B b) (OCR2A b) (OCR2B b) (duty_cycle b),
       true, false)
  else
    (mk (decay_timer b) timer (chime_note_duration b)
        (prescaler_bits b) (attack_pwm_value b) (note_last b)
        (note_duration_divider b) (note_counter b)
        (TCCR2B b) (OCR2A b) (OCR2B b) (duty_cycle b),
     false, false).

End Notes.

(** [Buzzer::decay]; [millis] is the clock reading of the call. *)
Definition decay (millis : Z) (b : t) : t :=
  let millis_current := millis in
  let decay_timer :=
    if decay_timer b >? millis_current then millis_current
    else decay_timer b in
  let b :=
    mk decay_timer (chime_timer b) (chime_note_duration b)
       (prescaler_bits b) (attack_pwm_value b) (note_last b)
       (note_duration_divider b) (note_counter b)
       (TCCR2B b) (OCR2A b) (OCR2B b) (duty_cycle b) in
  if negb (decay_timer =? 0)
     && (u64 (millis_current - decay_timer) >=? DECAY_TIME) then
    set_duty_cycle 0
      (mk 0 (chime_timer b) (chime_note_duration b)
          (prescaler_bits b) (attack_pwm_value b) (note_last b)
          (note_duration_divider b) (note_counter b)
          (TCCR2B b) (OCR2A b) (OCR2B b) (duty_cycle b))
  else if u64 (millis_current - decay_timer) <? DECAY_TIME then
    let duty :=
      u8 (map_long (s32 (u64 (millis_current - decay_timer))) 0 DECAY_TIME
                   (attack_pwm_value b) 0) in
    set_duty_cycle duty b
  else b.

(** The object with one of its timestamps replaced. *)
Definition with_decay_timer (v : Z) (b : t) : t :=
  mk v (chime_timer b) (chime_note_duration b)
     (prescaler_bits b) (attack_pwm_value b) (note_last b)
     (note_duration_divider b) (note_counter b)
     (TCCR2B b) (OCR2A b) (OCR2B b) (duty_cycle b).

Definition with_chime_timer (v : Z) (b : t) : t :=
  mk (decay_timer b) v (chime_note_duration b)
     (prescaler_bits b) (attack_pwm_value b) (note_last b)
     (note_duration_divider b) (note_counter b)
     (TCCR2B b) (OCR2A b) (OCR2B b) (duty_cycle b).

(** The duty cycle set by each of the calls of [decay] made at the clock
    readings [ts]. *)
Fixpoint decay_trace (ts : list Z) (b : t) : list Z :=
  match ts with
  | [] => []
  | now :: ts' => duty_cycle (decay now b) :: decay_trace ts' (decay now b)
  end.

(** Clock readings that never go back, starting from [start]. *)
Fixpoint monotone_from (start : Z) (ts : list Z) : Prop :=
  match ts with
  | [] => True
  | now :: ts' => start <= now /\ monotone_from now ts'
  end.

(** What one call of [play_chime] reads from its environment. *)
Record chime_input := mkInput {
  in_millis : Z; in_millis_note : Z; in_r1 : Z; in_r2 : Z; in_r3 : Z
}.

(** What the main loop does with the object. *)
Inductive op :=
| PlayNote (note_number pwm millis : Z)
| Decay (millis : Z)
| PlayChime (i : chime_input).

(** The results of [random()] are not negative. *)
Definition op_ok (o : op) : Prop :=
  match o with
  | PlayChime i => 0 <= in_r3 i
  | _ => True
  end.

(** Running a schedule: for each call of [play_chime] whether a note was
    played and whether a divider was drawn, and the final object. *)
Fixpoint run (note_frequency : Z -> F32.float) (ops : list op) (b : t)
    : list (bool * bool) * t :=
  match ops with
  | [] => ([], b)
  | PlayNote n v now :: ops' =>
      run note_frequency ops' (play_note note_frequency n v now b)
  | Decay now :: ops' => run note_frequency ops' (decay now b)
  | PlayChime i :: ops' =>
      let '(b1, played, drawn) :=
        play_chime note_frequency (in_millis i) (in_millis_note i)
                   (in_r1 i) (in_r2 i) (in_r3 i) b in
      let '(flags, b2) := run note_frequency ops' b1 in
      ((played, drawn) :: flags, b2)
  end.

(** Notes played since the latest draw ([acc] of them before [flags]). *)
Fixpoint since_draw (acc : nat) (flags : list (bool * bool)) : nat :=
  match flags with
  | [] => acc
  | (played, drawn) :: flags' =>
      since_draw (if drawn then O else if played then S acc else acc) flags'
  end.

Definition notes_played (flags : list (bool * bool)) : nat :=
  length (filter fst flags).

Definition draws (flags : list (bool * bool)) : nat :=
  length (filter snd flags).

(** A stand-in for the uninterpreted pitch table, used where a concrete
    run is evaluated: every note sounds at 440 Hz. *)
Definition concert_pitch (note_number : Z) : F32.float := F32.of_Z 440.

(** Zero-initialised global object after [Buzzer::init]: the timer is set
    up for 1 kHz and the output is switched off. *)
Definition init : t :=
  set_duty_cycle 0
    (set_frequency (F32.of_Z 1000)
       (mk 0 0 0 0 0 0 0 0 (_BV WGM22) 0 0 0)).

(** [decay] called at each of the clock readings [ts] in turn. *)
Definition decay_calls (ts : list Z) (b : t) : t :=
  fold_left (fun b now => decay now b) ts b.

(** The decay envelope as the specification words it: a linear ramp from
    the attack velocity [v] down to 0 over 400 ms, then 0. *)
Definition decay_spec (v t : Z) : Z :=
  if t <? 400 then v - t * v / 400 else 0.

(** The state of the envelope of a note of velocity [v] started at the
    clock reading [T0], once [decay] has been called up to the reading
    [last]: armed while less than 400 ms have passed, disarmed with the
    output off afterwards. *)
Definition envelope (v T0 last : Z) (b : t) : Prop :=
  attack_pwm_value b = v
  /\ duty_cycle b = decay_spec v (last - T0)
  /\ OCR2B b = u8 (Z.shiftr (u16 (OCR2A b * duty_cycle b)) 8)
  /\ ((decay_timer b = T0 /\ last - T0 < 400)
      \/ (decay_timer b = 0 /\ 400 <= last - T0)).

(** Whether a call of [play_chime] at the reading [now] finds a note due. *)
Definition note_due (now : Z) (b : t) : bool :=
  u64 (now - (if chime_timer b >? now then now else chime_timer b))
  >=? chime_note_duration b.

(** The sequencer between two calls: the note counter never exceeds the
    divider, which is 0 before the first draw and an entry of the table
    afterwards. *)
Definition sequencer_ok (b : t) : Prop :=
  0 <= note_counter b <= note_duration_divider b
  /\ (note_duration_divider b = 0
      \/ In (note_duration_divider b) NOTE_DURATION_DIVIDERS).

End Buzzer.

(** The 32-bit millisecond counter behind [millis()], as a function of the
    time elapsed since power-on. *)
Definition millis_at (elapsed_ms : Z) : Z := u32 elapsed_ms.

(** ** Sample sequences of the debouncer *)

Module Samples.

(** [vs] never holds [limit] samples equal to [v] in a row, [run] such
    samples having just been seen. *)
Fixpoint no_long_run (limit : nat) (v : bool) (run : nat) (vs : list bool)
    : bool :=
  match vs with
  | [] => true
  | x :: vs' =>
      if Bool.eqb x v
      then (S run <? limit)%nat && no_long_run limit v (S run) vs'
      else no_long_run limit v O vs'
  end.

(** Input [i] at rest on the level [r]: the reported value is [r] and the
    whole history agrees. *)
Definition settled (i : Buttons.LogicalInput) (r : bool) (b : Buttons.t)
    : Prop :=
  Buttons.last i b = r
  /\ Buttons.state i b = (if r then 65535 else 0).

End Samples.

(** ** Requests outside the display *)

Module Blank.

(** One row of the truth table of [Digits.write_mask] for a position that
    does not exist: every anode word is present (with [ANODES_INVERTED] no
    tube is driven), the cathode word of [d] alone, the separator word as
    requested. *)
Definition blank_row_ok (d : Z) (separator : bool) : bool :=
  let mask := Digits.write_mask Digits.pins_h 4 d separator in
  forallb (fun q =>
             Z.land mask (Digits.pgm_read_word Digits.PINS_ANODES q)
             =? Digits.pgm_read_word Digits.PINS_ANODES q)
          [0; 1; 2; 3]
  && forallb (fun e =>
                Z.land mask (Digits.pgm_read_word Digits.PINS_NUMBERS e)
                =? (if e =? d
                    then Digits.pgm_read_word Digits.PINS_NUMBERS e else 0))
             [0; 1; 2; 3; 4; 5; 6; 7; 8; 9]
  && (Z.land mask Digits.PIN_SEPARATOR
      =? (if separator then Digits.PIN_SEPARATOR else 0)).

End Blank.

(** ** rtc.h / rtc.cpp *)

Module RTC.

(** pins.h and rtc.h *)
Definition RTC_ADDRESS : Z := 0x68.
Definition REGISTER_TIME : Z := 0x00.
Definition REGISTER_CONTROL : Z := 0x0E.

(** What the class sends over the I2C bus. *)
Inductive wire_event :=
| BeginTransmission (address : Z)
| WireWrite (byte : Z)
| EndTransmission
| RequestFrom (address quantity : Z).

(** Data members of [class RTC]. *)
Record t := mk {
  hours_raw : Z; minutes_raw : Z; seconds_raw : Z;
  interrupt : bool
}.

(** [RTC::bcd_to_dec]; the operands are promoted to [int], the result is a
    [uint8_t]. *)
Definition bcd_to_dec (bcd : Z) : Z :=
  u8 (Z.land bcd 0x0F + 10 * Z.shiftr (Z.land bcd 0xF0) 4).

(** [RTC::dec_to_bcd]. *)
Definition dec_to_bcd (dec : Z) : Z :=
  u8 (Z.lor (Z.land (Z.rem dec 10) 0x0F)
            (Z.land (Z.shiftl (Z.quot dec 10) 4) 0xF0)).

(** [RTC::set]: the bus traffic; the object is not touched. *)
Definition set (hours minutes seconds : Z) : list wire_event :=
  [BeginTransmission RTC_ADDRESS;
   WireWrite REGISTER_TIME;
   WireWrite (dec_to_bcd seconds);
   WireWrite (dec_to_bcd minutes);
   WireWrite (dec_to_bcd hours);
   WireWrite 0x00; WireWrite 0x00; WireWrite 0x00; WireWrite 0x00;
   EndTransmission].

(** [RTC::read]: [status] is the result of [Wire.endTransmission()]
    (0 on success), [b0], [b1], [b2] are the values of the three calls of
    [Wire.read()], stored in [uint8_t] members. *)
Definition read (status b0 b1 b2 : Z) (r : t) : t :=
  if negb (status =? 0) then r
  else mk (u8 b2) (u8 b1) (u8 b0) (interrupt r).

Definition get_hours (r : t) : Z := bcd_to_dec (Z.land (hours_raw r) 0x3F).
Definition get_minutes (r : t) : Z :=
  bcd_to_dec (Z.land (minutes_raw r) 0x7F).
Definition get_seconds (r : t) : Z :=
  bcd_to_dec (Z.land (seconds_raw r) 0x7F).

Definition get_interrupt (r : t) : bool := interrupt r.

Definition clear_interrupt (r : t) : t :=
  if negb (get_interrupt r) then r
  else mk (hours_raw r) (minutes_raw r) (seconds_raw r) false.

(** [RTC::sqw_callback], the handler of the 1 Hz interrupt. *)
Definition sqw_callback (r : t) : t :=
  mk (hours_raw r) (minutes_raw r) (seconds_raw r) true.

(** The bytes a transmission carries: the register pointer, then the
    contents of the registers from there on. *)
Definition payload (tx : list wire_event) : list Z :=
  flat_map (fun e => match e with WireWrite b => [b] | _ => [] end) tx.

(** The two decimal digits of a packed byte are both numerals. *)
Definition valid_bcd (b : Z) : bool :=
  (Z.land b 0x0F <=? 9) && (Z.shiftr (Z.land b 0xF0) 4 <=? 9).

End RTC.

(** ** temp_humid.h / temp_humid.cpp *)

Module TempHumid.

Definition _POLYNOMIAL : Z := 0x31.
Definition READ_INTERVAL : Z := 20.
Definition TEMP_HUMID_FILTER_K : F32.float :=
  F32.div (F32.of_Z 994) (F32.of_Z 1000).

Definition INFINITY : F32.float := S754_infinity false.
Definition NAN : F32.float := S754_nan.
Definition sub : F32.float -> F32.float -> F32.float :=
  SFsub F32.prec F32.emax.
Definition eqb : F32.float -> F32.float -> bool := SFeqb.

(** Data members of [class TempHumid]. *)
Record t := mk {
  read_timer : Z;
  temperature_last : F32.float; temperature_filtered : F32.float;
  humidity_last : F32.float; humidity_filtered : F32.float
}.

(** The filter members after [TempHumid::init]; the object is a
    zero-initialised global. *)
Definition init : t := mk 0 INFINITY INFINITY INFINITY INFINITY.

(** One turn of the loop body of [crc_8] on the [uint8_t] register. *)
Definition crc_step (crc : Z) : Z :=
  if negb (Z.land crc 0x80 =? 0)
  then u8 (Z.lxor (Z.shiftl crc 1) _POLYNOMIAL)
  else u8 (Z.shiftl crc 1).

(** [TempHumid::crc_8]. *)
Definition crc_8 (byte_1 byte_2 : Z) : Z :=
  let crc := 0xFF in
  let crc := u8 (Z.lxor crc byte_1) in
  let crc := Nat.iter 8 crc_step crc in
  let crc := u8 (Z.lxor crc byte_2) in
  let crc := Nat.iter 8 crc_step crc in
  crc.

(** The six bytes of a measurement as [Wire.read()] returns them. *)
Record frame := mkFrame {
  temp_raw_0 : Z; temp_raw_1 : Z; temp_crc : Z;
  humid_raw_0 : Z; humid_raw_1 : Z; humid_crc : Z
}.

(** The integer part of the parsing in [read]: hundredths of a degree and
    hundredths of a percent. *)
Definition temp_centi (raw_0 raw_1 : Z) : Z :=
  let temp_raw := s32 (Z.lor (u32 (Z.shiftl raw_0 8)) raw_1) in
  s32 (Z.shiftr (s32 (4375 * temp_raw)) 14 - 4500).

Definition humid_centi (raw_0 raw_1 : Z) : Z :=
  let humid_raw := u32 (Z.lor (u32 (Z.shiftl raw_0 8)) raw_1) in
  u32 (Z.shiftr (u32 (625 * humid_raw)) 12).

(** The low-pass filter of [read] on one quantity: the new values of the
    members [*_last] and [*_filtered]. *)
Definition filter (value last filtered : F32.float)
    : F32.float * F32.float :=
  let last := if eqb last INFINITY then value else last in
  let filtered :=
    if eqb filtered INFINITY then value
    else
      F32.add
        (F32.add (F32.mul filtered TEMP_HUMID_FILTER_K)
                 (F32.div (F32.mul value
                                   (sub (F32.of_Z 1) TEMP_HUMID_FILTER_K))
                          (F32.of_Z 2)))
        (F32.div (F32.mul last (sub (F32.of_Z 1) TEMP_HUMID_FILTER_K))
                 (F32.of_Z 2)) in
  (value, filtered).

(** [TempHumid::read]: [millis_1] and [millis_2] are the two clock readings
    of the call, [status] the result of [Wire.endTransmission()], [f] the
    bytes received. *)
Definition read (millis_1 millis_2 status : Z) (f : frame) (s : t) : t :=
  if u64 (millis_1 - read_timer s) <? READ_INTERVAL then s
  else
    let s := mk millis_2 (temperature_last s) (temperature_filtered s)
                (humidity_last s) (humidity_filtered s) in
    if negb (status =? 0) then s
    else
      let temp_raw_0 := u8 (temp_raw_0 f) in
      let temp_raw_1 := u8 (temp_raw_1 f) in
      let temp_crc := u8 (temp_crc f) in
      let humid_raw_0 := u8 (humid_raw_0 f) in
      let humid_raw_1 := u8 (humid_raw_1 f) in
      let humid_crc := u8 (humid_crc f) in
      if negb (crc_8 temp_raw_0 temp_raw_1 =? temp_crc)
         || negb (crc_8 humid_raw_0 humid_raw_1 =? humid_crc)
      then s
      else
        let temperature :=
          F32.div (F32.of_Z (temp_centi temp_raw_0 temp_raw_1))
                  (F32.of_Z 100) in
        let '(temperature_last, temperature_filtered) :=
          filter temperature (temperature_last s) (temperature_filtered s) in
        let humidity :=
          F32.div (F32.of_Z (humid_centi humid_raw_0 humid_raw_1))
                  (F32.of_Z 100) in
        let '(humidity_last, humidity_filtered) :=
          filter humidity (humidity_last s) (humidity_filtered s) in
        mk (read_timer s) temperature_last temperature_filtered
           humidity_last humidity_filtered.

(** [TempHumid::get_temperature] and [get_humidity]. *)
Definition get_temperature (s : t) : F32.float :=
  if eqb (temperature_filtered s) NAN then F32.of_Z 0
  else temperature_filtered s.

Definition get_humidity (s : t) : F32.float :=
  if eqb (humidity_filtered s) NAN then F32.of_Z 0
  else humidity_filtered s.

(** The number of bits set in a byte. *)
Definition popcount8 (b : Z) : Z :=
  fold_right (fun k acc => Z.b2z (Z.testbit b k) + acc) 0
             [0; 1; 2; 3; 4; 5; 6; 7].

(** What a corruption [e_1], [e_2] of the two data bytes adds to the
    checksum. *)
Definition syndrome (e_1 e_2 : Z) : Z :=
  Nat.iter 8 crc_step (Z.lxor (Nat.iter 8 crc_step e_1) e_2).

(** The four filter members. *)
Definition filter_values (s : t)
    : F32.float * F32.float * F32.float * F32.float :=
  (temperature_last s, temperature_filtered s,
   humidity_last s, humidity_filtered s).

(** A value of the range of [uint8_t]. *)
Definition byte (x : Z) : Prop := 0 <= x <= 255.

End TempHumid.

(** ** Feedback divider *)

Module Feedback.

(** The value of the divider formula of [Power::measure_voltage] in exact
    arithmetic: [adc / 1023 * 1.106 / (R_LOW / (R_LOW + R_HIGH))] volts. *)
Definition exact_voltage (adc : Z) : Q :=
  (inject_Z adc / 1023) * (1106 # 1000) / (4270 / (4270 + 986000)).

Definition is_finite (f : F32.float) : bool :=
  match f with
  | S754_finite _ _ _ | S754_zero _ => true
  | _ => false
  end.

(** One row of the table of [Power::measure_voltage]: the result for [adc]
    is a number within [tolerance] of the exact value and below the result
    for [adc + 1]. *)
Definition tolerance : Q := 1 # 10000.

Definition measure_row_ok (adc : Z) : bool :=
  let v := Power.measure_voltage adc in
  let w := Power.measure_voltage (adc + 1) in
  is_finite v && is_finite w
  && Qle_bool (exact_voltage adc - tolerance) (F32.to_Q v)
  && Qle_bool (F32.to_Q v) (exact_voltage adc + tolerance)
  && Qle_bool (F32.to_Q v + (1 # 4)) (F32.to_Q w).

End Feedback.

(** ** Timer 2 *)

Module Prescaler.

(** The clock division selected by each setting of the bits CS22:CS20 of
    [TCCR2B], as the macros of buzzer.h name them. *)
Definition divisors : list (Z * Z) :=
  [(Buzzer._PRESCALER_1, 1); (Buzzer._PRESCALER_8, 8);
   (Buzzer._PRESCALER_32, 32); (Buzzer._PRESCALER_64, 64);
   (Buzzer._PRESCALER_128, 128); (Buzzer._PRESCALER_256, 256);
   (Buzzer._PRESCALER_1024, 1024)].

End Prescaler.

Module Levels.

(** Arguments as the C types of the firmware bound them: a velocity is a
    [uint8_t], a clock reading is not negative and fits the counter behind
    [millis()]. *)
Definition op_in_range (o : Buzzer.op) : Prop :=
  match o with
  | Buzzer.PlayNote n v now => 0 <= v <= 255 /\ 0 <= now < 2 ^ 32
  | Buzzer.Decay now => 0 <= now < 2 ^ 32
  | Buzzer.PlayChime i => 0 <= Buzzer.in_millis_note i < 2 ^ 32
  end.

(** The output between two calls: the duty cycle is inside the band set by
    the attack velocity, [OCR2A] is a byte, [OCR2B] holds the high byte of
    their product, and the decay timestamp is a clock reading. *)
Definition levels_ok (b : Buzzer.t) : Prop :=
  0 <= Buzzer.duty_cycle b <= Buzzer.attack_pwm_value b
  /\ Buzzer.attack_pwm_value b <= 255
  /\ 0 <= Buzzer.OCR2A b <= 255
  /\ Buzzer.OCR2B b = Buzzer.OCR2A b * Buzzer.duty_cycle b / 256
  /\ 0 <= Buzzer.decay_timer b < 2 ^ 32.

End Levels.

(** ** main.cpp *)

Module Main.

Definition MODE_TIME : Z := 0.
Definition MODE_VOLTAGE : Z := 1.
Definition MODE_SET_HOURS : Z := 2.
Definition MODE_SET_MINUTES : Z := 3.
Definition MODE_WEATHER : Z := 4.

(** config.h *)
Definition CONVERTER_SETPOINT_MIN : Z := 140.
Definition CONVERTER_SETPOINT_MAX : Z := 180.
Definition SEPARATOR_TIME : Z := 250.
Definition ALARM_PREVIEW_TIME : Z := 1000.
Definition ALARM_BLINK_RATE : Z := 100.
Definition SET_BLINK_RATE : Z := 250.
Definition BTN_INC_DEC_DELAY_LOW : Z := 250.
Definition BTN_INC_DEC_DELAY_HIGH : Z := 70.
Definition BTN_INC_DEC_DELAY_TRANS_TIME : Z := 2000.
Definition BUTTON_NOTE_PWM : Z := 10.
Definition NOTE_INCREMENT : Z := 91.
Definition NOTE_DECREMENT : Z := 88.
Definition NOTE_TIME_MODE : Z := 86.
Definition NOTE_SET_MODE : Z := 81.
Definition NOTE_WEATHER_MODE : Z := 93.
Definition NOTE_ALARM_ON : Z := 81.

(** pins.h *)
Definition POSITION_TO_NUMBER : list Z := [1; 7; 2; 8; 0; 6; 3; 9; 4; 5].
Definition NUMBER_TO_POSITION : list Z := [4; 0; 2; 6; 8; 9; 5; 1; 3; 7].

(** The global variables of main.cpp, the six global objects, the EEPROM
    as a map from addresses to cells, and the bytes [RTC::set] has put on
    the bus, oldest first. *)
Record t := mk {
  mode : Z;
  separator_timer : Z;
  blink_timer : Z;
  wave_timer : Z;
  btn_timer : Z;
  inc_dec_timer : Z;
  alarm_preview_timer : Z;
  set_hours : Z;
  set_minutes : Z;
  alarm_hours : Z;
  alarm_minutes : Z;
  alarm_disabled_hours : Z;
  alarm_disabled_minutes : Z;
  wave_positions : list Z;
  wave_counter : Z;
  inc_dec_delay : Z;
  separator : bool;
  blink_state : bool;
  set_last : bool;
  wave_started : bool;
  alarm_active : bool;
  power : Power.t;
  digits : Digits.t;
  rtc : RTC.t;
  temp_humid : TempHumid.t;
  buzzer : Buzzer.t;
  buttons : Buttons.t;
  eeprom : Z -> Z;
  rtc_set_log : list RTC.wire_event
}.

(** One function for each assignment to a variable or object. *)
Definition with_mode (v : Z) (m : t) : t :=
  mk v (separator_timer m) (blink_timer m) (wave_timer m) (btn_timer m)
     (inc_dec_timer m) (alarm_preview_timer m) (set_hours m) (set_minutes m)
     (alarm_hours m) (alarm_minutes m) (alarm_disabled_hours m)
     (alarm_disabled_minutes m) (wave_positions m) (wave_counter m)
     (inc_dec_delay m) (separator m) (blink_state m) (set_last m)
     (wave_started m) (alarm_active m) (power m) (digits m) (rtc m)
     (temp_humid m) (buzzer m) (buttons m) (eeprom m) (rtc_set_log m).

Definition with_separator_timer (v : Z) (m : t) : t :=
  mk (mode m) v (blink_timer m) (wave_timer m) (btn_timer m)
     (inc_dec_timer m) (alarm_preview_timer m) (set_hours m) (set_minutes m)
     (alarm_hours m) (alarm_minutes m) (alarm_disabled_hours m)
     (alarm_disabled_minutes m) (wave_positions m) (wave_counter m)
     (inc_dec_delay m) (separator m) (blink_state m) (set_last m)
     (wave_started m) (alarm_active m) (power m) (digits m) (rtc m)
     (temp_humid m) (buzzer m) (buttons m) (eeprom m) (rtc_set_log m).

Definition with_blink_timer (v : Z) (m : t) : t :=
  mk (mode m) (separator_timer m) v (wave_timer m) (btn_timer m)
     (inc_dec_timer m) (alarm_preview_timer m) (set_hours m) (set_minutes m)
     (alarm_hours m) (alarm_minutes m) (alarm_disabled_hours m)
     (alarm_disabled_minutes m) (wave_positions m) (wave_counter m)
     (inc_dec_delay m) (separator m) (blink_state m) (set_last m)
     (wave_started m) (alarm_active m) (power m) (digits m) (rtc m)
     (temp_humid m) (buzzer m) (buttons m) (eeprom m) (rtc_set_log m).

Definition with_wave_timer (v : Z) (m : t) : t :=
  mk (mode m) (separator_timer m) (blink_timer m) v (btn_timer m)
     (inc_dec_timer m) (alarm_preview_timer m) (set_hours m) (set_minutes m)
     (alarm_hours m) (alarm_minutes m) (alarm_disabled_hours m)
     (alarm_disabled_minutes m) (wave_positions m) (wave_counter m)
     (inc_dec_delay m) (separator m) (blink_state m) (set_last m)
     (wave_started m) (alarm_active m) (power m) (digits m) (rtc m)
     (temp_humid m) (buzzer m) (buttons m) (eeprom m) (rtc_set_log m).

Definition with_btn_timer (v : Z) (m : t) : t :=
  mk (mode m) (separator_timer m) (blink_timer m) (wave_timer m) v
     (inc_dec_timer m) (alarm_preview_timer m) (set_hours m) (set_minutes m)
     (alarm_hours m) (alarm_minutes m) (alarm_disabled_hours m)
     (alarm_disabled_minutes m) (wave_positions m) (wave_counter m)
     (inc_dec_delay m) (separator m) (blink_state m) (set_last m)
     (wave_started m) (alarm_active m) (power m) (digits m) (rtc m)
     (temp_humid m) (buzzer m) (buttons m) (eeprom m) (rtc_set_log m).

Definition with_inc_dec_timer (v : Z) (m : t) : t :=
  mk (mode m) (separator_timer m) (blink_timer m) (wave_timer m)
     (btn_timer m) v (alarm_preview_timer m) (set_hours m) (set_minutes m)
     (alarm_hours m) (alarm_minutes m) (alarm_disabled_hours m)
     (alarm_disabled_minutes m) (wave_positions m) (wave_counter m)
     (inc_dec_delay m) (separator m) (blink_state m) (set_last m)
     (wave_started m) (alarm_active m) (power m) (digits m) (rtc m)
     (temp_humid m) (buzzer m) (buttons m) (eeprom m) (rtc_set_log m).

Definition with_alarm_preview_timer (v : Z) (m : t) : t :=
  mk (mode m) (separator_timer m) (blink_timer m) (wave_timer m)
     (btn_timer m) (inc_dec_timer m) v (set_hours m) (set_minutes m)
     (alarm_hours m) (alarm_minutes m) (alarm_disabled_hours m)
     (alarm_disabled_minutes m) (wave_positions m) (wave_counter m)
     (inc_dec_delay m) (separator m) (blink_state m) (set_last m)
     (wave_started m) (alarm_active m) (power m) (digits m) (rtc m)
     (temp_humid m) (buzzer m) (buttons m) (eeprom m) (rtc_set_log m).

Definition with_set_hours (v : Z) (m : t) : t :=
  mk (mode m) (separator_timer m) (blink_timer m) (wave_timer m)
     (btn_timer m) (inc_dec_timer m) (alarm_preview_timer m) v
     (set_minutes m) (alarm_hours m) (alarm_minutes m)
     (alarm_disabled_hours m) (alarm_disabled_minutes m) (wave_positions m)
     (wave_counter m) (inc_dec_delay m) (separator m) (blink_state m)
     (set_last m) (wave_started m) (alarm_active m) (power m) (digits m)
     (rtc m) (temp_humid m) (buzzer m) (buttons m) (eeprom m) (rtc_set_log m).

Definition with_set_minutes (v : Z) (m : t) : t :=
  mk (mode m) (separator_timer m) (blink_timer m) (wave_timer m)
     (btn_timer m) (inc_dec_timer m) (alarm_preview_timer m) (set_hours m) v
     (alarm_hours m) (alarm_minutes m) (alarm_disabled_hours m)
     (alarm_disabled_minutes m) (wave_positions m) (wave_counter m)
     (inc_dec_delay m) (separator m) (blink_state m) (set_last m)
     (wave_started m) (alarm_active m) (power m) (digits m) (rtc m)
     (temp_humid m) (buzzer m) (buttons m) (eeprom m) (rtc_set_log m).

Definition with_alarm_hours (v : Z) (m : t) : t :=
  mk (mode m) (separator_timer m) (blink_timer m) (wave_timer m)
     (btn_timer m) (inc_dec_timer m) (alarm_preview_timer m) (set_hours m)
     (set_minutes m) v (alarm_minutes m) (alarm_disabled_hours m)
     (alarm_disabled_minutes m) (wave_positions m) (wave_counter m)
     (inc_dec_delay m) (separator m) (blink_state m) (set_last m)
     (wave_started m) (alarm_active m) (power m) (digits m) (rtc m)
     (temp_humid m) (buzzer m) (buttons m) (eeprom m) (rtc_set_log m).

Definition with_alarm_minutes (v : Z) (m : t) : t :=
  mk (mode m) (separator_timer m) (blink_timer m) (wave_timer m)
     (btn_timer m) (inc_dec_timer m) (alarm_preview_timer m) (set_hours m)
     (set_minutes m) (alarm_hours m) v (alarm_disabled_hours m)
     (alarm_disabled_minutes m) (wave_positions m) (wave_counter m)
     (inc_dec_delay m) (separator m) (blink_state m) (set_last m)
     (wave_started m) (alarm_active m) (power m) (digits m) (rtc m)
     (temp_humid m) (buzzer m) (buttons m) (eeprom m) (rtc_set_log m).

Definition with_alarm_disabled_hours (v : Z) (m : t) : t :=
  mk (mode m) (separator_timer m) (blink_timer m) (wave_timer m)
     (btn_timer m) (inc_dec_timer m) (alarm_preview_timer m) (set_hours m)
     (set_minutes m) (alarm_hours m) (alarm_minutes m) v
     (alarm_disabled_minutes m) (wave_positions m) (wave_counter m)
     (inc_dec_delay m) (separator m) (blink_state m) (set_last m)
     (wave_started m) (alarm_active m) (power m) (digits m) (rtc m)
     (temp_humid m) (buzzer m) (buttons m) (eeprom m) (rtc_set_log m).

Definition with_alarm_disabled_minutes (v : Z) (m : t) : t :=
  mk (mode m) (separator_timer m) (blink_timer m) (wave_timer m)
     (btn_timer m) (inc_dec_timer m) (alarm_preview_timer m) (set_hours m)
     (set_minutes m) (alarm_hours m) (alarm_minutes m)
     (alarm_disabled_hours m) v (wave_positions m) (wave_counter m)
     (inc_dec_delay m) (separator m) (blink_state m) (set_last m)
     (wave_started m) (alarm_active m) (power m) (digits m) (rtc m)
     (temp_humid m) (buzzer m) (buttons m) (eeprom m) (rtc_set_log m).

Definition with_wave_positions (v : list Z) (m : t) : t :=
  mk (mode m) (separator_timer m) (blink_timer m) (wave_timer m)
     (btn_timer m) (inc_dec_timer m) (alarm_preview_timer m) (set_hours m)
     (set_minutes m) (alarm_hours m) (alarm_minutes m)
     (alarm_disabled_hours m) (alarm_disabled_minutes m) v (wave_counter m)
     (inc_dec_delay m) (separator m) (blink_state m) (set_last m)
     (wave_started m) (alarm_active m) (power m) (digits m) (rtc m)
     (temp_humid m) (buzzer m) (buttons m) (eeprom m) (rtc_set_log m).

Definition with_wave_counter (v : Z) (m : t) : t :=
  mk (mode m) (separator_timer m) (blink_timer m) (wave_timer m)
     (btn_timer m) (inc_dec_timer m) (alarm_preview_timer m) (set_hours m)
     (set_minutes m) (alarm_hours m) (alarm_minutes m)
     (alarm_disabled_hours m) (alarm_disabled_minutes m) (wave_positions m) v
     (inc_dec_delay m) (separator m) (blink_state m) (set_last m)
     (wave_started m) (alarm_active m) (power m) (digits m) (rtc m)
     (temp_humid m) (buzzer m) (buttons m) (eeprom m) (rtc_set_log m).

Definition with_inc_dec_delay (v : Z) (m : t) : t :=
  mk (mode m) (separator_timer m) (blink_timer m) (wave_timer m)
     (btn_timer m) (inc_dec_timer m) (alarm_preview_timer m) (set_hours m)
     (set_minutes m) (alarm_hours m) (alarm_minutes m)
     (alarm_disabled_hours m) (alarm_disabled_minutes m) (wave_positions m)
     (wave_counter m) v (separator m) (blink_state m) (set_last m)
     (wave_started m) (alarm_active m) (power m) (digits m) (rtc m)
     (temp_humid m) (buzzer m) (buttons m) (eeprom m) (rtc_set_log m).

Definition with_blink_state (v : bool) (m : t) : t :=
  mk (mode m) (separator_timer m) (blink_timer m) (wave_timer m)
     (btn_timer m) (inc_dec_timer m) (alarm_preview_timer m) (set_hours m)
     (set_minutes m) (alarm_hours m) (alarm_minutes m)
     (alarm_disabled_hours m) (alarm_disabled_minutes m) (wave_positions m)
     (wave_counter m) (inc_dec_delay m) (separator m) v (set_last m)
     (wave_started m) (alarm_active m) (power m) (digits m) (rtc m)
     (temp_humid m) (buzzer m) (buttons m) (eeprom m) (rtc_set_log m).

Definition with_set_last (v : bool) (m : t) : t :=
  mk (mode m) (separator_timer m) (blink_timer m) (wave_timer m)
     (btn_timer m) (inc_dec_timer m) (alarm_preview_timer m) (set_hours m)
     (set_minutes m) (alarm_hours m) (alarm_minutes m)
     (alarm_disabled_hours m) (alarm_disabled_minutes m) (wave_positions m)
     (wave_counter m) (inc_dec_delay m) (separator m) (blink_state m) v
     (wave_started m) (alarm_active m) (power m) (digits m) (rtc m)
     (temp_humid m) (buzzer m) (buttons m) (eeprom m) (rtc_set_log m).

Definition with_wave_started (v : bool) (m : t) : t :=
  mk (mode m) (separator_timer m) (blink_timer m) (wave_timer m)
     (btn_timer m) (inc_dec_timer m) (alarm_preview_timer m) (set_hours m)
     (set_minutes m) (alarm_hours m) (alarm_minutes m)
     (alarm_disabled_hours m) (alarm_disabled_minutes m) (wave_positions m)
     (wave_counter m) (inc_dec_delay m) (separator m) (blink_state m)
     (set_last m) v (alarm_active m) (power m) (digits m) (rtc m)
     (temp_humid m) (buzzer m) (buttons m) (eeprom m) (rtc_set_log m).

Definition with_alarm_active (v : bool) (m : t) : t :=
  mk (mode m) (separator_timer m) (blink_timer m) (wave_timer m)
     (btn_timer m) (inc_dec_timer m) (alarm_preview_timer m) (set_hours m)
     (set_minutes m) (alarm_hours m) (alarm_minutes m)
     (alarm_disabled_hours m) (alarm_disabled_minutes m) (wave_positions m)
     (wave_counter m) (inc_dec_delay m) (separator m) (blink_state m)
     (set_last m) (wave_started m) v (power m) (digits m) (rtc m)
     (temp_humid m) (buzzer m) (buttons m) (eeprom m) (rtc_set_log m).

Definition with_power (v : Power.t) (m : t) : t :=
  mk (mode m) (separator_timer m) (blink_timer m) (wave_timer m)
     (btn_timer m) (inc_dec_timer m) (alarm_preview_timer m) (set_hours m)
     (set_minutes m) (alarm_hours m) (alarm_minutes m)
     (alarm_disabled_hours m) (alarm_disabled_minutes m) (wave_positions m)
     (wave_counter m) (inc_dec_delay m) (separator m) (blink_state m)
     (set_last m) (wave_started m) (alarm_active m) v (digits m) (rtc m)
     (temp_humid m) (buzzer m) (buttons m) (eeprom m) (rtc_set_log m).

Definition with_digits (v : Digits.t) (m : t) : t :=
  mk (mode m) (separator_timer m) (blink_timer m) (wave_timer m)
     (btn_timer m) (inc_dec_timer m) (alarm_preview_timer m) (set_hours m)
     (set_minutes m) (alarm_hours m) (alarm_minutes m)
     (alarm_disabled_hours m) (alarm_disabled_minutes m) (wave_positions m)
     (wave_counter m) (inc_dec_delay m) (separator m) (blink_state m)
     (set_last m) (wave_started m) (alarm_active m) (power m) v (rtc m)
     (temp_humid m) (buzzer m) (buttons m) (eeprom m) (rtc_set_log m).

Definition with_rtc (v : RTC.t) (m : t) : t :=
  mk (mode m) (separator_timer m) (blink_timer m) (wave_timer m)
     (btn_timer m) (inc_dec_timer m) (alarm_preview_timer m) (set_hours m)
     (set_minutes m) (alarm_hours m) (alarm_minutes m)
     (alarm_disabled_hours m) (alarm_disabled_minutes m) (wave_positions m)
     (wave_counter m) (inc_dec_delay m) (separator m) (blink_state m)
     (set_last m) (wave_started m) (alarm_active m) (power m) (digits m) v
     (temp_humid m) (buzzer m) (buttons m) (eeprom m) (rtc_set_log m).

Definition with_temp_humid (v : TempHumid.t) (m : t) : t :=
  mk (mode m) (separator_timer m) (blink_timer m) (wave_timer m)
     (btn_timer m) (inc_dec_timer m) (alarm_preview_timer m) (set_hours m)
     (set_minutes m) (alarm_hours m) (alarm_minutes m)
     (alarm_disabled_hours m) (alarm_disabled_minutes m) (wave_positions m)
     (wave_counter m) (inc_dec_delay m) (separator m) (blink_state m)
     (set_last m) (wave_started m) (alarm_active m) (power m) (digits m)
     (rtc m) v (buzzer m) (buttons m) (eeprom m) (rtc_set_log m).

Definition with_buzzer (v : Buzzer.t) (m : t) : t :=
  mk (mode m) (separator_timer m) (blink_timer m) (wave_timer m)
     (btn_timer m) (inc_dec_timer m) (alarm_preview_timer m) (set_hours m)
     (set_minutes m) (alarm_hours m) (alarm_minutes m)
     (alarm_disabled_hours m) (alarm_disabled_minutes m) (wave_positions m)
     (wave_counter m) (inc_dec_delay m) (separator m) (blink_state m)
     (set_last m) (wave_started m) (alarm_active m) (power m) (digits m)
     (rtc m) (temp_humid m) v (buttons m) (eeprom m) (rtc_set_log m).

Definition with_buttons (v : Buttons.t) (m : t) : t :=
  mk (mode m) (separator_timer m) (blink_timer m) (wave_timer m)
     (btn_timer m) (inc_dec_timer m) (alarm_preview_timer m) (set_hours m)
     (set_minutes m) (alarm_hours m) (alarm_minutes m)
     (alarm_disabled_hours m) (alarm_disabled_minutes m) (wave_positions m)
     (wave_counter m) (inc_dec_delay m) (separator m) (blink_state m)
     (set_last m) (wave_started m) (alarm_active m) (power m) (digits m)
     (rtc m) (temp_humid m) (buzzer m) v (eeprom m) (rtc_set_log m).

Definition with_eeprom (v : Z -> Z) (m : t) : t :=
  mk (mode m) (separator_timer m) (blink_timer m) (wave_timer m)
     (btn_timer m) (inc_dec_timer m) (alarm_preview_timer m) (set_hours m)
     (set_minutes m) (alarm_hours m) (alarm_minutes m)
     (alarm_disabled_hours m) (alarm_disabled_minutes m) (wave_positions m)
     (wave_counter m) (inc_dec_delay m) (separator m) (blink_state m)
     (set_last m) (wave_started m) (alarm_active m) (power m) (digits m)
     (rtc m) (temp_humid m) (buzzer m) (buttons m) v (rtc_set_log m).

Definition with_rtc_set_log (v : list RTC.wire_event) (m : t) : t :=
  mk (mode m) (separator_timer m) (blink_timer m) (wave_timer m)
     (btn_timer m) (inc_dec_timer m) (alarm_preview_timer m) (set_hours m)
     (set_minutes m) (alarm_hours m) (alarm_minutes m)
     (alarm_disabled_hours m) (alarm_disabled_minutes m) (wave_positions m)
     (wave_counter m) (inc_dec_delay m) (separator m) (blink_state m)
     (set_last m) (wave_started m) (alarm_active m) (power m) (digits m)
     (rtc m) (temp_humid m) (buzzer m) (buttons m) (eeprom m) v.

(** What one pass of [loop] reads from its environment: the converter
    reading and the clock readings of [Power::regulate], the clock readings
    and bus data of [TempHumid::read], the bus data of [RTC::read], the
    reading of every call of [millis()] made by main.cpp, or by
    [Buzzer::play_note] on behalf of it, under the number of the line of
    main.cpp that makes the call, what [Buzzer::play_chime] reads, the clock
    reading of [Buzzer::decay], and the result of converting a [float] that
    is not finite to [uint16_t], which C leaves undefined. *)
Record input := mkInput {
  adc : Z;
  millis_regulate : Z;
  micros : Z;
  sht_millis_1 : Z;
  sht_millis_2 : Z;
  sht_status : Z;
  sht_frame : TempHumid.frame;
  rtc_status : Z;
  rtc_b0 : Z;
  rtc_b1 : Z;
  rtc_b2 : Z;
  millis : Z -> Z;
  chime : Buzzer.chime_input;
  millis_decay : Z;
  not_finite : Z
}.

(** Statements are functions from the state to a result and the state
    afterwards. *)
Definition M (A : Type) : Type := t -> A * t.

Definition ret {A : Type} (a : A) : M A := fun m => (a, m).

Definition bind {A B : Type} (c : M A) (k : A -> M B) : M B :=
  fun m => let '(a, m1) := c m in k a m1.

Notation "x <- c ;; k" := (bind c (fun x => k))
  (at level 61, c at next level, right associativity).
Notation "c ;; k" := (bind c (fun _ => k))
  (at level 61, right associativity).

(** An assignment, the value of an expression, [if] with and without
    [else], and the short-circuit [||] of two calls. *)
Definition assign (w : t -> t) : M unit := fun m => (tt, w m).

Definition test {A : Type} (e : t -> A) : M A := fun m => (e m, m).

Definition ifM {A : Type} (c : M bool) (a b : M A) : M A :=
  x <- c ;; if x then a else b.

Definition whenM (c : M bool) (a : M unit) : M unit :=
  ifM c a (ret tt).

Definition orM (a b : M bool) : M bool :=
  x <- a ;; if x then ret true else b.

(** Expressions the file writes again and again. *)
Definition rtc_hours (m : t) : Z := RTC.get_hours (rtc m).
Definition rtc_minutes (m : t) : Z := RTC.get_minutes (rtc m).
Definition rtc_seconds (m : t) : Z := RTC.get_seconds (rtc m).
Definition voltage (m : t) : Z := Power.get_voltage (power m).

(** The value of [EEPROM.read(address)], a [uint8_t]. *)
Definition eeprom_read (cells : Z -> Z) (address : Z) : Z :=
  u8 (cells address).

(** [EEPROM.write(address, value)]. *)
Definition eeprom_write (address : Z) (value : t -> Z) : M unit :=
  assign (fun m =>
    with_eeprom (fun a => if a =? address then u8 (value m) else eeprom m a)
                m).

(** Calls of the member functions of the global objects. *)
Definition digits_set (digit_1 digit_2 digit_3 digit_4 : t -> Z) : M unit :=
  assign (fun m =>
    with_digits (Digits.set (digit_1 m) (digit_2 m) (digit_3 m) (digit_4 m)
                            (digits m)) m).

Definition digits_set_separator (state : bool) : M unit :=
  assign (fun m => with_digits (Digits.set_separator state (digits m)) m).

Definition rtc_clear_interrupt : M unit :=
  assign (fun m => with_rtc (RTC.clear_interrupt (rtc m)) m).

Definition rtc_set (hours minutes seconds : t -> Z) : M unit :=
  assign (fun m =>
    with_rtc_set_log
      (rtc_set_log m ++ RTC.set (hours m) (minutes m) (seconds m)) m).

Definition buttons_get (get : Buttons.t -> bool * Buttons.t) : M bool :=
  fun m => let '(r, b) := get (buttons m) in (r, with_buttons b m).

Definition get_up : M bool := buttons_get Buttons.get_up.
Definition get_down : M bool := buttons_get Buttons.get_down.
Definition get_weather : M bool := buttons_get Buttons.get_weather.
Definition get_set : M bool := buttons_get Buttons.get_set.
Definition get_alarm : M bool := buttons_get Buttons.get_alarm.

(** What a poll of the input [j] returns now. *)
Definition reported (j : Buttons.LogicalInput) (m : t) : bool :=
  fst (Buttons.poll j (buttons m)).

(** Every input but the alarm switch. *)
Definition buttons_only (j : Buttons.LogicalInput) : bool :=
  match j with Buttons.ALARM => false | _ => true end.

(** The four digits of the time the clock chip reported, and of the alarm
    time. *)
Definition show_time : M unit :=
  digits_set (fun m => Z.quot (rtc_hours m) 10)
             (fun m => Z.rem (rtc_hours m) 10)
             (fun m => Z.quot (rtc_minutes m) 10)
             (fun m => Z.rem (rtc_minutes m) 10).

(** Conversion of a [float] to [uint16_t]: the fractional part is
    discarded; the result for a value that is not finite or does not fit is
    undefined in C and is taken from the environment. *)
Definition to_uint16 (undefined : Z) (f : F32.float) : Z :=
  match f with
  | S754_infinity _ | S754_nan => u16 undefined
  | _ =>
      if (0 <=? F32.to_Z f) && (F32.to_Z f <? 2 ^ 16) then F32.to_Z f
      else u16 undefined
  end.

Section Program.

Variable note_frequency : Z -> F32.float.
Variable i : input.

(** [buzzer.play_note(note, pwm)] called from line [line]. *)
Definition play_note (note pwm line : Z) : M unit :=
  assign (fun m =>
    with_buzzer (Buzzer.play_note note_frequency note pwm (millis i line)
                                  (buzzer m)) m).

Definition play_chime : M unit :=
  assign (fun m =>
    with_buzzer
      (fst (fst (Buzzer.play_chime note_frequency
                   (Buzzer.in_millis (chime i))
                   (Buzzer.in_millis_note (chime i))
                   (Buzzer.in_r1 (chime i)) (Buzzer.in_r2 (chime i))
                   (Buzzer.in_r3 (chime i)) (buzzer m)))) m).

(** [return_to_main]. *)
Definition return_to_main : M unit :=
  assign (with_mode MODE_TIME) ;;
  show_time ;;
  digits_set_separator false ;;
  rtc_clear_interrupt ;;
  play_note NOTE_TIME_MODE BUTTON_NOTE_PWM 493.

(** [increment]. *)
Definition increment : M unit :=
  ifM (test (fun m => mode m =? MODE_VOLTAGE))
    (whenM (test (fun m => voltage m <? CONVERTER_SETPOINT_MAX))
       (assign (fun m =>
          with_power (Power.set_voltage (voltage m + 1) (power m)) m) ;;
        eeprom_write 4 voltage))
    (whenM (test (fun m =>
              (mode m =? MODE_SET_HOURS) || (mode m =? MODE_SET_MINUTES)))
       (alarm <- get_alarm ;;
        if alarm : bool then
          whenM (test (fun m =>
                   (mode m =? MODE_SET_HOURS) && (alarm_hours m <? 23)))
            (assign (fun m => with_alarm_hours (u8 (alarm_hours m + 1)) m)) ;;
          whenM (test (fun m =>
                   (mode m =? MODE_SET_MINUTES) && (alarm_minutes m <? 59)))
            (assign (fun m =>
               with_alarm_minutes (u8 (alarm_minutes m + 1)) m)) ;;
          assign (with_alarm_disabled_hours 255) ;;
          assign (with_alarm_disabled_minutes 255) ;;
          eeprom_write 5 alarm_hours ;;
          eeprom_write 6 alarm_minutes
        else
          whenM (test (fun m =>
                   (mode m =? MODE_SET_HOURS) && (set_hours m <? 23)))
            (assign (fun m => with_set_hours (u8 (set_hours m + 1)) m)) ;;
          whenM (test (fun m =>
                   (mode m =? MODE_SET_MINUTES) && (set_minutes m <? 59)))
            (assign (fun m => with_set_minutes (u8 (set_minutes m + 1)) m)) ;;
          rtc_set set_hours set_minutes (fun _ => 0))) ;;
  play_note NOTE_INCREMENT BUTTON_NOTE_PWM 439.

(** [decrement]. *)
Definition decrement : M unit :=
  ifM (test (fun m => mode m =? MODE_VOLTAGE))
    (whenM (test (fun m => voltage m >? CONVERTER_SETPOINT_MIN))
       (assign (fun m =>
          with_power (Power.set_voltage (voltage m - 1) (power m)) m) ;;
        eeprom_write 4 voltage))
    (whenM (test (fun m =>
              (mode m =? MODE_SET_HOURS) || (mode m =? MODE_SET_MINUTES)))
       (alarm <- get_alarm ;;
        if alarm : bool then
          whenM (test (fun m =>
                   (mode m =? MODE_SET_HOURS) && (alarm_hours m >? 0)))
            (assign (fun m => with_alarm_hours (u8 (alarm_hours m - 1)) m)) ;;
          whenM (test (fun m =>
                   (mode m =? MODE_SET_MINUTES) && (alarm_minutes m >? 0)))
            (assign (fun m =>
               with_alarm_minutes (u8 (alarm_minutes m - 1)) m)) ;;
          assign (with_alarm_disabled_hours 255) ;;
          assign (with_alarm_disabled_minutes 255) ;;
          eeprom_write 5 alarm_hours ;;
          eeprom_write 6 alarm_minutes
        else
          whenM (test (fun m =>
                   (mode m =? MODE_SET_HOURS) && (set_hours m >? 0)))
            (assign (fun m => with_set_hours (u8 (set_hours m - 1)) m)) ;;
          whenM (test (fun m =>
                   (mode m =? MODE_SET_MINUTES) && (set_minutes m >? 0)))
            (assign (fun m => with_set_minutes (u8 (set_minutes m - 1)) m)) ;;
          rtc_set set_hours set_minutes (fun _ => 0))) ;;
  play_note NOTE_DECREMENT BUTTON_NOTE_PWM 482.

(** [inc_dec].  The difference of two timestamps is a [uint64_t]; [map]
    takes it as a [long] and its result is stored in the [uint16_t]
    [inc_dec_delay]. *)
Definition inc_dec : M bool :=
  ifM (orM get_down get_up)
    (whenM (test (fun m =>
              u64 (millis i 374 - btn_timer m) >=? inc_dec_delay m))
       (assign (with_btn_timer (millis i 376)) ;;
        ifM (test (fun m =>
               u64 (btn_timer m - inc_dec_timer m)
               <=? BTN_INC_DEC_DELAY_TRANS_TIME))
          (assign (fun m =>
             with_inc_dec_delay
               (u16 (map_long (s32 (u64 (btn_timer m - inc_dec_timer m)))
                              0 BTN_INC_DEC_DELAY_TRANS_TIME
                              BTN_INC_DEC_DELAY_LOW BTN_INC_DEC_DELAY_HIGH))
               m))
          (assign (with_inc_dec_delay BTN_INC_DEC_DELAY_HIGH)) ;;
        ifM get_down decrement increment) ;;
     ret true)
    (assign (with_inc_dec_timer (millis i 393)) ;;
     assign (with_inc_dec_delay BTN_INC_DEC_DELAY_LOW) ;;
     ret false).

(** [alarm]. *)
Definition alarm : M unit :=
  whenM (test (fun m =>
           negb (rtc_hours m =? alarm_disabled_hours m)
           || negb (rtc_minutes m =? alarm_disabled_minutes m)))
    (assign (with_alarm_disabled_hours 255) ;;
     assign (with_alarm_disabled_minutes 255)) ;;
  ifM get_alarm
    (whenM (test (fun m => alarm_preview_timer m =? 0))
       (assign (with_alarm_preview_timer (millis i 147)) ;;
        play_note NOTE_ALARM_ON BUTTON_NOTE_PWM 148) ;;
     whenM (test (fun m =>
              (rtc_hours m =? alarm_hours m)
              && (rtc_minutes m =? alarm_minutes m)
              && negb (rtc_hours m =? alarm_disabled_hours m)
              && negb (rtc_minutes m =? alarm_disabled_minutes m)
              && negb (alarm_active m)))
       (assign (with_alarm_active true) ;;
        eeprom_write 7 (fun m => Z.b2z (negb (alarm_active m)))))
    (assign (with_alarm_preview_timer 0) ;;
     whenM (test alarm_active)
       (assign (with_alarm_active false) ;;
        assign (fun m => with_alarm_disabled_hours (rtc_hours m) m) ;;
        assign (fun m => with_alarm_disabled_minutes (rtc_minutes m) m) ;;
        eeprom_write 7 (fun m => Z.b2z (negb (alarm_active m))) ;;
        play_note NOTE_TIME_MODE BUTTON_NOTE_PWM 169)) ;;
  whenM (test alarm_active) play_chime.

(** The start of the wave: every tube at the height of the numeral it
    shows. *)
Definition start_wave : M unit :=
  assign (with_wave_started true) ;;
  assign (with_wave_counter 0) ;;
  assign (fun m =>
    with_wave_positions
      [Buzzer.pgm_read_byte NUMBER_TO_POSITION (Z.quot (rtc_hours m) 10);
       Buzzer.pgm_read_byte NUMBER_TO_POSITION (Z.rem (rtc_hours m) 10);
       Buzzer.pgm_read_byte NUMBER_TO_POSITION (Z.quot (rtc_minutes m) 10);
       Buzzer.pgm_read_byte NUMBER_TO_POSITION (Z.rem (rtc_minutes m) 10)]
      m).

(** The first block of [mode_clock]: one step of the wave every 100 ms,
    the time again after the 21st. *)
Definition wave : M unit :=
  whenM (test wave_started)
    (whenM (test (fun m => u64 (millis i 186 - wave_timer m) >=? 100))
       (assign (with_wave_timer (millis i 187)) ;;
        assign (fun m =>
          with_wave_positions
            (map (fun p => if p =? 9 then 0 else u8 (p + 1))
                 (wave_positions m)) m) ;;
        digits_set
          (fun m => Buzzer.pgm_read_byte POSITION_TO_NUMBER
                      (nth 0 (wave_positions m) 0))
          (fun m => Buzzer.pgm_read_byte POSITION_TO_NUMBER
                      (nth 1 (wave_positions m) 0))
          (fun m => Buzzer.pgm_read_byte POSITION_TO_NUMBER
                      (nth 2 (wave_positions m) 0))
          (fun m => Buzzer.pgm_read_byte POSITION_TO_NUMBER
                      (nth 3 (wave_positions m) 0)) ;;
        assign (fun m => with_wave_counter (u8 (wave_counter m + 1)) m) ;;
        whenM (test (fun m => wave_counter m =? 21))
          (assign (with_wave_started false) ;;
           show_time))).

(** [mode_clock]. *)
Definition mode_clock (sqw_interrupt : bool) : M unit :=
  wave ;;
  ifM (test alarm_active)
    (whenM (test (fun m =>
              u64 (millis i 206 - blink_timer m) >=? ALARM_BLINK_RATE))
       (assign (with_blink_timer (millis i 207)) ;;
        assign (fun m => with_blink_state (negb (blink_state m)) m)) ;;
     ifM (test blink_state)
       show_time
       (digits_set (fun _ => 255) (fun _ => 255) (fun _ => 255)
                   (fun _ => 255)))
    (whenM (test (fun m =>
              negb (alarm_preview_timer m =? 0)
              && (u64 (millis i 217 - alarm_preview_timer m)
                  <=? ALARM_PREVIEW_TIME)))
       (digits_set (fun m => Z.quot (alarm_hours m) 10)
                   (fun m => Z.rem (alarm_hours m) 10)
                   (fun m => Z.quot (alarm_minutes m) 10)
                   (fun m => Z.rem (alarm_minutes m) 10))) ;;
  whenM (ret sqw_interrupt)
    (whenM (test (fun m =>
              negb (alarm_active m) && negb (wave_started m)
              && (u64 (millis i 223 - alarm_preview_timer m)
                  >? ALARM_PREVIEW_TIME)))
       show_time ;;
     digits_set_separator true ;;
     assign (with_separator_timer (millis i 228)) ;;
     whenM (test (fun m =>
              (rtc_seconds m =? 58) && negb (wave_started m)))
       start_wave) ;;
  whenM (test (fun m =>
           negb (separator_timer m =? 0)
           && (u64 (millis i 242 - separator_timer m) >=? SEPARATOR_TIME)))
    (digits_set_separator false ;;
     assign (with_separator_timer 0)) ;;
  ifM get_set
    (whenM (test (fun m => negb (set_last m)))
       (assign (with_mode MODE_SET_HOURS) ;;
        assign (with_set_last true) ;;
        whenM (x <- get_alarm ;; ret (negb x))
          (assign (fun m => with_set_hours (rtc_hours m) m) ;;
           assign (fun m => with_set_minutes (rtc_minutes m) m)) ;;
        play_note NOTE_SET_MODE BUTTON_NOTE_PWM 256))
    (assign (with_set_last false)) ;;
  ifM (orM get_down get_up)
    (assign (with_mode MODE_VOLTAGE) ;;
     assign (with_btn_timer (millis i 265)) ;;
     assign (fun m => with_inc_dec_timer (btn_timer m) m) ;;
     assign (with_inc_dec_delay BTN_INC_DEC_DELAY_LOW))
    (whenM get_weather
       (assign (with_mode MODE_WEATHER) ;;
        play_note NOTE_WEATHER_MODE Buzzer.BUZZER_PWM_START 273)).

(** [mode_voltage]; the arithmetic is that of [unsigned int]. *)
Definition mode_voltage : M unit :=
  digits_set
    (fun _ => 255)
    (fun m => Z.quot (voltage m) 100)
    (fun m => Z.quot (u16 (voltage m - u16 (Z.quot (voltage m) 100 * 100)))
                     10)
    (fun m => Z.rem (voltage m) 10) ;;
  digits_set_separator false ;;
  whenM (x <- inc_dec ;; ret (negb x)) return_to_main.

(** [mode_set]. *)
Definition mode_set (sqw_interrupt : bool) : M unit :=
  whenM (test (fun m =>
           u64 (millis i 299 - blink_timer m) >=? SET_BLINK_RATE))
    (assign (with_blink_timer (millis i 300)) ;;
     assign (fun m => with_blink_state (negb (blink_state m)) m)) ;;
  ifM get_alarm
    (digits_set
       (fun m => if blink_state m || (mode m =? MODE_SET_MINUTES)
                 then Z.quot (alarm_hours m) 10 else 255)
       (fun m => if blink_state m || (mode m =? MODE_SET_MINUTES)
                 then Z.rem (alarm_hours m) 10 else 255)
       (fun m => if blink_state m || (mode m =? MODE_SET_HOURS)
                 then Z.quot (alarm_minutes m) 10 else 255)
       (fun m => if blink_state m || (mode m =? MODE_SET_HOURS)
                 then Z.rem (alarm_minutes m) 10 else 255) ;;
     digits_set_separator true)
    (digits_set
       (fun m => if blink_state m || (mode m =? MODE_SET_MINUTES)
                 then Z.quot (set_hours m) 10 else 255)
       (fun m => if blink_state m || (mode m =? MODE_SET_MINUTES)
                 then Z.rem (set_hours m) 10 else 255)
       (fun m => if blink_state m || (mode m =? MODE_SET_HOURS)
                 then Z.quot (set_minutes m) 10 else 255)
       (fun m => if blink_state m || (mode m =? MODE_SET_HOURS)
                 then Z.rem (set_minutes m) 10 else 255) ;;
     digits_set_separator false) ;;
  whenM (x <- inc_dec ;; ret (negb x))
    (whenM (ret sqw_interrupt)
       (assign (fun m => with_set_hours (rtc_hours m) m) ;;
        assign (fun m => with_set_minutes (rtc_minutes m) m))) ;;
  ifM get_set
    (whenM (test (fun m => negb (set_last m)))
       (assign (with_set_last true) ;;
        ifM (test (fun m => mode m =? MODE_SET_HOURS))
          (assign (with_mode MODE_SET_MINUTES) ;;
           play_note NOTE_SET_MODE BUTTON_NOTE_PWM 336)
          return_to_main))
    (assign (with_set_last false)).

(** [mode_weather]. *)
Definition mode_weather : M unit :=
  temperature_short <-
    test (fun m =>
      to_uint16 (not_finite i)
        (SFabs (TempHumid.get_temperature (temp_humid m)))) ;;
  let temperature_short :=
    if temperature_short >? 99 then 99 else temperature_short in
  humidity_short <-
    test (fun m =>
      to_uint16 (not_finite i) (TempHumid.get_humidity (temp_humid m))) ;;
  let humidity_short :=
    if humidity_short >? 99 then 99 else humidity_short in
  digits_set (fun _ => Z.quot temperature_short 10)
             (fun _ => Z.rem temperature_short 10)
             (fun _ => Z.quot humidity_short 10)
             (fun _ => Z.rem humidity_short 10) ;;
  digits_set_separator true ;;
  whenM (x <- get_weather ;; ret (negb x)) return_to_main.

(** [loop]. *)
Definition loop : M unit :=
  assign (fun m =>
    with_power (fst (Power.regulate (adc i) (millis_regulate i) (micros i)
                                    (power m))) m) ;;
  assign (fun m =>
    with_temp_humid (TempHumid.read (sht_millis_1 i) (sht_millis_2 i)
                                    (sht_status i) (sht_frame i)
                                    (temp_humid m)) m) ;;
  sqw_interrupt <-
    ifM (test (fun m => RTC.get_interrupt (rtc m)))
      (rtc_clear_interrupt ;;
       assign (fun m =>
         with_rtc (RTC.read (rtc_status i) (rtc_b0 i) (rtc_b1 i) (rtc_b2 i)
                            (rtc m)) m) ;;
       ret true)
      (ret false) ;;
  ifM (test (fun m => mode m =? MODE_TIME))
    (alarm ;; mode_clock sqw_interrupt)
    (ifM (test (fun m => mode m =? MODE_VOLTAGE))
       mode_voltage
       (ifM (test (fun m =>
               (mode m =? MODE_SET_HOURS) || (mode m =? MODE_SET_MINUTES)))
          (mode_set sqw_interrupt)
          (whenM (test (fun m => mode m =? MODE_WEATHER))
             mode_weather))) ;;
  assign (fun m =>
    with_buzzer (Buzzer.decay (millis_decay i) (buzzer m)) m).

End Program.

(** The restored settings of [setup]: the converter voltage from cell 4,
    the alarm time from cells 5 and 6, the alarm state from cell 7. *)
Definition restore_voltage (cells : Z -> Z) : Z :=
  let voltage := eeprom_read cells 4 in
  if (voltage >? CONVERTER_SETPOINT_MAX)
     || (voltage <? CONVERTER_SETPOINT_MIN)
  then u8 (Z.quot (u16 CONVERTER_SETPOINT_MAX + u16 CONVERTER_SETPOINT_MIN)
                  2)
  else voltage.

Definition restore_alarm_hours (cells : Z -> Z) : Z :=
  let alarm_hours := eeprom_read cells 5 in
  if alarm_hours >? 23 then 0 else alarm_hours.

Definition restore_alarm_minutes (cells : Z -> Z) : Z :=
  let alarm_minutes := eeprom_read cells 6 in
  if alarm_minutes >? 59 then 0 else alarm_minutes.

Definition restore_alarm_active (cells : Z -> Z) : bool :=
  eeprom_read cells 7 =? 0.

(** The cells after the rotation of the random seed: [seed] is the result
    of [random()]. *)
Definition rotate_seed (seed : Z) (cells : Z -> Z) : Z -> Z :=
  let seed := u32 seed in
  let write (address value : Z) (cells : Z -> Z) : Z -> Z :=
    fun a => if a =? address then u8 value else cells a in
  write 3 (Z.land (Z.shiftr seed 24) 0xFF)
    (write 2 (Z.land (Z.shiftr seed 16) 0xFF)
       (write 1 (Z.land (Z.shiftr seed 8) 0xFF)
          (write 0 (Z.land seed 0xFF) cells))).

(** What [setup] reads from its environment: the EEPROM, the levels of the
    input pins, the result of [random()] and the bus data of
    [RTC::read]. *)
Record boot := mkBoot {
  boot_cells : Z -> Z;
  boot_pins : Buttons.Pins;
  boot_seed : Z;
  boot_rtc_status : Z;
  boot_rtc_b0 : Z;
  boot_rtc_b1 : Z;
  boot_rtc_b2 : Z
}.

(** [setup], from the zero-initialised globals. *)
Definition setup (b : boot) : t :=
  let cells := rotate_seed (boot_seed b) (boot_cells b) in
  let rtc :=
    RTC.read (boot_rtc_status b) (boot_rtc_b0 b) (boot_rtc_b1 b)
             (boot_rtc_b2 b) (RTC.mk 0 0 0 false) in
  let m :=
    mk 0 0 0 0 0 0 0 0 0
       (restore_alarm_hours cells) (restore_alarm_minutes cells) 255 255
       [0; 0; 0; 0] 0 0 false false false false
       (restore_alarm_active cells)
       (Power.set_voltage (restore_voltage cells) Power.init)
       Digits.initial rtc TempHumid.init Buzzer.init
       (Buttons.read 255 (boot_pins b) Buttons.initial)
       cells [] in
  snd (start_wave m).

(** What happens to the state: a pass of [loop], or one of the three
    interrupts, taken between two passes: a pin change, the falling edge of
    the 1 Hz square wave, the multiplexing timer. *)
Inductive op :=
| Pass (i : input)
| PinChange (pcicr_bit : Z) (p : Buttons.Pins)
| SquareWave
| Tick.

Definition step (note_frequency : Z -> F32.float) (o : op) (m : t) : t :=
  match o with
  | Pass i => snd (loop note_frequency i m)
  | PinChange pcicr_bit p =>
      with_buttons (Buttons.read pcicr_bit p (buttons m)) m
  | SquareWave => with_rtc (RTC.sqw_callback (rtc m)) m
  | Tick =>
      with_digits (snd (Digits.isr_callback_handler (digits m))) m
  end.

Definition run (note_frequency : Z -> F32.float) (ops : list op) (m : t)
    : t :=
  fold_left (fun m o => step note_frequency o m) ops m.

(** A statement keeps a property of the state. *)
Definition preserves {A : Type} (I : t -> Prop) (c : M A) : Prop :=
  forall m, I m -> I (snd (c m)).

(** The settings are the ones [setup] would restore from the EEPROM. *)
Definition settings_saved (m : t) : Prop :=
  voltage m = restore_voltage (eeprom m)
  /\ alarm_hours m = restore_alarm_hours (eeprom m)
  /\ alarm_minutes m = restore_alarm_minutes (eeprom m)
  /\ alarm_active m = restore_alarm_active (eeprom m).

(** The numerals on the tubes. *)
Definition shown (m : t) : list Z := Digits.current_numbers (digits m).

(** No input is active and none has been for sixteen polls: the raw level,
    the history and the reported value of the four buttons and of the alarm
    switch are all off. *)
Definition released (m : t) : bool :=
  forallb (fun j =>
             negb (Buttons.raw j (buttons m))
             && (Buttons.state j (buttons m) =? 0)
             && negb (Buttons.last j (buttons m)))
          [Buttons.UP; Buttons.DOWN; Buttons.WEATHER; Buttons.SET;
           Buttons.ALARM].

(** A pin-change interrupt that finds every input pin high (the inputs are
    active low); the other operations do not read the pins. *)
Definition pins_high (o : op) : bool :=
  match o with
  | PinChange _ p =>
      Buttons.pin_up p && Buttons.pin_down p && Buttons.pin_weather p
      && Buttons.pin_set p && Buttons.pin_alarm p
  | _ => true
  end.

(** The passes among [ops] that find 100 ms elapsed on the wave timer,
    which is [timer] at first and the clock reading of line 187 after each
    such pass, as mode_clock() stores it: the number of steps a running
    wave takes. *)
Fixpoint wave_due (timer : Z) (ops : list op) : Z :=
  match ops with
  | [] => 0
  | Pass i :: ops' =>
      if u64 (millis i 186 - timer) >=? 100
      then 1 + wave_due (millis i 187) ops'
      else wave_due timer ops'
  | _ :: ops' => wave_due timer ops'
  end.

(** A start with an erased EEPROM (every cell 0xFF), no input active and
    the clock chip at 00:00:00; a pass in which every clock reads [now]
    and nothing else happens. *)
Definition cold_boot : boot :=
  mkBoot (fun _ => 255) (Buttons.mkPins true true true true true) 0 0 0 0 0.

Definition quiet_input (now : Z) : input :=
  mkInput 0 now (now * 1000) now now 0 (TempHumid.mkFrame 0 0 0 0 0 0)
          0 0 0 0 (fun _ => now) (Buzzer.mkInput now now 0 0 0) now 0.

(** The numeral [k] steps above [d] in the stack of cathodes. *)
Definition above (k d : Z) : Z :=
  Buzzer.pgm_read_byte POSITION_TO_NUMBER
    ((Buzzer.pgm_read_byte NUMBER_TO_POSITION d + k) mod 10).

End Main.

(** * Properties *)

(** Comparisons settled by linear arithmetic. *)
Ltac ltb_true a b :=
  replace (a <? b) with true by (symmetry; apply Z.ltb_lt; lia).
Ltac ltb_false a b :=
  replace (a <? b) with false by (symmetry; apply Z.ltb_ge; lia).
Ltac leb_true a b :=
  replace (a <=? b) with true by (symmetry; apply Z.leb_le; lia).
Ltac leb_false a b :=
  replace (a <=? b) with false by (symmetry; apply Z.leb_gt; lia).
Ltac eqb_false a b :=
  replace (a =? b) with false by (symmetry; apply Z.eqb_neq; lia).

(** Two 16-bit words built with [Z.lor], [Z.land] and [not16] compared bit
    by bit. *)
Ltac bitwise16 m w :=
  let n := fresh "n" in
  let Hn := fresh "Hn" in
  apply Z.bits_inj'; intros n Hn; unfold u16, not16;
  repeat first [ rewrite Z.testbit_mod_pow2 by lia
               | rewrite Z.lor_spec
               | rewrite Z.land_spec
               | rewrite Z.lxor_spec ];
  change 65535 with (Z.ones 16); rewrite Z.testbit_ones_nonneg by lia;
  destruct (n <? 16), (Z.testbit m n), (Z.testbit w n); reflexivity.

(** ** Input sampler *)

Lemma last_skips_prefix {A : Type} (xs ys : list A) (d : A) :
  ys <> [] -> List.last (xs ++ ys) d = List.last ys d.
Proof.
  intro N. induction xs as [|x xs IH]; [reflexivity|].
  cbn [app]. rewrite <- IH.
  destruct (xs ++ ys) eqn:E; [|reflexivity].
  apply app_eq_nil in E. destruct E as [_ E]. contradiction.
Qed.

Section Debounce.

Import Buttons.

(** One poll shifts the history left by one place, drops the bit that leaves
    the 16-bit register and puts the raw sample in the lowest place. *)
Lemma debounce_history (v : bool) (s : Z) (l : bool) :
  fst (DEBOUNCING_RETURN v s l) = (2 * s + Z.b2z v) mod 2 ^ 16.
Proof.
  unfold DEBOUNCING_RETURN, u16; cbn [fst].
  rewrite Z.shiftl_mul_pow2 by lia.
  replace (Z.land (Z.b2z v) 1) with (Z.b2z v) by (destruct v; reflexivity).
  assert (E : (s * 2 ^ 1) mod 2 ^ 16 = 2 * (s mod 2 ^ 15)).
  { replace (s * 2 ^ 1) with (2 * s) by lia.
    change (2 ^ 16) with (2 * 2 ^ 15).
    apply Zmult_mod_distr_l. }
  rewrite E.
  assert (L : Z.lor (2 * (s mod 2 ^ 15)) (Z.b2z v)
              = 2 * (s mod 2 ^ 15) + Z.b2z v).
  { destruct v; cbn [Z.b2z].
    - rewrite <- Z.lxor_lor, <- Z.add_nocarry_lxor; try reflexivity;
        change 1 with (Z.ones 1); rewrite Z.land_ones by lia;
        change (2 ^ 1) with 2; rewrite Z.mul_comm; apply Z.mod_mul; lia.
    - rewrite Z.lor_0_r; lia. }
  rewrite L.
  pose proof (Z.mod_pos_bound s (2 ^ 15) ltac:(lia)) as B.
  assert (Bv : 0 <= Z.b2z v <= 1) by (destruct v; cbn; lia).
  rewrite Z.mod_small by lia.
  rewrite (Z.div_mod s (2 ^ 15)) at 2 by lia.
  replace (2 * (2 ^ 15 * (s / 2 ^ 15) + s mod 2 ^ 15) + Z.b2z v)
    with ((2 * (s mod 2 ^ 15) + Z.b2z v) + (s / 2 ^ 15) * 2 ^ 16) by lia.
  rewrite Z.mod_add by lia.
  symmetry; apply Z.mod_small; lia.
Qed.

Lemma debounce_vote (v : bool) (s : Z) (l : bool) :
  let h := fst (DEBOUNCING_RETURN v s l) in
  snd (DEBOUNCING_RETURN v s l)
  = if h =? 65535 then true else if h =? 0 then false else l.
Proof. reflexivity. Qed.

Lemma poll_unfold (i : LogicalInput) (b : t) :
  poll i b
  = (snd (DEBOUNCING_RETURN (raw i b) (state i b) (last i b)),
     snd (poll i b))
  /\ state i (snd (poll i b))
     = fst (DEBOUNCING_RETURN (raw i b) (state i b) (last i b))
  /\ last i (snd (poll i b))
     = snd (DEBOUNCING_RETURN (raw i b) (state i b) (last i b))
  /\ raw i (snd (poll i b)) = raw i b.
Proof. destruct i; repeat split. Qed.

Lemma sample_fields (i : LogicalInput) (v : bool) (b : t) :
  raw i (sample i v b) = v
  /\ state i (sample i v b) = state i b
  /\ last i (sample i v b) = last i b.
Proof. destruct i; cbn; rewrite ?negb_involutive; repeat split. Qed.

(** The history after [n + 1] polls that all saw the raw sample [v]. *)
Lemma shift_in_iter (v : bool) (n : nat) (s : Z) :
  Nat.iter (S n) (fun s => (2 * s + Z.b2z v) mod 2 ^ 16) s
  = (2 ^ Z.of_nat (S n) * s + Z.b2z v * (2 ^ Z.of_nat (S n) - 1)) mod 2 ^ 16.
Proof.
  induction n as [|n IH].
  - unfold Nat.iter, nat_rect. f_equal. change (2 ^ Z.of_nat 1) with 2. lia.
  - rewrite Nat.iter_succ, IH.
    rewrite <- Zplus_mod_idemp_l, Zmult_mod_idemp_r, Zplus_mod_idemp_l.
    f_equal.
    replace (Z.of_nat (S (S n))) with (Z.succ (Z.of_nat (S n))) by lia.
    rewrite Z.pow_succ_r by lia. ring.
Qed.

Lemma sixteen_samples (v : bool) (s : Z) :
  Nat.iter 16 (fun s => (2 * s + Z.b2z v) mod 2 ^ 16) s
  = if v then 65535 else 0.
Proof.
  rewrite shift_in_iter. change (2 ^ Z.of_nat 16) with (2 ^ 16).
  rewrite Z.add_comm, (Z.mul_comm (2 ^ 16) s), Z.mod_add by lia.
  destruct v; reflexivity.
Qed.

Lemma poll_samples_app (i : LogicalInput) (us vs : list bool) (b : t) :
  poll_samples i (us ++ vs) b
  = (fst (poll_samples i us b)
       ++ fst (poll_samples i vs (snd (poll_samples i us b))),
     snd (poll_samples i vs (snd (poll_samples i us b)))).
Proof.
  revert b; induction us as [|u us IH]; intro b; cbn [poll_samples app].
  - cbn [fst snd app]. destruct (poll_samples i vs b); reflexivity.
  - destruct (poll i (sample i u b)) as [r b1]. rewrite IH.
    destruct (poll_samples i us b1) as [rs b2]. reflexivity.
Qed.

Lemma poll_samples_length (i : LogicalInput) (vs : list bool) (b : t) :
  length (fst (poll_samples i vs b)) = length vs.
Proof.
  revert b; induction vs as [|v vs IH]; intro b; cbn [poll_samples].
  - reflexivity.
  - destruct (poll i (sample i v b)) as [r b1]. specialize (IH b1).
    destruct (poll_samples i vs b1) as [rs b2]. cbn in *. congruence.
Qed.

(** Polling through identical samples: the history follows the shift, and
    the value returned last is the one stored in the object. *)
Lemma poll_samples_repeat (i : LogicalInput) (v : bool) (n : nat) (b : t) :
  let r := poll_samples i (repeat v (S n)) b in
  state i (snd r)
  = Nat.iter (S n) (fun s => (2 * s + Z.b2z v) mod 2 ^ 16) (state i b)
  /\ (forall d, List.last (fst r) d = last i (snd r))
  /\ last i (snd r)
     = (if state i (snd r) =? 65535 then true
        else if state i (snd r) =? 0 then false
        else last i (snd r)).
Proof.
  revert b; induction n as [|n IH]; intro b.
  - cbn [repeat poll_samples].
    destruct (poll_unfold i (sample i v b)) as (E & Hs & Hl & _).
    destruct (sample_fields i v b) as (Rv & Sv & Lv).
    rewrite E; cbn [fst snd List.last].
    rewrite Hs, Hl, Rv, Sv, Lv, debounce_vote, debounce_history.
    unfold Nat.iter, nat_rect. repeat split.
    destruct ((2 * state i b + Z.b2z v) mod 2 ^ 16 =? 65535); [reflexivity|].
    destruct ((2 * state i b + Z.b2z v) mod 2 ^ 16 =? 0); reflexivity.
  - change (repeat v (S (S n))) with (v :: repeat v (S n)).
    cbn [poll_samples].
    destruct (poll_unfold i (sample i v b)) as (E & Hs & _ & _).
    destruct (sample_fields i v b) as (Rv & Sv & _).
    rewrite E. set (b1 := snd (poll i (sample i v b))) in *.
    specialize (IH b1). cbv zeta in IH.
    destruct (poll_samples i (repeat v (S n)) b1) as [rs b2] eqn:Ers.
    cbn [fst snd] in *. destruct IH as (IH1 & IH2 & IH3).
    split; [|split].
    + rewrite IH1, Hs, debounce_history, Rv, Sv.
      rewrite (Nat.iter_succ_r (S n)). reflexivity.
    + intro d. destruct rs as [|r0 rs'].
      * pose proof (poll_samples_length i (repeat v (S n)) b1) as L.
        rewrite Ers in L. discriminate L.
      * change (List.last (?x :: r0 :: rs') d) with (List.last (r0 :: rs') d).
        apply IH2.
    + exact IH3.
Qed.

(** C1. Every poll of a logical input (get_up, get_down, get_weather,
    get_set, get_alarm) shifts the raw sample into the 16-bit history and
    returns true when the history is 0xFFFF, false when it is 0 and the
    previously reported value otherwise; after 16 consecutive identical raw
    samples the value returned is that sample, and a history that is not
    unanimous leaves the reported value as it was. *)
Theorem C1_debounce (i : LogicalInput) (b : t) :
  let history := (2 * state i b + Z.b2z (raw i b)) mod 2 ^ 16 in
  let r := fst (poll i b) in
  let b' := snd (poll i b) in
  state i b' = history
  /\ Z.testbit history 0 = raw i b
  /\ (forall k, 0 < k < 16 ->
      Z.testbit history k = Z.testbit (state i b) (k - 1))
  /\ r = (if history =? 65535 then true
          else if history =? 0 then false else last i b)
  /\ (history <> 65535 -> history <> 0 -> r = last i b)
  /\ last i b' = r
  /\ raw i b' = raw i b
  /\ (forall (v : bool) (earlier : list bool) (d : bool),
      List.last (fst (poll_samples i (earlier ++ repeat v 16) b)) d = v).
Proof.
  cbv zeta.
  destruct (poll_unfold i b) as (E & Hs & Hl & Hr).
  assert (V : fst (poll i b)
              = (if (2 * state i b + Z.b2z (raw i b)) mod 2 ^ 16 =? 65535
                 then true
                 else if (2 * state i b + Z.b2z (raw i b)) mod 2 ^ 16 =? 0
                      then false else last i b)).
  { rewrite E at 1; cbn [fst].
    rewrite debounce_vote, debounce_history. reflexivity. }
  split; [rewrite Hs; apply debounce_history|].
  split.
  { rewrite Z.mod_pow2_bits_low by lia.
    apply Z.testbit_0_r. }
  split.
  { intros k Hk. rewrite Z.mod_pow2_bits_low by lia.
    replace k with (Z.succ (k - 1)) at 1 by lia.
    apply Z.testbit_succ_r. lia. }
  split; [exact V|].
  split.
  { intros H1 H0. rewrite V.
    apply Z.eqb_neq in H1, H0. rewrite H1, H0. reflexivity. }
  split; [rewrite Hl, E; reflexivity|].
  split; [exact Hr|].
  intros v earlier d.
  rewrite poll_samples_app; cbn [fst].
  set (b1 := snd (poll_samples i earlier b)).
  destruct (poll_samples_repeat i v 15 b1) as (S1 & S2 & S3).
  assert (N : fst (poll_samples i (repeat v 16) b1) <> []).
  { intro Z0.
    pose proof (poll_samples_length i (repeat v 16) b1) as L.
    rewrite Z0 in L. discriminate L. }
  rewrite last_skips_prefix by exact N.
  rewrite S2, S3, S1, sixteen_samples.
  destruct v; reflexivity.
Qed.

(** A history that is neither all ones nor all zeros, on a concrete
    object: one pressed sample after power-on. *)
Lemma C1_debounce_witness :
  fst (poll UP (sample UP true initial)) = last UP (sample UP true initial).
Proof.
  apply (C1_debounce UP (sample UP true initial)); vm_compute; discriminate.
Defined.

End Debounce.

(** ** Display multiplexer *)

Section Multiplex.

Import Digits.


Lemma isr_callback_handler_step (d : t) :
  counter_ok d ->
  isr_callback_handler d
  = (mkCall (digit_counter d)
            (nth (Z.to_nat (digit_counter d)) (current_numbers d) 0)
            (current_separator_state d),
     mk (current_numbers d) ((digit_counter d + 1) mod 4)
        (current_separator_state d)).
Proof.
  unfold counter_ok, isr_callback_handler, u8, DIGITS_NUM. intro H.
  assert (C : digit_counter d = 0 \/ digit_counter d = 1
              \/ digit_counter d = 2 \/ digit_counter d = 3) by lia.
  destruct C as [C|[C|[C|C]]]; rewrite C; reflexivity.
Qed.

Lemma step_counter_ok (o : op) (d : t) :
  counter_ok d -> counter_ok (snd (run [o] d)).
Proof.
  intro H. destruct o; cbn [run]; try exact H.
  rewrite (isr_callback_handler_step d H). cbn [snd].
  unfold counter_ok. cbn [digit_counter].
  pose proof (Z.mod_pos_bound (digit_counter d + 1) 4 ltac:(lia)). lia.
Qed.

Lemma run_app (xs ys : list op) (d : t) :
  run (xs ++ ys) d
  = (fst (run xs d) ++ fst (run ys (snd (run xs d))),
     snd (run ys (snd (run xs d)))).
Proof.
  revert d; induction xs as [|x xs IH]; intro d; cbn [app run].
  - cbn [fst snd app]. destruct (run ys d); reflexivity.
  - destruct x.
    + destruct (isr_callback_handler d) as [c d1]. rewrite IH.
      destruct (run xs d1) as [cs d2]. reflexivity.
    + apply IH.
    + apply IH.
Qed.

Lemma run_counter_ok (ops : list op) (d : t) :
  counter_ok d -> counter_ok (snd (run ops d)).
Proof.
  revert d; induction ops as [|o ops IH]; intros d H; [exact H|].
  change (o :: ops) with ([o] ++ ops). rewrite run_app. cbn [snd].
  apply IH, step_counter_ok, H.
Qed.

(** The positions selected along a schedule: one more than the previous
    one at every tick, modulo 4. *)
Lemma selected_ticks (ops : list op) (d : t) :
  counter_ok d ->
  selected ops d
  = map (fun k => (digit_counter d + Z.of_nat k) mod 4)
        (seq 0 (length (filter is_tick ops)))
  /\ digit_counter (snd (run ops d))
     = (digit_counter d + Z.of_nat (length (filter is_tick ops))) mod 4.
Proof.
  unfold selected.
  revert d; induction ops as [|o ops IH]; intros d H.
  - cbn. split; [reflexivity|]. unfold counter_ok in H.
    rewrite Z.add_0_r, Z.mod_small; lia.
  - destruct o; cbn [run filter is_tick].
    + rewrite (isr_callback_handler_step d H).
      assert (H1 : counter_ok
                     (mk (current_numbers d) ((digit_counter d + 1) mod 4)
                         (current_separator_state d))).
      { unfold counter_ok; cbn [digit_counter].
        pose proof (Z.mod_pos_bound (digit_counter d + 1) 4 ltac:(lia)).
        lia. }
      destruct (IH _ H1) as [IH1 IH2]. cbn [digit_counter] in IH1, IH2.
      destruct (run ops _) as [cs d2]. cbn [fst snd] in *.
      cbn [length seq map call_anode]. split.
      * f_equal.
        { unfold counter_ok in H. rewrite Z.add_0_r, Z.mod_small; lia. }
        rewrite IH1, <- seq_shift, map_map. apply map_ext. intro k.
        rewrite Zplus_mod_idemp_l. f_equal. lia.
      * rewrite IH2, Zplus_mod_idemp_l. f_equal. lia.
    + apply (IH (set digit_1 digit_2 digit_3 digit_4 d)). exact H.
    + apply (IH (set_separator state d)). exact H.
Qed.

(** C2. The position counter of the multiplexer always lies in 0..3; each
    timer tick writes the mask of the current position and then advances the
    counter by one, wrapping from 3 to 0; over any 4 consecutive ticks every
    position is selected exactly once, in round-robin order. *)
Theorem C2_round_robin (cfg : Config) (history ops : list op) :
  length (filter is_tick ops) = 4%nat ->
  let d := snd (run history initial) in
  let p := digit_counter d in
  0 <= p <= 3
  /\ tick_output cfg d
     = write cfg p (nth (Z.to_nat p) (current_numbers d) 0)
             (current_separator_state d)
  /\ call_anode (fst (isr_callback_handler d)) = p
  /\ digit_counter (snd (isr_callback_handler d))
     = (if p =? 3 then 0 else p + 1)
  /\ current_numbers (snd (isr_callback_handler d)) = current_numbers d
  /\ current_separator_state (snd (isr_callback_handler d))
     = current_separator_state d
  /\ selected ops d = [p; (p + 1) mod 4; (p + 2) mod 4; (p + 3) mod 4]
  /\ Permutation (selected ops d) [0; 1; 2; 3]
  /\ NoDup (selected ops d)
  /\ digit_counter (snd (run ops d)) = p.
Proof.
  intro L. cbv zeta.
  set (d := snd (run history initial)).
  assert (H : counter_ok d).
  { apply run_counter_ok. unfold counter_ok. cbn. lia. }
  pose proof H as B. unfold counter_ok in B.
  split; [exact B|].
  split; [reflexivity|].
  split; [reflexivity|].
  rewrite (isr_callback_handler_step d H). cbn [snd digit_counter
    current_numbers current_separator_state].
  split.
  { assert (C : digit_counter d = 0 \/ digit_counter d = 1
                \/ digit_counter d = 2 \/ digit_counter d = 3) by lia.
    destruct C as [C|[C|[C|C]]]; rewrite C; reflexivity. }
  split; [reflexivity|].
  split; [reflexivity|].
  destruct (selected_ticks ops d H) as [S1 S2].
  rewrite L in S1, S2. cbn [seq map] in S1.
  rewrite Z.add_0_r, (Z.mod_small (digit_counter d) 4) in S1 by lia.
  rewrite S1, S2.
  assert (C : digit_counter d = 0 \/ digit_counter d = 1
              \/ digit_counter d = 2 \/ digit_counter d = 3) by lia.
  split; [reflexivity|].
  destruct C as [C|[C|[C|C]]]; rewrite C; cbn.
  - repeat split; [apply Permutation_refl|].
    repeat constructor; cbn; intuition discriminate.
  - repeat split; [apply (Permutation_app_comm [1; 2; 3] [0])|].
    repeat constructor; cbn; intuition discriminate.
  - repeat split; [apply (Permutation_app_comm [2; 3] [0; 1])|].
    repeat constructor; cbn; intuition discriminate.
  - repeat split; [apply (Permutation_app_comm [3] [0; 1; 2])|].
    repeat constructor; cbn; intuition discriminate.
Qed.

(** Four ticks, with the setters called in between, after one earlier
    tick. *)
Lemma C2_round_robin_witness :
  selected [Tick; SetDigits 1 2 3 4; Tick; SetSeparator true; Tick; Tick]
           (snd (run [Tick] initial))
  = [1; 2; 3; 0].
Proof.
  apply (C2_round_robin pins_h [Tick]
           [Tick; SetDigits 1 2 3 4; Tick; SetSeparator true; Tick; Tick]
           eq_refl).
Defined.


Lemma truth_table :
  forallb (fun p =>
    forallb (fun d =>
      table_row_ok p d true && table_row_ok p d false)
      [0; 1; 2; 3; 4; 5; 6; 7; 8; 9; 10])
    [0; 1; 2; 3]
  = true.
Proof. vm_compute. reflexivity. Qed.

(** Every request above 9 blanks the tube like the request 10. *)
Lemma blank_request (p d : Z) (separator : bool) :
  10 <= d ->
  write_mask pins_h p d separator = write_mask pins_h p 10 separator
  /\ mask_spec p d separator = mask_spec p 10 separator.
Proof.
  intro H. unfold write_mask, mask_spec. cbn [NUMBERS_INVERTED pins_h].
  ltb_false d 10.
  leb_false d 9.
  split; reflexivity.
Qed.

Lemma table_row (p d : Z) (separator : bool) :
  0 <= p <= 3 -> 0 <= d <= 10 -> table_row_ok p d separator = true.
Proof.
  intros Hp Hd. pose proof truth_table as T.
  rewrite forallb_forall in T.
  assert (Ip : In p [0; 1; 2; 3]) by (cbn; lia).
  specialize (T p Ip). rewrite forallb_forall in T.
  assert (Id : In d [0; 1; 2; 3; 4; 5; 6; 7; 8; 9; 10]) by (cbn; lia).
  specialize (T d Id). apply andb_prop in T.
  destruct separator; tauto.
Qed.

(** C3. For every position p in 0..3 and every requested digit d, the mask
    computed by Digits::write is the OR of the anode words of all positions
    except p (ANODES_INVERTED is defined), the cathode word of d when
    d <= 9 and none when d >= 10, and the separator word when requested;
    no other anode or cathode bit is present. *)
Theorem C3_mask_truth_table (p d : Z) (separator : bool) :
  0 <= p <= 3 -> 0 <= d <= 255 ->
  let mask := write_mask pins_h p d separator in
  mask = mask_spec p d separator
  /\ 0 <= mask < 2 ^ 16
  /\ (forall q, 0 <= q <= 3 ->
      Z.land mask (pgm_read_word PINS_ANODES q)
      = if q =? p then 0 else pgm_read_word PINS_ANODES q)
  /\ (forall e, 0 <= e <= 9 ->
      Z.land mask (pgm_read_word PINS_NUMBERS e)
      = if e =? d then pgm_read_word PINS_NUMBERS e else 0)
  /\ Z.land mask PIN_SEPARATOR = (if separator then PIN_SEPARATOR else 0)
  /\ Z.land mask 0x0100 = 0.
Proof.
  intros Hp Hd. cbv zeta.
  set (d' := if d <? 10 then d else 10).
  assert (Hd' : 0 <= d' <= 10).
  { unfold d'. destruct (Z.ltb_spec d 10); lia. }
  assert (Em : write_mask pins_h p d separator
               = write_mask pins_h p d' separator
               /\ mask_spec p d separator = mask_spec p d' separator).
  { unfold d'. destruct (Z.ltb_spec d 10); [split; reflexivity|].
    apply blank_request; assumption. }
  assert (Ee : forall e, 0 <= e <= 9 -> (e =? d) = (e =? d')).
  { intros e He. unfold d'. destruct (Z.ltb_spec d 10); [reflexivity|].
    transitivity false; [apply Z.eqb_neq|symmetry; apply Z.eqb_neq]; lia. }
  destruct Em as [Em Es]. rewrite Em, Es.
  pose proof (table_row p d' separator Hp Hd') as R.
  unfold table_row_ok in R. cbv zeta in R.
  repeat (apply andb_prop in R; destruct R as [R ?]).
  repeat match goal with
         | H : (_ =? _) = true |- _ => apply Z.eqb_eq in H
         | H : (_ <=? _) = true |- _ => apply Z.leb_le in H
         | H : (_ <? _) = true |- _ => apply Z.ltb_lt in H
         | H : forallb _ _ = true |- _ => rewrite forallb_forall in H
         end.
  repeat split; try assumption.
  - intros q Hq. apply Z.eqb_eq.
    match goal with H : forall x, In x [0; 1; 2; 3] -> _ |- _ => apply H end.
    cbn; lia.
  - intros e He. rewrite (Ee e He). apply Z.eqb_eq.
    match goal with
    | H : forall x, In x [0; 1; 2; 3; 4; 5; 6; 7; 8; 9] -> _ |- _ => apply H
    end.
    cbn; lia.
Qed.

(** Position 2 showing the numeral 7 with the separator lit. *)
Lemma C3_mask_truth_table_witness :
  write_mask pins_h 2 7 true = mask_spec 2 7 true.
Proof.
  apply (C3_mask_truth_table 2 7 true); lia.
Defined.

(** Setting a bit group after clearing it, and clearing it after setting
    it, on 16-bit words. *)
Lemma set_after_clear (m w : Z) :
  u16 (Z.lor (u16 (Z.land m (not16 w))) w) = u16 (Z.lor m w).
Proof. bitwise16 m w. Qed.

Lemma clear_after_set (m w : Z) :
  u16 (Z.land (u16 (Z.lor m w)) (not16 w)) = u16 (Z.land m (not16 w)).
Proof. bitwise16 m w. Qed.

(** C10. For every call of Digits::write the separator bit of the
    transmitted mask is set if and only if the separator is requested,
    whether or not SEPARATOR_INVERTED is defined: the unconditional
    assignment that follows the guarded branch overwrites what that branch
    did, so the mask is the same with and without the switch. *)
Theorem C10_separator_overwritten
    (anodes_inv numbers_inv separator_inv : bool) (bound anode number : Z)
    (separator : bool) :
  let cfg := mkConfig anodes_inv numbers_inv separator_inv bound in
  let mask := write_mask cfg anode number separator in
  Z.testbit mask 4 = separator
  /\ Z.land mask PIN_SEPARATOR = (if separator then PIN_SEPARATOR else 0)
  /\ mask = write_mask (mkConfig anodes_inv numbers_inv false bound)
                       anode number separator
  /\ mask = write_mask (mkConfig anodes_inv numbers_inv true bound)
                       anode number separator
  /\ (exists high,
       write cfg anode number separator
       = [LatchLow; Transfer (Z.land mask 0xFF); Transfer high; LatchHigh]
       /\ Z.testbit (Z.land mask 0xFF) 4 = separator).
Proof.
  cbv zeta.
  assert (B : forall m,
    Z.testbit (if separator then u16 (Z.lor m PIN_SEPARATOR)
               else u16 (Z.land m (not16 PIN_SEPARATOR))) 4 = separator).
  { intro m. unfold u16, not16, PIN_SEPARATOR.
    destruct separator;
      rewrite Z.testbit_mod_pow2 by lia;
      rewrite ?Z.lor_spec, ?Z.land_spec; cbn;
      rewrite ?orb_true_r, ?andb_false_r; reflexivity. }
  assert (E : forall inv,
    write_mask (mkConfig anodes_inv numbers_inv inv bound)
               anode number separator
    = write_mask (mkConfig anodes_inv numbers_inv false bound)
                 anode number separator).
  { intros [|]; [|reflexivity].
    unfold write_mask.
    cbn [SEPARATOR_INVERTED ANODES_INVERTED NUMBERS_INVERTED anodes_num].
    destruct separator; [apply set_after_clear|apply clear_after_set]. }
  assert (T : Z.testbit
                (write_mask (mkConfig anodes_inv numbers_inv separator_inv
                                      bound) anode number separator) 4
              = separator).
  { rewrite E. unfold write_mask at 1. cbn [SEPARATOR_INVERTED]. apply B. }
  split; [exact T|].
  split.
  { apply Z.bits_inj'; intros n Hn. unfold PIN_SEPARATOR.
    rewrite Z.land_spec. change 16 with (2 ^ 4) at 1.
    rewrite Z.pow2_bits_eqb by lia.
    destruct (Z.eqb_spec 4 n) as [<-|N].
    - rewrite T, andb_true_r. destruct separator; reflexivity.
    - rewrite andb_false_r. destruct separator.
      + change 16 with (2 ^ 4). rewrite Z.pow2_bits_eqb by lia.
        symmetry. apply Z.eqb_neq. exact N.
      + symmetry. apply Z.testbit_0_l. }
  split; [apply E|].
  split; [rewrite (E true); apply E|].
  eexists. split; [reflexivity|].
  rewrite Z.land_spec, T. change 255 with (Z.ones 8).
  rewrite Z.testbit_ones_nonneg by lia. apply andb_true_r.
Qed.

End Multiplex.

(** ** Voltage regulator *)

Section Regulator.

Import Power.

Lemma all_below_spec (n : nat) (f : Z -> bool) :
  all_below n f = true -> forall z, 0 <= z < Z.of_nat n -> f z = true.
Proof.
  induction n as [|n IH]; intros H z Hz; [lia|].
  cbn [all_below] in H. apply andb_prop in H. destruct H as [H0 H1].
  destruct (Z.eq_dec z (Z.of_nat n)) as [->|N]; [exact H0|].
  apply IH; [exact H1|lia].
Qed.

(** The soft-start bookkeeping of one call. *)
Lemma regulate_soft_start (adc now us : Z) (p : t) :
  let ts := if time_started p =? 0 then now else time_started p in
  let p' := fst (regulate adc now us p) in
  time_started p' = ts
  /\ setpoint p' = setpoint p
  /\ setpoint_temp p'
     = (if u64 (now - ts) >? CONVERTER_SOFT_START_TIME then setpoint p
        else ramp (u64 (now - ts)) (setpoint p)).
Proof.
  cbv zeta. unfold regulate.
  destruct (PetalPID.calculate _ _ _ _) as [out c].
  cbn. repeat split.
Qed.

(** Once recorded, the start time is never written again, whatever the
    clock reads. *)
Lemma run_keeps_time_started (ops : list op) (p : t) :
  time_started p <> 0 ->
  time_started (snd (run ops p)) = time_started p.
Proof.
  revert p; induction ops as [|o ops IH]; intros p H; [reflexivity|].
  destruct o as [adc now us|v]; cbn [run].
  - destruct (regulate_soft_start adc now us p) as (T & _ & _).
    apply Z.eqb_neq in H. rewrite H in T.
    destruct (regulate adc now us p) as [p1 duty]. cbn [fst] in T.
    apply Z.eqb_neq in H.
    specialize (IH p1). rewrite T in IH. specialize (IH H).
    destruct (run ops p1) as [ds p2]. cbn [snd] in *. exact IH.
  - apply (IH (set_voltage v p)). exact H.
Qed.

(** The ramp starts at 0 and ends at the target, for every 8-bit target. *)
Lemma ramp_ends :
  all_below 256 (fun sp => (ramp 0 sp =? 0) && (ramp 1000 sp =? sp)) = true.
Proof. vm_compute. reflexivity. Qed.

(** For every 8-bit target and every instant of the ramp, the truncated
    float product is the whole part of [t * target / 1000], or one less where
    the rounding of the float division falls just below a whole number. *)
Lemma ramp_table :
  all_below 1001 (fun t =>
    let q := F32.div (F32.of_Z t) (F32.of_Z 1000) in
    all_below 256 (fun sp =>
      let r := u8 (F32.to_Z (F32.mul q (F32.of_Z sp))) in
      (t * sp / 1000 - 1 <=? r) && (r <=? t * sp / 1000))) = true.
Proof. vm_compute. reflexivity. Qed.

Lemma ramp_within_one (t sp : Z) :
  0 <= t <= 1000 -> 0 <= sp <= 255 ->
  soft_start_spec sp t - 1 <= ramp t sp <= soft_start_spec sp t.
Proof.
  intros Ht Hsp.
  pose proof (all_below_spec _ _ ramp_table t ltac:(lia)) as R.
  cbv beta zeta in R.
  pose proof (all_below_spec _ _ R sp ltac:(lia)) as R'.
  cbv beta zeta in R'. apply andb_prop in R'. destruct R' as [L U].
  apply Z.leb_le in L, U.
  unfold soft_start_spec.
  leb_true t 1000.
  exact (conj L U).
Qed.

Lemma ramp_start_end (sp : Z) :
  0 <= sp <= 255 -> ramp 0 sp = 0 /\ ramp 1000 sp = sp.
Proof.
  intro H. pose proof (all_below_spec _ _ ramp_ends sp ltac:(lia)) as R.
  cbv beta in R. apply andb_prop in R. destruct R as [R0 R1].
  apply Z.eqb_eq in R0, R1. exact (conj R0 R1).
Qed.

(** At the instant the ramp starts the product is 0 whatever the target. *)
Lemma ramp_zero (sp : Z) : ramp 0 sp = 0.
Proof.
  unfold ramp.
  change (F32.div (F32.of_Z 0) (F32.of_Z CONVERTER_SOFT_START_TIME))
    with (S754_zero false).
  destruct (F32.of_Z sp); reflexivity.
Qed.

(** The effective setpoint of a call made [t] ms after the call that
    recorded the start time [T0], while the millisecond counter has not
    wrapped. *)
Lemma setpoint_temp_after (adc us T0 t : Z) (p : Power.t) :
  time_started p = T0 -> 0 < T0 -> 0 <= t -> T0 + t < 2 ^ 32 ->
  setpoint_temp (fst (regulate adc (T0 + t) us p))
  = (if t <=? 1000 then ramp t (setpoint p) else setpoint p)
  /\ time_started (fst (regulate adc (T0 + t) us p)) = T0.
Proof.
  intros E H0 Ht Hw.
  destruct (regulate_soft_start adc (T0 + t) us p) as (T & _ & S).
  rewrite E in T, S.
  replace (T0 =? 0) with false in T, S by (symmetry; apply Z.eqb_neq; lia).
  split; [|exact T]. rewrite S.
  replace (T0 + t - T0) with t by lia.
  unfold u64. rewrite Z.mod_small by lia.
  unfold CONVERTER_SOFT_START_TIME.
  destruct (Z.leb_spec t 1000), (Z.gtb_spec t 1000); try lia; reflexivity.
Qed.

(** The soft start as far as the millisecond counter has not wrapped.  For
    every call of regulate() made t ms after the first call, which read a
    non-zero millis(): the effective setpoint is the float product
    t / 1000 * target cut to a whole number (the whole part of
    t * target / 1000, or one less) while t <= 1000, and the target exactly
    afterwards; with target 180 it is 0 at t = 0, 90 at t = 500 and 180 for
    all such t >= 1000. *)
Lemma soft_start_until_wrap (p0 : Power.t) (adc0 us0 T0 : Z)
    (between : list op) (adc us t : Z) :
  time_started p0 = 0 -> 0 < T0 -> 0 <= t -> T0 + t < 2 ^ 32 ->
  let p1 := fst (regulate adc0 T0 us0 p0) in
  let p2 := snd (run between p1) in
  let target := setpoint p2 in
  0 <= target <= 255 ->
  let p := fst (regulate adc (T0 + t) us p2) in
  setpoint_temp p1 = 0
  /\ setpoint_temp p = (if t <=? 1000 then ramp t target else target)
  /\ (t <= 1000 ->
      soft_start_spec target t - 1 <= setpoint_temp p
                                   <= soft_start_spec target t)
  /\ (t = 0 -> setpoint_temp p = 0)
  /\ (target = 180 -> t = 500 -> setpoint_temp p = 90)
  /\ (1000 <= t -> setpoint_temp p = target)
  /\ time_started p = T0.
Proof.
  intros E0 H0 Ht Hw. cbv zeta. intro Hsp.
  set (p1 := fst (regulate adc0 T0 us0 p0)) in *.
  assert (T1 : time_started p1 = T0).
  { destruct (regulate_soft_start adc0 T0 us0 p0) as (T & _ & _).
    rewrite E0 in T. exact T. }
  set (p2 := snd (run between p1)) in *.
  assert (T2 : time_started p2 = T0).
  { unfold p2. rewrite run_keeps_time_started; rewrite T1; [reflexivity|lia]. }
  destruct (setpoint_temp_after adc us T0 t p2 T2 H0 Ht Hw) as [S T].
  destruct (ramp_start_end (setpoint p2) Hsp) as [R0 R1].
  rewrite S.
  split.
  { destruct (regulate_soft_start adc0 T0 us0 p0) as (_ & _ & S0).
    fold p1 in S0. rewrite S0, E0. cbn [Z.eqb].
    rewrite Z.sub_diag. apply ramp_zero. }
  split; [reflexivity|].
  split.
  { intro H.
    leb_true t 1000.
    apply ramp_within_one; lia. }
  split; [intros ->; exact R0|].
  split.
  { intros E ->. fold p2. rewrite E. vm_compute. reflexivity. }
  split; [|exact T].
  intro H. destruct (Z.leb_spec t 1000); [|reflexivity].
  replace t with 1000 by lia. exact R1.
Qed.

(** C4.  The soft start is replayed when the millisecond counter wraps:
    regulate() keeps no record that the ramp is over and compares millis()
    with the start time on every call.  With the target 180 and the first
    call 100 ms after power-on, the effective setpoint is 0 at that call,
    90 after 500 ms and 180 from 1000 ms on, up to the last millisecond
    before the 32-bit counter wraps.  2^32 ms after the first call the
    counter reads 100 again: the setpoint falls to 0, is 45 after 250 ms
    and 90 after 500 ms, where the claim has exactly 180, and is back at
    180 once the counter is 1000 ms past the start time again. *)
Theorem C4_soft_start_replayed :
  let calls (uptimes : list Z) :=
    map (fun u => Regulate 160 (millis_at u) (u32 (u * 1000))) uptimes in
  let after (uptimes : list Z) :=
    setpoint_temp (snd (run (calls uptimes) (set_voltage 180 init))) in
  let wrap := 2 ^ 32 in
  after [100] = 0
  /\ after [100; 600] = 90
  /\ after [100; 600; 1100] = 180
  /\ after [100; 600; 1100; wrap - 1] = 180
  /\ after [100; 600; 1100; wrap - 1; wrap + 100] = 0
  /\ after [100; 600; 1100; wrap - 1; wrap + 100; wrap + 350] = 45
  /\ after [100; 600; 1100; wrap - 1; wrap + 100; wrap + 350; wrap + 600]
     = 90
  /\ after [100; 600; 1100; wrap - 1; wrap + 100; wrap + 350; wrap + 600;
            wrap + 1101]
     = 180
  /\ soft_start_spec 180 (wrap + 500) = 180.
Proof. vm_compute. repeat split. Qed.

(** *** PID bounds *)


Lemma clamp_in_band (lo hi x : Q) :
  (lo <= hi)%Q ->
  (lo <= PetalPID.clamp lo hi x)%Q /\ (PetalPID.clamp lo hi x <= hi)%Q.
Proof.
  intro H. unfold PetalPID.clamp.
  destruct (Qle_bool x lo) eqn:E1.
  - split; [apply Qle_refl|exact H].
  - destruct (Qle_bool hi x) eqn:E2.
    + split; [exact H|apply Qle_refl].
    + split.
      * apply Qlt_le_weak, Qnot_le_lt. intro A.
        apply Qle_bool_iff in A. congruence.
      * apply Qlt_le_weak, Qnot_le_lt. intro A.
        apply Qle_bool_iff in A. congruence.
Qed.

Lemma calculate_in_band (input sp : Q) (time_us : Z) (c : PetalPID.t) :
  pid_configured c ->
  let r := PetalPID.calculate input sp time_us c in
  pid_configured (snd r)
  /\ (PID_MIN_OUT <= fst r)%Q /\ (fst r <= PID_MAX_OUT)%Q.
Proof.
  intros (A & B & C & D & _ & _). cbv zeta. unfold PetalPID.calculate.
  cbn [fst snd]. rewrite A, B, C, D.
  split.
  - unfold pid_configured.
    cbn [PetalPID.min_out PetalPID.max_out PetalPID.min_integral
         PetalPID.max_integral PetalPID.integral].
    repeat split; try assumption; apply clamp_in_band; discriminate.
  - apply clamp_in_band; discriminate.
Qed.

Lemma regulate_in_band (adc now us : Z) (p : t) :
  pid_configured (pid p) ->
  let r := regulate adc now us p in
  pid_configured (pid (fst r))
  /\ 0 <= snd r <= 512
  /\ OCR1A (fst r)
     = Z.shiftr (CONVERTER_PERIOD_CYCLES * snd r) 10.
Proof.
  intro H. cbv zeta. unfold regulate.
  match goal with
  | |- context [PetalPID.calculate ?i ?s ?u ?c] =>
      pose proof (calculate_in_band i s u c H) as K;
      destruct (PetalPID.calculate i s u c) as [out c']
  end.
  cbv zeta in K. cbn [fst snd] in K.
  destruct K as (K0 & K1 & K2).
  cbn [fst snd pid set_duty_cycle OCR1A].
  assert (F : 0 <= Qfloor out <= 512).
  { split.
    - change 0 with (Qfloor PID_MIN_OUT). apply Qfloor_resp_le, K1.
    - change 512 with (Qfloor PID_MAX_OUT). apply Qfloor_resp_le, K2. }
  assert (U : u16 (Qfloor out) = Qfloor out).
  { unfold u16. apply Z.mod_small. lia. }
  rewrite U.
  split; [exact K0|]. split; [exact F|].
  unfold u16, u32. change CONVERTER_PERIOD_CYCLES with 200.
  rewrite (Z.mod_small (200 * Qfloor out)) by lia.
  apply Z.mod_small. rewrite Z.shiftr_div_pow2 by lia.
  split; [apply Z.div_pos; lia|].
  apply Z.div_lt_upper_bound; lia.
Qed.

Lemma run_in_band (ops : list op) (p : t) :
  pid_configured (pid p) ->
  pid_configured (pid (snd (run ops p)))
  /\ Forall (fun duty => 0 <= duty <= 512) (fst (run ops p)).
Proof.
  revert p; induction ops as [|o ops IH]; intros p H.
  - split; [exact H|constructor].
  - destruct o as [adc now us|v]; cbn [run].
    + pose proof (regulate_in_band adc now us p H) as K. cbv zeta in K.
      destruct (regulate adc now us p) as [p1 duty]. cbn [fst snd] in K.
      destruct K as (K0 & K1 & _).
      destruct (IH p1 K0) as [I1 I2].
      destruct (run ops p1) as [ds p2]. cbn [fst snd] in *.
      split; [exact I1|]. constructor; assumption.
    + apply (IH (set_voltage v p)). exact H.
Qed.

(** C5. For every sequence of regulate() calls, whatever the feedback
    reading, the PID output handed to set_duty_cycle lies within
    [PID_MIN_OUT, PID_MAX_OUT] = [0, 512] and the integral term stays within
    [PID_MIN_INTEGRAL, PID_MAX_INTEGRAL] = [-1000, 1000]. *)
Theorem C5_pid_bounds (history : list op) (adc now us : Z) :
  let p := snd (run history init) in
  let r := regulate adc now us p in
  Forall (fun duty => 0 <= duty <= 512) (fst (run history init))
  /\ 0 <= snd r <= 512
  /\ OCR1A (fst r) = Z.shiftr (CONVERTER_PERIOD_CYCLES * snd r) 10
  /\ (- (1000) <= PetalPID.integral (pid p))%Q
  /\ (PetalPID.integral (pid p) <= 1000)%Q
  /\ (- (1000) <= PetalPID.integral (pid (fst r)))%Q
  /\ (PetalPID.integral (pid (fst r)) <= 1000)%Q.
Proof.
  cbv zeta.
  assert (I : pid_configured (pid init)).
  { unfold pid_configured. cbn. repeat split; discriminate. }
  destruct (run_in_band history init I) as [C D].
  pose proof (regulate_in_band adc now us _ C) as K. cbv zeta in K.
  destruct K as (K0 & K1 & K2).
  destruct C as (_ & _ & _ & _ & C1 & C2).
  destruct K0 as (_ & _ & _ & _ & K3 & K4).
  split; [exact D|]. split; [exact K1|]. split; [exact K2|].
  split; [exact C1|]. split; [exact C2|]. split; [exact K3|exact K4].
Qed.

End Regulator.

(** ** Tone engine *)

Section Tone.

Import Buzzer.

Variable note_frequency : Z -> F32.float.

Lemma set_frequency_keeps (f : F32.float) (b : t) :
  let b' := set_frequency f b in
  decay_timer b' = decay_timer b /\ chime_timer b' = chime_timer b
  /\ chime_note_duration b' = chime_note_duration b
  /\ attack_pwm_value b' = attack_pwm_value b
  /\ note_last b' = note_last b
  /\ note_duration_divider b' = note_duration_divider b
  /\ note_counter b' = note_counter b
  /\ OCR2B b' = OCR2B b /\ duty_cycle b' = duty_cycle b.
Proof.
  cbv zeta. unfold set_frequency.
  destruct (select_prescaler _ _) as [bits cycles]. cbn. repeat split.
Qed.

(** What [play_note] leaves in every member and register. *)
Lemma play_note_fields (n v now : Z) (b : t) :
  let changed := negb (n =? note_last b) && negb (n =? 0) in
  let b' := play_note note_frequency n v now b in
  frequency_registers b'
  = (if changed
     then frequency_registers (set_frequency (note_frequency n) b)
     else frequency_registers b)
  /\ attack_pwm_value b' = (if n =? 0 then 0 else v)
  /\ duty_cycle b' = (if n =? 0 then 0 else v)
  /\ OCR2B b' = u8 (Z.shiftr (u16 (OCR2A b' * duty_cycle b')) 8)
  /\ decay_timer b' = now
  /\ note_last b' = n
  /\ chime_timer b' = chime_timer b
  /\ chime_note_duration b' = chime_note_duration b
  /\ note_duration_divider b' = note_duration_divider b
  /\ note_counter b' = note_counter b.
Proof.
  cbv zeta. unfold play_note.
  destruct (Z.eqb_spec n (note_last b)) as [E|E];
    destruct (Z.eqb_spec n 0) as [E0|E0]; cbn [negb andb];
    try (cbn; repeat split; congruence).
  pose proof (set_frequency_keeps (note_frequency n) b) as K. cbv zeta in K.
  destruct K as (K1 & K2 & K3 & K4 & K5 & K6 & K7 & K8 & K9).
  unfold frequency_registers. cbn. repeat split; assumption.
Qed.

(** C9. play_note(n, v) changes the PWM frequency (prescaler and TOP
    registers) only when n differs from the previously played note and n is
    not zero; when n = 0 the duty cycle is forced to 0 without any change of
    frequency, when n is not zero the duty cycle is set to v, and in every
    case the decay start timestamp is reset to the current time. *)
Theorem C9_play_note (n v now : Z) (b : t) :
  let b' := play_note note_frequency n v now b in
  (n = note_last b \/ n = 0 ->
   frequency_registers b' = frequency_registers b)
  /\ (frequency_registers b' <> frequency_registers b ->
      n <> note_last b /\ n <> 0)
  /\ (n <> note_last b -> n <> 0 ->
      frequency_registers b'
      = frequency_registers (set_frequency (note_frequency n) b))
  /\ (n = 0 ->
      duty_cycle b' = 0 /\ OCR2B b' = 0 /\ attack_pwm_value b' = 0)
  /\ (n <> 0 ->
      duty_cycle b' = v /\ attack_pwm_value b' = v
      /\ OCR2B b' = u8 (Z.shiftr (u16 (OCR2A b' * v)) 8))
  /\ decay_timer b' = now
  /\ note_last b' = n.
Proof.
  pose proof (play_note_fields n v now b) as K. cbv zeta in *.
  destruct K as (F & A & D & O & T & L & _).
  assert (Same : n = note_last b \/ n = 0 ->
                 frequency_registers (play_note note_frequency n v now b)
                 = frequency_registers b).
  { intros [E|E]; rewrite F.
    - apply Z.eqb_eq in E. rewrite E. reflexivity.
    - apply Z.eqb_eq in E. rewrite E, andb_false_r. reflexivity. }
  split; [exact Same|].
  split.
  { intro N. split; intro E; apply N, Same; auto. }
  split.
  { intros N N0. rewrite F. apply Z.eqb_neq in N, N0. rewrite N, N0.
    reflexivity. }
  split.
  { intro E. rewrite O, D, A. apply Z.eqb_eq in E. rewrite E.
    rewrite Z.mul_0_r. repeat split. }
  split.
  { intro N. rewrite O, D, A. apply Z.eqb_neq in N. rewrite N.
    repeat split. }
  split; assumption.
Qed.

(** *** Decay *)

Lemma last_cons_default {A : Type} (xs : list A) (x d : A) :
  List.last (x :: xs) d = List.last xs x.
Proof.
  revert x d. induction xs as [|y ys IH]; intros x d; [reflexivity|].
  change (List.last (x :: y :: ys) d) with (List.last (y :: ys) d).
  rewrite (IH y d), (IH y x). reflexivity.
Qed.

Lemma gtb_false (a b : Z) : a <= b -> (a >? b) = false.
Proof. intro H. rewrite Z.gtb_ltb. apply Z.ltb_ge. exact H. Qed.

Lemma gtb_true (a b : Z) : b < a -> (a >? b) = true.
Proof. intro H. rewrite Z.gtb_ltb. apply Z.ltb_lt. exact H. Qed.

(** Arduino's [map] on the arguments of [decay]: the linear ramp from the
    attack value down to 0. *)
Lemma map_long_ramp (t v : Z) :
  0 <= t < 400 -> 0 <= v <= 255 ->
  u8 (map_long (s32 (u64 t)) 0 DECAY_TIME v 0) = v - t * v / 400.
Proof.
  intros Ht Hv. unfold map_long, DECAY_TIME, u64.
  rewrite (Z.mod_small t) by lia.
  assert (S : forall x, - 2 ^ 31 <= x < 2 ^ 31 -> s32 x = x).
  { intros x Hx. unfold s32. rewrite Z.mod_small; lia. }
  rewrite (S t) by lia. rewrite !Z.sub_0_r, (S t) by lia.
  rewrite (S (0 - v)) by lia. rewrite (S 400) by lia.
  assert (P : 0 <= t * v <= 399 * 255) by nia.
  rewrite (S (t * (0 - v))) by nia.
  replace (t * (0 - v)) with (- (t * v)) by lia.
  rewrite Z.quot_opp_l by lia. rewrite Z.quot_div_nonneg by lia.
  assert (Q : 0 <= t * v / 400 <= v).
  { split; [apply Z.div_pos; lia|].
    apply Z.div_le_upper_bound; nia. }
  rewrite S by lia. unfold u8. rewrite Z.mod_small; lia.
Qed.


Lemma decay_envelope (v T0 last now : Z) (b : t) :
  0 <= v <= 255 -> 0 < T0 -> T0 <= last <= now -> now < 2 ^ 32 ->
  envelope v T0 last b -> envelope v T0 now (decay now b).
Proof.
  intros Hv H0 Hl Hn (A & D & O & [[T L]|[T L]]).
  - (* armed *)
    unfold decay. rewrite T.
    rewrite (gtb_false T0 now) by lia.
    cbn [decay_timer attack_pwm_value chime_timer chime_note_duration
         prescaler_bits note_last note_duration_divider note_counter
         TCCR2B OCR2A OCR2B duty_cycle].
    eqb_false T0 0.
    cbn [negb andb]. unfold u64. rewrite (Z.mod_small (now - T0)) by lia.
    unfold DECAY_TIME at 1 2.
    destruct (Z.geb_spec (now - T0) 400) as [G|G].
    + unfold envelope, set_duty_cycle, decay_spec. cbn.
      ltb_false (now - T0) 400.
      rewrite Z.mul_0_r. repeat split; try assumption. right. lia.
    + ltb_true (now - T0) 400.
      rewrite A.
      pose proof (map_long_ramp (now - T0) v ltac:(lia) Hv) as M.
      unfold u64 in M. rewrite (Z.mod_small (now - T0)) in M by lia.
      rewrite M.
      unfold envelope, set_duty_cycle, decay_spec. cbn.
      ltb_true (now - T0) 400.
      repeat split; try assumption. left. lia.
  - (* disarmed *)
    unfold decay. rewrite T.
    rewrite (gtb_false 0 now) by lia.
    cbn [decay_timer attack_pwm_value chime_timer chime_note_duration
         prescaler_bits note_last note_duration_divider note_counter
         TCCR2B OCR2A OCR2B duty_cycle].
    cbn [Z.eqb negb andb]. unfold u64. rewrite Z.sub_0_r.
    rewrite (Z.mod_small now) by lia. unfold DECAY_TIME.
    ltb_false now 400.
    unfold envelope, decay_spec in *. cbn.
    ltb_false (now - T0) 400.
    replace (last - T0 <? 400) with false in D
      by (symmetry; apply Z.ltb_ge; lia).
    repeat split; try assumption. right. lia.
Qed.

Lemma decay_trace_envelope (v T0 : Z) (ts : list Z) (last : Z) (b : t) :
  0 <= v <= 255 -> 0 < T0 -> T0 <= last ->
  monotone_from last ts -> Forall (fun now => now < 2 ^ 32) ts ->
  envelope v T0 last b ->
  decay_trace ts b = map (fun now => decay_spec v (now - T0)) ts
  /\ envelope v T0 (List.last ts last) (decay_calls ts b).
Proof.
  intros Hv H0. revert last b.
  induction ts as [|now ts IH]; intros last b Hl M F E.
  - split; [reflexivity|exact E].
  - destruct M as [M1 M2]. inversion F as [|? ? F1 F2]; subst.
    pose proof (decay_envelope v T0 last now b Hv H0 ltac:(lia) F1 E) as E'.
    destruct (IH now (decay now b) ltac:(lia) M2 F2 E') as [I1 I2].
    cbn [decay_trace map]. split.
    + f_equal; [|exact I1]. apply E'.
    + unfold decay_calls in *. cbn [fold_left].
      rewrite last_cons_default. exact I2.
Qed.

(** C6 (amended). After play_note(n, v) with n non-zero, made at a non-zero
    millis() reading, and as long as millis() has not wrapped around since
    the note started: every decay() call at elapsed time t since the note
    start sets the duty cycle to the linear interpolation v - t * v / 400
    while t < 400 ms and to 0 once t >= 400 ms, disarming itself, and later
    calls leave the duty cycle at 0; play_note(69, 100) followed by decay()
    at t = 0, 200, 400, 401 ms yields the duties 100, 50, 0, 0. *)
Theorem C6_decay (n v T0 : Z) (ts : list Z) (b0 : t) :
  n <> 0 -> 0 <= v <= 255 -> 0 < T0 ->
  monotone_from T0 ts -> Forall (fun now => now < 2 ^ 32) ts ->
  let b1 := play_note note_frequency n v T0 b0 in
  let b := decay_calls ts b1 in
  let t := List.last ts T0 - T0 in
  decay_trace ts b1 = map (fun now => decay_spec v (now - T0)) ts
  /\ duty_cycle b = (if t <? 400 then v - t * v / 400 else 0)
  /\ OCR2B b = u8 (Z.shiftr (u16 (OCR2A b * duty_cycle b)) 8)
  /\ (400 <= t -> decay_timer b = 0 /\ duty_cycle b = 0 /\ OCR2B b = 0)
  /\ (v = 100 -> ts = [T0; T0 + 200; T0 + 400; T0 + 401] ->
      decay_trace ts b1 = [100; 50; 0; 0]).
Proof.
  intros Hn Hv H0 M F. cbv zeta.
  pose proof (play_note_fields n v T0 b0) as K. cbv zeta in K.
  destruct K as (_ & A & D & O & T & _).
  apply Z.eqb_neq in Hn. rewrite Hn in A, D.
  assert (E : envelope v T0 T0 (play_note note_frequency n v T0 b0)).
  { unfold envelope, decay_spec. rewrite Z.sub_diag. cbn [Z.ltb Z.compare].
    rewrite Z.mul_0_l, Z.div_0_l, Z.sub_0_r by lia.
    repeat split; try assumption. left. lia. }
  destruct (decay_trace_envelope v T0 ts T0 _ Hv H0 ltac:(lia) M F E)
    as [Tr (A' & D' & O' & St)].
  split; [exact Tr|].
  split; [exact D'|].
  split; [exact O'|].
  split.
  { intro G. destruct St as [[_ St]|[St _]]; [lia|].
    assert (Z0 : duty_cycle
                   (decay_calls ts (play_note note_frequency n v T0 b0))
                 = 0).
    { rewrite D'. unfold decay_spec.
      replace (_ <? 400) with false by (symmetry; apply Z.ltb_ge; lia).
      reflexivity. }
    rewrite O', Z0, Z.mul_0_r. repeat split; assumption. }
  intros -> Ets. rewrite Tr, Ets. cbn [map]. unfold decay_spec.
  replace (T0 - T0) with 0 by lia.
  replace (T0 + 200 - T0) with 200 by lia.
  replace (T0 + 400 - T0) with 400 by lia.
  replace (T0 + 401 - T0) with 401 by lia.
  reflexivity.
Qed.

End Tone.

(** The first note after power-on, struck with velocity 100. *)
Lemma C9_play_note_witness :
  Buzzer.duty_cycle
    (Buzzer.play_note Buzzer.concert_pitch 69 100 1000 Buzzer.init)
  = 100.
Proof.
  refine (proj1 (proj1 (proj2 (proj2 (proj2 (proj2
    (C9_play_note Buzzer.concert_pitch 69 100 1000 Buzzer.init)))))
    _)).
  vm_compute. discriminate.
Defined.

(** The concert pitch struck with velocity 100 one second after power-on,
    and [decay] polled at 0, 200, 400 and 401 ms. *)
Lemma C6_decay_witness :
  Buzzer.decay_trace [1000; 1200; 1400; 1401]
    (Buzzer.play_note Buzzer.concert_pitch 69 100 1000 Buzzer.init)
  = [100; 50; 0; 0].
Proof.
  refine (proj2 (proj2 (proj2 (proj2
    (C6_decay Buzzer.concert_pitch 69 100 1000 [1000; 1200; 1400; 1401]
       Buzzer.init ltac:(discriminate) ltac:(lia) ltac:(lia) _ _))))
    eq_refl eq_refl).
  - cbn. lia.
  - repeat constructor.
Defined.

(** As the specification words it the property fails in two places.  When
    the millisecond counter wraps while the note decays, the timestamp is
    resynchronised and the ramp starts over: 200 ms after the note the duty
    cycle is back at the attack value.  And a note started while millis()
    reads 0 stores the timestamp that means "disarmed": its duty cycle is
    never forced to 0. *)
Lemma C6_counterexample :
  let start := 2 ^ 32 - 100 in
  let b1 :=
    Buzzer.play_note Buzzer.concert_pitch 69 100 (millis_at start)
                     Buzzer.init in
  let b := Buzzer.decay (millis_at (start + 200)) b1 in
  let c1 :=
    Buzzer.play_note Buzzer.concert_pitch 69 100 (millis_at 0)
                     Buzzer.init in
  let c := Buzzer.decay_calls [millis_at 200; millis_at 400; millis_at 401]
                              c1 in
  (Buzzer.duty_cycle b = 100
   /\ Buzzer.decay_spec 100 200 = 50
   /\ Buzzer.duty_cycle b <> Buzzer.decay_spec 100 200)
  /\ (Buzzer.duty_cycle c = 50
      /\ Buzzer.decay_spec 100 401 = 0
      /\ Buzzer.duty_cycle c <> Buzzer.decay_spec 100 401).
Proof. vm_compute. repeat split; discriminate. Qed.

(** A disarmed envelope is not protected either: with the counter back
    below 400 after a wrap, [decay] replays the ramp of the last note
    although no note was started. *)
Lemma decay_replayed_after_wrap :
  let b1 :=
    Buzzer.play_note Buzzer.concert_pitch 69 100 (millis_at 1000)
                     Buzzer.init in
  let b2 := Buzzer.decay (millis_at 1400) b1 in
  let b3 := Buzzer.decay (millis_at (2 ^ 32 + 100)) b2 in
  Buzzer.decay_timer b2 = 0 /\ Buzzer.duty_cycle b2 = 0
  /\ Buzzer.duty_cycle b3 = 75 /\ Buzzer.OCR2B b3 = 41.
Proof. vm_compute. repeat split. Qed.

(** *** Chime *)

Section Chime.

Import Buzzer.

Variable note_frequency : Z -> F32.float.


(** What one call of [play_chime] does to the sequencer members. *)
Lemma play_chime_fields (now now_note r1 r2 r3 : Z) (b : t) :
  let r := play_chime note_frequency now now_note r1 r2 r3 b in
  let b' := fst (fst r) in
  let played := snd (fst r) in
  let drawn := snd r in
  played = note_due now b
  /\ drawn = note_due now b
             && (u8 (note_counter b + 1) >? note_duration_divider b)
  /\ note_duration_divider b'
     = (if drawn
        then pgm_read_byte NOTE_DURATION_DIVIDERS
                           (Z.rem r3 NOTE_DURATION_DIVIDERS_N)
        else note_duration_divider b)
  /\ chime_note_duration b'
     = (if drawn then note_duration (note_duration_divider b')
        else chime_note_duration b)
  /\ note_counter b'
     = (if drawn then 0
        else if played then u8 (note_counter b + 1) else note_counter b)
  /\ chime_timer b'
     = (if played then now
        else if chime_timer b >? now then now else chime_timer b).
Proof.
  cbv zeta. unfold play_chime, note_due.
  destruct (u64 _ >=? chime_note_duration b); cbn [andb].
  - match goal with
    | |- context [play_note ?f ?n ?v ?m ?x] =>
        pose proof (play_note_fields f n v m x) as K;
        set (b1 := play_note f n v m x) in *
    end.
    cbv zeta in K. destruct K as (_ & _ & _ & _ & _ & _ & K1 & K2 & K3 & K4).
    cbn [chime_timer chime_note_duration note_duration_divider note_counter]
      in K1, K2, K3, K4.
    rewrite K3, K4.
    destruct (u8 (note_counter b + 1) >? note_duration_divider b);
      cbn; repeat split; assumption.
  - cbn. repeat split.
Qed.

(** Every entry of the divider table, with the note duration it gives. *)
Lemma divider_table (k : Z) :
  0 <= k < 6 ->
  let d := pgm_read_byte NOTE_DURATION_DIVIDERS k in
  In d NOTE_DURATION_DIVIDERS
  /\ (d = 1 \/ d = 2 \/ d = 4 \/ d = 8)
  /\ note_duration d = 60000 / 90 / d.
Proof.
  intro H.
  assert (C : k = 0 \/ k = 1 \/ k = 2 \/ k = 3 \/ k = 4 \/ k = 5) by lia.
  destruct C as [C|[C|[C|[C|[C|C]]]]]; subst k; vm_compute; intuition.
Qed.


Lemma sequencer_bound (b : t) :
  sequencer_ok b ->
  0 <= note_counter b <= note_duration_divider b
  /\ note_duration_divider b <= 8.
Proof.
  intros [C [D|D]]; [lia|].
  cbn in D. lia.
Qed.

Lemma play_chime_sequencer (now now_note r1 r2 r3 : Z) (b : t) :
  sequencer_ok b -> 0 <= r3 ->
  let r := play_chime note_frequency now now_note r1 r2 r3 b in
  let b' := fst (fst r) in
  let played := snd (fst r) in
  let drawn := snd r in
  sequencer_ok b'
  /\ drawn = played && (note_counter b =? note_duration_divider b)
  /\ note_counter b'
     = (if drawn then 0
        else if played then note_counter b + 1 else note_counter b)
  /\ (drawn = true ->
      note_duration_divider b'
      = pgm_read_byte NOTE_DURATION_DIVIDERS (r3 mod 6)
      /\ In (note_duration_divider b') NOTE_DURATION_DIVIDERS
      /\ (note_duration_divider b' = 1 \/ note_duration_divider b' = 2
          \/ note_duration_divider b' = 4 \/ note_duration_divider b' = 8)
      /\ chime_note_duration b' = note_duration (note_duration_divider b')
      /\ note_duration (note_duration_divider b')
         = 60000 / 90 / note_duration_divider b')
  /\ (drawn = false ->
      note_duration_divider b' = note_duration_divider b
      /\ chime_note_duration b' = chime_note_duration b).
Proof.
  intros S R. pose proof (sequencer_bound b S) as B.
  pose proof (play_chime_fields now now_note r1 r2 r3 b) as K.
  cbv zeta in *.
  destruct K as (P & Dr & Dv & Du & Ct & _).
  assert (U : u8 (note_counter b + 1) = note_counter b + 1).
  { unfold u8. apply Z.mod_small. lia. }
  rewrite U in Dr, Ct.
  assert (G : (note_counter b + 1 >? note_duration_divider b)
              = (note_counter b =? note_duration_divider b)).
  { destruct (Z.gtb_spec (note_counter b + 1) (note_duration_divider b));
      symmetry; [apply Z.eqb_eq|apply Z.eqb_neq]; lia. }
  rewrite G, <- P in Dr.
  assert (Rm : Z.rem r3 NOTE_DURATION_DIVIDERS_N = r3 mod 6).
  { apply Z.rem_mod_nonneg; unfold NOTE_DURATION_DIVIDERS_N; lia. }
  rewrite Rm in Dv.
  pose proof (Z.mod_pos_bound r3 6 ltac:(lia)) as Rb.
  pose proof (divider_table (r3 mod 6) Rb) as Tb. cbv zeta in Tb.
  destruct Tb as (T1 & T2 & T3).
  split.
  { unfold sequencer_ok. rewrite Ct, Dv.
    destruct (snd (play_chime note_frequency now now_note r1 r2 r3 b)).
    - split; [|right; exact T1]. lia.
    - destruct S as [S1 S2]. split; [|exact S2].
      destruct (snd (fst (play_chime note_frequency now now_note r1 r2 r3 b)));
        [|lia].
      cbn [andb] in Dr. symmetry in Dr. apply Z.eqb_neq in Dr. lia. }
  split; [exact Dr|]. split; [exact Ct|].
  split; intro E; rewrite E in Dv, Du.
  - rewrite Du, Dv. repeat split; assumption.
  - split; assumption.
Qed.

Lemma decay_keeps_sequencer (now : Z) (b : t) :
  note_counter (decay now b) = note_counter b
  /\ note_duration_divider (decay now b) = note_duration_divider b
  /\ chime_note_duration (decay now b) = chime_note_duration b.
Proof.
  unfold decay.
  destruct (negb _ && _); [cbn; repeat split|].
  destruct (_ <? DECAY_TIME); cbn; repeat split.
Qed.

(** Along any schedule the note counter is the number of notes played since
    the latest draw. *)
Lemma run_sequencer (ops : list op) (acc : nat) (b : t) :
  sequencer_ok b -> note_counter b = Z.of_nat acc ->
  Forall op_ok ops ->
  let r := run note_frequency ops b in
  sequencer_ok (snd r)
  /\ note_counter (snd r) = Z.of_nat (since_draw acc (fst r)).
Proof.
  revert acc b. induction ops as [|o ops IH]; intros acc b Ok C F.
  - split; assumption.
  - inversion F as [|? ? F1 F2]; subst. destruct o as [n v now|now|i];
      cbn [run].
    + pose proof (play_note_fields note_frequency n v now b) as K.
      cbv zeta in K.
      destruct K as (_ & _ & _ & _ & _ & _ & _ & _ & K1 & K2).
      apply IH; [|congruence|exact F2].
      unfold sequencer_ok in *. rewrite K1, K2. exact Ok.
    + destruct (decay_keeps_sequencer now b) as (K1 & K2 & _).
      apply IH; [|congruence|exact F2].
      unfold sequencer_ok in *. rewrite K1, K2. exact Ok.
    + pose proof (play_chime_sequencer (in_millis i) (in_millis_note i)
                    (in_r1 i) (in_r2 i) (in_r3 i) b Ok F1) as K.
      cbv zeta in K.
      destruct (play_chime note_frequency (in_millis i) (in_millis_note i)
                  (in_r1 i) (in_r2 i) (in_r3 i) b) as [[b1 played] drawn].
      cbn [fst snd] in K. destruct K as (S1 & _ & Ct & _).
      assert (C1 : note_counter b1
                   = Z.of_nat (if drawn then O
                               else if played then S acc else acc)).
      { rewrite Ct. destruct drawn, played; lia. }
      specialize (IH _ b1 S1 C1 F2). cbv zeta in IH.
      destruct (run note_frequency ops b1) as [flags b2].
      cbn [fst snd since_draw] in *. exact IH.
Qed.

(** C7 (amended). In play_chime every divisor that is drawn is an entry of
    the table {1, 2, 2, 2, 4, 8} (the divisor is 0 before the first draw),
    and a fresh divisor is drawn, with the note duration recomputed as
    60000 / BPM / divisor, exactly when a note is played after as many notes
    as the current divisor have been played since the previous draw: once
    every divisor + 1 notes. *)
Theorem C7_chime (history : list op) (i : chime_input) :
  Forall op_ok history -> 0 <= in_r3 i ->
  let past := run note_frequency history init in
  let b := snd past in
  let r := play_chime note_frequency (in_millis i) (in_millis_note i)
                      (in_r1 i) (in_r2 i) (in_r3 i) b in
  let b' := fst (fst r) in
  let played := snd (fst r) in
  let drawn := snd r in
  let d := note_duration_divider b in
  let d' := note_duration_divider b' in
  (d = 0 \/ In d NOTE_DURATION_DIVIDERS)
  /\ (d' = 0 \/ In d' NOTE_DURATION_DIVIDERS)
  /\ note_counter b = Z.of_nat (since_draw 0 (fst past))
  /\ drawn = played && (Z.of_nat (since_draw 0 (fst past)) =? d)
  /\ (drawn = true ->
      d' = pgm_read_byte NOTE_DURATION_DIVIDERS (in_r3 i mod 6)
      /\ In d' NOTE_DURATION_DIVIDERS
      /\ (d' = 1 \/ d' = 2 \/ d' = 4 \/ d' = 8)
      /\ chime_note_duration b' = note_duration d'
      /\ note_duration d' = 60000 / 90 / d'
      /\ note_counter b' = 0)
  /\ (drawn = false ->
      d' = d /\ chime_note_duration b' = chime_note_duration b
      /\ note_counter b'
         = note_counter b + (if played then 1 else 0)).
Proof.
  intros F R. cbv zeta.
  assert (S0 : sequencer_ok init).
  { assert (N : note_counter init = 0 /\ note_duration_divider init = 0)
      by (vm_compute; split; reflexivity).
    destruct N as [N1 N2]. unfold sequencer_ok. rewrite N1, N2.
    split; [lia|left; reflexivity]. }
  destruct (run_sequencer history 0 init S0 eq_refl F) as [S C].
  pose proof (play_chime_sequencer (in_millis i) (in_millis_note i)
                (in_r1 i) (in_r2 i) (in_r3 i) _ S R) as K.
  cbv zeta in K. destruct K as (S1 & Dr & Ct & Y & N).
  split; [apply S|]. split; [apply S1|]. split; [exact C|].
  split; [rewrite <- C; exact Dr|].
  split; intro E.
  - destruct (Y E) as (Y1 & Y2 & Y3 & Y4 & Y5).
    rewrite E in Ct. repeat split; assumption.
  - destruct (N E) as (N1 & N2). rewrite E in Ct.
    split; [exact N1|]. split; [exact N2|]. rewrite Ct.
    destruct (snd (fst _)); lia.
Qed.

End Chime.

(** The alarm after power-on: three calls of [play_chime], each finding a
    note due, with the main loop calling [decay] in between. *)
Lemma C7_chime_witness :
  Buzzer.note_duration_divider
    (fst (fst (Buzzer.play_chime Buzzer.concert_pitch 1332 1332 7 4 5
       (snd (Buzzer.run Buzzer.concert_pitch
               [Buzzer.PlayChime (Buzzer.mkInput 0 0 0 0 0);
                Buzzer.Decay 300;
                Buzzer.PlayChime (Buzzer.mkInput 666 666 0 0 0)]
               Buzzer.init)))))
  = 8.
Proof.
  refine (proj1 (proj1 (proj2 (proj2 (proj2 (proj2
    (C7_chime Buzzer.concert_pitch
       [Buzzer.PlayChime (Buzzer.mkInput 0 0 0 0 0);
        Buzzer.Decay 300;
        Buzzer.PlayChime (Buzzer.mkInput 666 666 0 0 0)]
       (Buzzer.mkInput 1332 1332 7 4 5) _ _)))))
    eq_refl)).
  - repeat constructor; cbn; lia.
  - cbn; lia.
Defined.

(** As the specification words it the property fails: the first three notes
    of the alarm, with a first draw that yields the divisor 1, contain two
    draws, on the first and on the third note, not one draw per 16 notes. *)
Lemma C7_counterexample :
  let flags :=
    fst (Buzzer.run Buzzer.concert_pitch
           [Buzzer.PlayChime (Buzzer.mkInput 0 0 0 0 0);
            Buzzer.PlayChime (Buzzer.mkInput 666 666 0 0 0);
            Buzzer.PlayChime (Buzzer.mkInput 1332 1332 0 0 0)]
           Buzzer.init) in
  flags = [(true, true); (true, false); (true, true)]
  /\ Buzzer.notes_played flags = 3%nat
  /\ Buzzer.draws flags = 2%nat
  /\ (Buzzer.notes_played flags < 16)%nat.
Proof. vm_compute. repeat split; lia. Qed.

(** ** Clock wrap-around *)

Section ClockWrap.

Variable note_frequency : Z -> F32.float.

(** C8 (amended). decay() and play_chime() tolerate a wrapping clock by
    resynchronisation: whenever their stored timestamp is greater than the
    current time they first set it to the current time and only then compare
    the elapsed time with their constant.  regulate() has no
    resynchronisation: it writes time_started only while it is zero, and a
    start time greater than the current time makes the unsigned difference
    exceed the ramp, so that the target setpoint is used. *)
Theorem C8_clock_wrap (now : Z) (b : Buzzer.t) (now_note r1 r2 r3 : Z)
    (p : Power.t) (adc us : Z) :
  0 <= now < 2 ^ 32 ->
  (now < Buzzer.decay_timer b ->
   Buzzer.decay now b = Buzzer.decay now (Buzzer.with_decay_timer now b)
   /\ Buzzer.decay_timer (Buzzer.decay now b) = now)
  /\ (now < Buzzer.chime_timer b ->
      Buzzer.play_chime note_frequency now now_note r1 r2 r3 b
      = Buzzer.play_chime note_frequency now now_note r1 r2 r3
                          (Buzzer.with_chime_timer now b)
      /\ Buzzer.chime_timer
           (fst (fst (Buzzer.play_chime note_frequency now now_note
                                        r1 r2 r3 b)))
         = now
      /\ snd (fst (Buzzer.play_chime note_frequency now now_note r1 r2 r3 b))
         = (0 >=? Buzzer.chime_note_duration b))
  /\ (Power.time_started p <> 0 ->
      Power.time_started (fst (Power.regulate adc now us p))
      = Power.time_started p)
  /\ (now < Power.time_started p < 2 ^ 32 ->
      Power.setpoint_temp (fst (Power.regulate adc now us p))
      = Power.setpoint p).
Proof.
  intro Hn.
  split.
  { intro W. unfold Buzzer.decay, Buzzer.with_decay_timer.
    cbn [Buzzer.decay_timer Buzzer.chime_timer Buzzer.chime_note_duration
         Buzzer.prescaler_bits Buzzer.attack_pwm_value Buzzer.note_last
         Buzzer.note_duration_divider Buzzer.note_counter Buzzer.TCCR2B
         Buzzer.OCR2A Buzzer.OCR2B Buzzer.duty_cycle].
    rewrite (gtb_true (Buzzer.decay_timer b) now) by lia.
    rewrite (gtb_false now now) by lia.
    split; [reflexivity|].
    rewrite Z.sub_diag. change (u64 0) with 0.
    change (0 >=? Buzzer.DECAY_TIME) with false.
    change (0 <? Buzzer.DECAY_TIME) with true.
    rewrite andb_false_r. reflexivity. }
  split.
  { intro W.
    pose proof (play_chime_fields note_frequency now now_note r1 r2 r3 b)
      as K.
    cbv zeta in K. destruct K as (P & _ & _ & _ & _ & C).
    unfold Buzzer.note_due in P.
    rewrite (gtb_true (Buzzer.chime_timer b) now) in P, C by lia.
    rewrite Z.sub_diag in P. change (u64 0) with 0 in P.
    split; [|split; [|exact P]].
    - unfold Buzzer.play_chime, Buzzer.with_chime_timer.
      cbn [Buzzer.decay_timer Buzzer.chime_timer Buzzer.chime_note_duration
           Buzzer.prescaler_bits Buzzer.attack_pwm_value Buzzer.note_last
           Buzzer.note_duration_divider Buzzer.note_counter Buzzer.TCCR2B
           Buzzer.OCR2A Buzzer.OCR2B Buzzer.duty_cycle].
      rewrite (gtb_true (Buzzer.chime_timer b) now) by lia.
      rewrite (gtb_false now now) by lia.
      reflexivity.
    - rewrite C. destruct (snd (fst _)); reflexivity. }
  destruct (regulate_soft_start adc now us p) as (T & _ & S).
  split.
  { intro N. rewrite T. apply Z.eqb_neq in N. rewrite N. reflexivity. }
  intro W. rewrite S.
  eqb_false (Power.time_started p) 0.
  unfold u64, Power.CONVERTER_SOFT_START_TIME.
  replace (now - Power.time_started p)
    with ((2 ^ 64 + now - Power.time_started p) + (-1) * 2 ^ 64) by lia.
  rewrite Z.mod_add, Z.mod_small by lia.
  rewrite gtb_true by lia. reflexivity.
Qed.

End ClockWrap.

(** A tone started 100 ms before the counter wraps, polled 100 ms after
    the wrap. *)
Lemma C8_clock_wrap_witness :
  Buzzer.decay_timer
    (Buzzer.decay 100
       (Buzzer.play_note Buzzer.concert_pitch 69 100 (2 ^ 32 - 100)
                         Buzzer.init))
  = 100.
Proof.
  refine (proj2 (proj1
    (C8_clock_wrap Buzzer.concert_pitch 100
       (Buzzer.play_note Buzzer.concert_pitch 69 100 (2 ^ 32 - 100)
                         Buzzer.init)
       0 0 0 0 Power.init 0 0 ltac:(lia)) _)).
  vm_compute. reflexivity.
Defined.

(** As the specification words it the property fails for regulate(): with
    a start time of 5000 and the counter reading 100 after a wrap, the
    stored timestamp is left as it is. *)
Lemma C8_counterexample :
  let p :=
    fst (Power.regulate 0 (millis_at 5000) 5000000
                        (Power.set_voltage 180 Power.init)) in
  let now := millis_at (2 ^ 32 + 100) in
  let p' := fst (Power.regulate 0 now 100000 p) in
  now = 100
  /\ Power.time_started p = 5000
  /\ now < Power.time_started p
  /\ Power.time_started p' = 5000
  /\ Power.time_started p' <> now.
Proof. vm_compute. repeat split; discriminate. Qed.

(** * Further properties of the code *)

(** ** Real-time clock *)

Section Clock.

Import RTC.

Lemma bcd_table :
  Power.all_below 256 (fun d =>
    (bcd_to_dec (dec_to_bcd d) =? (if d <? 160 then d else d - 160))
    && Bool.eqb (dec_to_bcd (bcd_to_dec d) =? d) (Z.land d 0x0F <=? 9))
  = true.
Proof. vm_compute. reflexivity. Qed.

(** X1. Packing a number into BCD and unpacking it gives the number back
    exactly for 0..159 (above, 160 is lost); unpacking a byte and packing it
    again gives the byte back exactly when its low nibble is a numeral. *)
Theorem X1_bcd_round_trip (d : Z) :
  0 <= d <= 255 ->
  bcd_to_dec (dec_to_bcd d) = (if d <? 160 then d else d - 160)
  /\ (dec_to_bcd (bcd_to_dec d) = d <-> Z.land d 0x0F <= 9).
Proof.
  intro H. pose proof (all_below_spec _ _ bcd_table d ltac:(lia)) as T.
  cbv beta in T. apply andb_prop in T. destruct T as [T1 T2].
  apply Z.eqb_eq in T1. apply Bool.eqb_prop in T2.
  split; [exact T1|].
  rewrite <- Z.eqb_eq, <- Z.leb_le, T2. reflexivity.
Qed.

Lemma X1_bcd_round_trip_witness :
  bcd_to_dec (dec_to_bcd 59) = 59.
Proof. apply (X1_bcd_round_trip 59). lia. Defined.

Lemma time_table :
  Power.all_below 60 (fun x =>
    (bcd_to_dec (Z.land (u8 (dec_to_bcd x)) 0x7F) =? x)
    && ((23 <? x) || (bcd_to_dec (Z.land (u8 (dec_to_bcd x)) 0x3F) =? x)))
  = true.
Proof. vm_compute. reflexivity. Qed.

(** X2. Setting the time and reading it back: set(h, m, s) sends the
    register pointer 0, the three packed fields and four zero date
    registers; when the chip returns those registers, get_hours,
    get_minutes and get_seconds give h, m and s.  A read whose transmission
    fails keeps the time read before. *)
Theorem X2_set_then_read (hours minutes seconds status : Z) (r : t) :
  0 <= hours <= 23 -> 0 <= minutes <= 59 -> 0 <= seconds <= 59 ->
  status <> 0 ->
  let registers := payload (set hours minutes seconds) in
  let r' := read 0 (nth 1 registers 0) (nth 2 registers 0)
                 (nth 3 registers 0) r in
  registers = [REGISTER_TIME; dec_to_bcd seconds; dec_to_bcd minutes;
               dec_to_bcd hours; 0; 0; 0; 0]
  /\ get_hours r' = hours
  /\ get_minutes r' = minutes
  /\ get_seconds r' = seconds
  /\ get_interrupt r' = get_interrupt r
  /\ read status (nth 1 registers 0) (nth 2 registers 0)
          (nth 3 registers 0) r' = r'.
Proof.
  intros Hh Hm Hs Hst. cbv zeta.
  pose proof (all_below_spec _ _ time_table hours ltac:(lia)) as Th.
  pose proof (all_below_spec _ _ time_table minutes ltac:(lia)) as Tm.
  pose proof (all_below_spec _ _ time_table seconds ltac:(lia)) as Ts.
  cbv beta in Th, Tm, Ts.
  apply andb_prop in Th, Tm, Ts.
  destruct Th as [_ Th], Tm as [Tm _], Ts as [Ts _].
  apply orb_prop in Th. destruct Th as [Th|Th];
    [apply Z.ltb_lt in Th; lia|].
  apply Z.eqb_eq in Th, Tm, Ts.
  split; [reflexivity|].
  unfold read, get_hours, get_minutes, get_seconds, get_interrupt.
  cbn [Z.eqb negb payload set flat_map app nth hours_raw minutes_raw
       seconds_raw interrupt].
  repeat split; try assumption.
  apply Z.eqb_neq in Hst. rewrite Hst. reflexivity.
Qed.

Lemma X2_set_then_read_witness :
  get_hours (read 0 (dec_to_bcd 56) (dec_to_bcd 34) (dec_to_bcd 12)
                  (mk 0 0 0 false)) = 12.
Proof.
  refine (proj1 (proj2
    (X2_set_then_read 12 34 56 2 (mk 0 0 0 false) _ _ _ _)));
    try lia.
Defined.

End Clock.

(** ** Temperature and humidity sensor *)

Section Sensor.

Import TempHumid.

(** The shift register of the checksum is linear over bytes. *)
Lemma crc_step_table :
  Power.all_below 256 (fun a =>
    (0 <=? crc_step a) && (crc_step a <? 256)
    && Power.all_below 256 (fun b =>
         (Z.lxor a b <? 256)
         && (crc_step (Z.lxor a b) =? Z.lxor (crc_step a) (crc_step b))))
  = true.
Proof. vm_compute. reflexivity. Qed.

Lemma crc_step_byte (a : Z) : byte a -> byte (crc_step a).
Proof.
  intro H. unfold byte in H.
  pose proof (all_below_spec _ _ crc_step_table a ltac:(lia)) as T.
  cbv beta in T. apply andb_prop in T. destruct T as [T _].
  apply andb_prop in T. destruct T as [T1 T2].
  apply Z.leb_le in T1. apply Z.ltb_lt in T2. unfold byte. lia.
Qed.

Lemma lxor_byte (a b : Z) : byte a -> byte b -> byte (Z.lxor a b).
Proof.
  intros Ha Hb. unfold byte in *.
  pose proof (all_below_spec _ _ crc_step_table a ltac:(lia)) as T.
  cbv beta in T. apply andb_prop in T. destruct T as [_ T].
  pose proof (all_below_spec _ _ T b ltac:(lia)) as T'.
  cbv beta in T'. apply andb_prop in T'. destruct T' as [T1 _].
  apply Z.ltb_lt in T1.
  assert (0 <= Z.lxor a b) by (apply Z.lxor_nonneg; lia). lia.
Qed.

Lemma crc_step_lxor (a b : Z) :
  byte a -> byte b ->
  crc_step (Z.lxor a b) = Z.lxor (crc_step a) (crc_step b).
Proof.
  intros Ha Hb. unfold byte in *.
  pose proof (all_below_spec _ _ crc_step_table a ltac:(lia)) as T.
  cbv beta in T. apply andb_prop in T. destruct T as [_ T].
  pose proof (all_below_spec _ _ T b ltac:(lia)) as T'.
  cbv beta in T'. apply andb_prop in T'. destruct T' as [_ T2].
  apply Z.eqb_eq in T2. exact T2.
Qed.

Lemma crc_iter_byte (n : nat) (a : Z) :
  byte a -> byte (Nat.iter n crc_step a).
Proof.
  intro H. induction n as [|n IH]; [exact H|].
  rewrite Nat.iter_succ. apply crc_step_byte, IH.
Qed.

Lemma crc_iter_lxor (n : nat) (a b : Z) :
  byte a -> byte b ->
  Nat.iter n crc_step (Z.lxor a b)
  = Z.lxor (Nat.iter n crc_step a) (Nat.iter n crc_step b).
Proof.
  intros Ha Hb. induction n as [|n IH]; [reflexivity|].
  rewrite !Nat.iter_succ, IH.
  apply crc_step_lxor; apply crc_iter_byte; assumption.
Qed.

Lemma u8_byte (a : Z) : byte a -> u8 a = a.
Proof. intro H. unfold u8, byte in *. apply Z.mod_small. lia. Qed.

(** The checksum of corrupted data is the checksum of the data plus the
    syndrome of the corruption. *)
Lemma crc_8_lxor (b_1 b_2 e_1 e_2 : Z) :
  byte b_1 -> byte b_2 -> byte e_1 -> byte e_2 ->
  crc_8 (Z.lxor b_1 e_1) (Z.lxor b_2 e_2)
  = Z.lxor (crc_8 b_1 b_2) (syndrome e_1 e_2).
Proof.
  intros H1 H2 H3 H4. unfold crc_8, syndrome.
  assert (HF : byte 255) by (unfold byte; lia).
  assert (B1 : byte (Z.lxor 255 b_1)) by (apply lxor_byte; assumption).
  assert (E1 : byte (Z.lxor 255 (Z.lxor b_1 e_1)))
    by (repeat apply lxor_byte; assumption).
  rewrite (u8_byte _ B1), (u8_byte _ E1).
  rewrite (u8_byte (Z.lxor (Nat.iter 8 crc_step (Z.lxor 255 b_1)) b_2))
    by (apply lxor_byte; [apply crc_iter_byte|]; assumption).
  rewrite (u8_byte (Z.lxor _ (Z.lxor b_2 e_2)))
    by (apply lxor_byte; [apply crc_iter_byte|apply lxor_byte]; assumption).
  rewrite <- (Z.lxor_assoc 255 b_1 e_1).
  rewrite (crc_iter_lxor 8 (Z.lxor 255 b_1) e_1)
    by (try apply lxor_byte; assumption).
  set (s1 := Nat.iter 8 crc_step (Z.lxor 255 b_1)).
  set (t1 := Nat.iter 8 crc_step e_1).
  assert (Hs : byte s1) by (apply crc_iter_byte, lxor_byte; assumption).
  assert (Ht : byte t1) by (apply crc_iter_byte; assumption).
  replace (Z.lxor (Z.lxor s1 t1) (Z.lxor b_2 e_2))
    with (Z.lxor (Z.lxor s1 b_2) (Z.lxor t1 e_2)).
  - apply crc_iter_lxor; apply lxor_byte; assumption.
  - rewrite !Z.lxor_assoc. f_equal.
    rewrite <- !Z.lxor_assoc. f_equal. apply Z.lxor_comm.
Qed.

(** Every corruption of at most three bits has a syndrome. *)
Lemma syndrome_table :
  Power.all_below 256 (fun e_1 =>
    Power.all_below 256 (fun e_2 =>
      (3 <? popcount8 e_1 + popcount8 e_2)
      || ((e_1 =? 0) && (e_2 =? 0))
      || negb (syndrome e_1 e_2 =? 0)))
  = true.
Proof. vm_compute. reflexivity. Qed.

Lemma corruption_detected (b_1 b_2 e_1 e_2 : Z) :
  byte b_1 -> byte b_2 -> byte e_1 -> byte e_2 ->
  (e_1 <> 0 \/ e_2 <> 0) -> popcount8 e_1 + popcount8 e_2 <= 3 ->
  crc_8 (Z.lxor b_1 e_1) (Z.lxor b_2 e_2) <> crc_8 b_1 b_2.
Proof.
  unfold byte. intros H1 H2 H3 H4 Hn Hp.
  rewrite crc_8_lxor by assumption.
  pose proof (all_below_spec _ _ syndrome_table e_1 ltac:(lia)) as T.
  cbv beta in T.
  pose proof (all_below_spec _ _ T e_2 ltac:(lia)) as T'.
  cbv beta in T'.
  apply orb_prop in T'. destruct T' as [T'|T'].
  - apply orb_prop in T'. destruct T' as [T'|T'].
    + apply Z.ltb_lt in T'. lia.
    + apply andb_prop in T'. destruct T' as [A B].
      apply Z.eqb_eq in A, B. lia.
  - apply negb_true_iff, Z.eqb_neq in T'.
    intro E. apply T'.
    apply (f_equal (Z.lxor (crc_8 b_1 b_2))) in E.
    rewrite <- Z.lxor_assoc, Z.lxor_nilpotent, Z.lxor_0_l in E.
    exact E.
Qed.

(** X3. The checksum of the sensor detects every corruption of the two
    data bytes that flips one, two or three bits: the checksum of the
    corrupted bytes differs from the checksum of the bytes sent. *)
Theorem X3_crc_detects (b_1 b_2 e_1 e_2 : Z) :
  0 <= b_1 <= 255 -> 0 <= b_2 <= 255 ->
  0 <= e_1 <= 255 -> 0 <= e_2 <= 255 ->
  (e_1 <> 0 \/ e_2 <> 0) -> popcount8 e_1 + popcount8 e_2 <= 3 ->
  crc_8 (Z.lxor b_1 e_1) (Z.lxor b_2 e_2) <> crc_8 b_1 b_2.
Proof. apply corruption_detected. Qed.

Lemma X3_crc_detects_witness :
  crc_8 (Z.lxor 0xBE 0x01) (Z.lxor 0xEF 0x80) <> crc_8 0xBE 0xEF.
Proof.
  apply (X3_crc_detects 0xBE 0xEF 0x01 0x80); try lia.
  vm_compute. discriminate.
Defined.

(** X4. read() keeps the last known values whenever it cannot take a
    measurement: called less than 20 ms after the previous attempt it does
    nothing at all; after a failed transmission, or with a frame whose
    temperature or humidity checksum does not match (in particular a frame
    that differs from a well-formed one by one to three flipped data bits),
    it only restarts its timer. *)
Theorem X4_read_keeps_values (millis_1 millis_2 status : Z) (f : frame)
    (s : t) :
  u64 (millis_1 - read_timer s) < READ_INTERVAL
  \/ status <> 0
  \/ crc_8 (u8 (temp_raw_0 f)) (u8 (temp_raw_1 f)) <> u8 (temp_crc f)
  \/ crc_8 (u8 (humid_raw_0 f)) (u8 (humid_raw_1 f)) <> u8 (humid_crc f)
  \/ (exists b_1 b_2 e_1 e_2,
        byte b_1 /\ byte b_2 /\ byte e_1 /\ byte e_2
        /\ (e_1 <> 0 \/ e_2 <> 0) /\ popcount8 e_1 + popcount8 e_2 <= 3
        /\ temp_raw_0 f = Z.lxor b_1 e_1 /\ temp_raw_1 f = Z.lxor b_2 e_2
        /\ u8 (temp_crc f) = crc_8 b_1 b_2) ->
  let s' := read millis_1 millis_2 status f s in
  filter_values s' = filter_values s
  /\ get_temperature s' = get_temperature s
  /\ get_humidity s' = get_humidity s
  /\ read_timer s'
     = (if u64 (millis_1 - read_timer s) <? READ_INTERVAL
        then read_timer s else millis_2).
Proof.
  intro H. cbv zeta.
  assert (K : filter_values (read millis_1 millis_2 status f s)
              = filter_values s
              /\ read_timer (read millis_1 millis_2 status f s)
                 = (if u64 (millis_1 - read_timer s) <? READ_INTERVAL
                    then read_timer s else millis_2)).
  { unfold read.
    destruct (Z.ltb_spec (u64 (millis_1 - read_timer s)) READ_INTERVAL)
      as [E|E]; [split; reflexivity|].
    destruct (Z.eqb_spec status 0) as [S0|S0]; cbn [negb];
      [|split; reflexivity].
    destruct (Z.eqb_spec (crc_8 (u8 (temp_raw_0 f)) (u8 (temp_raw_1 f)))
                         (u8 (temp_crc f))) as [Ct|Ct]; cbn [negb orb];
      [|split; reflexivity].
    destruct (Z.eqb_spec (crc_8 (u8 (humid_raw_0 f)) (u8 (humid_raw_1 f)))
                         (u8 (humid_crc f))) as [Ch|Ch]; cbn [negb];
      [|split; reflexivity].
    exfalso.
    destruct H as [H|[H|[H|[H|H]]]]; try lia; try contradiction.
    destruct H as (b_1 & b_2 & e_1 & e_2 & B1 & B2 & E1 & E2 & Hn & Hp
                   & R0 & R1 & Rc).
    rewrite R0, R1, Rc in Ct.
    rewrite !u8_byte in Ct by (apply lxor_byte; assumption).
    exact (corruption_detected b_1 b_2 e_1 e_2 B1 B2 E1 E2 Hn Hp Ct). }
  destruct K as [K1 K2]. unfold filter_values in K1.
  injection K1 as A B C D.
  unfold filter_values, get_temperature, get_humidity.
  rewrite A, B, C, D. repeat split. exact K2.
Qed.

(** The datasheet's example frame with one bit of the temperature
    flipped. *)
Lemma X4_read_keeps_values_witness :
  get_temperature
    (read 100 101 0 (mkFrame (Z.lxor 0xBE 0x04) 0xEF 0x92 0xBE 0xEF 0x92)
          init)
  = get_temperature init.
Proof.
  refine (proj1 (proj2
    (X4_read_keeps_values 100 101 0
       (mkFrame (Z.lxor 0xBE 0x04) 0xEF 0x92 0xBE 0xEF 0x92) init _))).
  do 4 right. exists 0xBE, 0xEF, 0x04, 0.
  unfold byte. cbn [temp_raw_0 temp_raw_1 temp_crc].
  repeat split; try lia; try reflexivity.
  vm_compute. discriminate.
Defined.

(** The parsing of the raw words, for every pair of bytes. *)
Lemma parse_table :
  Power.all_below 256 (fun a =>
    Power.all_below 256 (fun b =>
      (temp_centi a b =? 4375 * (256 * a + b) / 16384 - 4500)
      && (humid_centi a b =? 625 * (256 * a + b) / 4096)))
  = true.
Proof. vm_compute. reflexivity. Qed.

(** X5. A frame that passes both checksums is parsed into hundredths: the
    temperature word w gives 4375 * w / 16384 - 4500, between -45.00 and
    129.99 degrees, the humidity word 625 * w / 4096, between 0 and
    99.99 percent; read() stores both divided by 100 as the last values, and
    the first frame accepted after init() also becomes the filtered
    value. *)
Theorem X5_read_accepts (millis_1 millis_2 : Z) (f : frame) (s : t) :
  READ_INTERVAL <= u64 (millis_1 - read_timer s) ->
  0 <= temp_raw_0 f <= 255 -> 0 <= temp_raw_1 f <= 255 ->
  0 <= humid_raw_0 f <= 255 -> 0 <= humid_raw_1 f <= 255 ->
  crc_8 (temp_raw_0 f) (temp_raw_1 f) = u8 (temp_crc f) ->
  crc_8 (humid_raw_0 f) (humid_raw_1 f) = u8 (humid_crc f) ->
  let s' := read millis_1 millis_2 0 f s in
  let temp := 4375 * (256 * temp_raw_0 f + temp_raw_1 f) / 16384 - 4500 in
  let humid := 625 * (256 * humid_raw_0 f + humid_raw_1 f) / 4096 in
  - 4500 <= temp <= 12999
  /\ 0 <= humid <= 9999
  /\ temperature_last s' = F32.div (F32.of_Z temp) (F32.of_Z 100)
  /\ humidity_last s' = F32.div (F32.of_Z humid) (F32.of_Z 100)
  /\ read_timer s' = millis_2
  /\ (temperature_filtered s = INFINITY ->
      temperature_filtered s' = temperature_last s')
  /\ (humidity_filtered s = INFINITY ->
      humidity_filtered s' = humidity_last s').
Proof.
  intros E T0 T1 H0 H1 Ct Ch. cbv zeta.
  pose proof (all_below_spec _ _ parse_table (temp_raw_0 f) ltac:(lia)) as P.
  cbv beta in P.
  pose proof (all_below_spec _ _ P (temp_raw_1 f) ltac:(lia)) as Pt.
  cbv beta in Pt. apply andb_prop in Pt. destruct Pt as [Pt _].
  pose proof (all_below_spec _ _ parse_table (humid_raw_0 f) ltac:(lia)) as Q.
  cbv beta in Q.
  pose proof (all_below_spec _ _ Q (humid_raw_1 f) ltac:(lia)) as Ph.
  cbv beta in Ph. apply andb_prop in Ph. destruct Ph as [_ Ph].
  apply Z.eqb_eq in Pt, Ph.
  split.
  { split.
    - apply Z.le_add_le_sub_r. apply Z.div_pos; lia.
    - assert (4375 * (256 * temp_raw_0 f + temp_raw_1 f) / 16384 < 17500);
        [apply Z.div_lt_upper_bound; lia|lia]. }
  split.
  { split; [apply Z.div_pos; lia|].
    assert (625 * (256 * humid_raw_0 f + humid_raw_1 f) / 4096 < 10000);
      [apply Z.div_lt_upper_bound; lia|lia]. }
  unfold read.
  replace (u64 (millis_1 - read_timer s) <? READ_INTERVAL) with false
    by (symmetry; apply Z.ltb_ge; exact E).
  cbn [Z.eqb negb].
  rewrite (u8_byte (temp_raw_0 f)), (u8_byte (temp_raw_1 f)),
    (u8_byte (humid_raw_0 f)), (u8_byte (humid_raw_1 f))
    by (unfold byte; lia).
  rewrite Ct, Ch, !Z.eqb_refl. cbn [negb orb].
  rewrite Pt, Ph. unfold filter.
  cbn [temperature_last temperature_filtered humidity_last humidity_filtered
       read_timer].
  repeat split.
  - intros ->. reflexivity.
  - intros ->. reflexivity.
Qed.

(** The datasheet's example word 0xBEEF for both quantities, first frame
    after start-up. *)
Lemma X5_read_accepts_witness :
  temperature_last
    (read 100 101 0 (mkFrame 0xBE 0xEF 0x92 0xBE 0xEF 0x92) init)
  = F32.div (F32.of_Z (4375 * (256 * 0xBE + 0xEF) / 16384 - 4500))
            (F32.of_Z 100).
Proof.
  exact (proj1 (proj2 (proj2
    (X5_read_accepts 100 101 (mkFrame 0xBE 0xEF 0x92 0xBE 0xEF 0x92) init
       ltac:(vm_compute; discriminate)
       ltac:(cbn; lia) ltac:(cbn; lia) ltac:(cbn; lia) ltac:(cbn; lia)
       ltac:(vm_compute; reflexivity) ltac:(vm_compute; reflexivity))))).
Defined.

(** Nothing compares equal to a NaN. *)
Lemma eqb_nan (x : F32.float) : eqb x NAN = false.
Proof. destruct x as [[|]|[|]| |[|] m e]; reflexivity. Qed.

(** X6. get_temperature() and get_humidity() return the filtered member as
    it is: the comparison with NAN that should replace an invalid value by 0
    is never true.  Before the first accepted frame both return
    +infinity. *)
Theorem X6_getters_return_member (s : t) :
  get_temperature s = temperature_filtered s
  /\ get_humidity s = humidity_filtered s
  /\ get_temperature init = INFINITY
  /\ get_humidity init = INFINITY.
Proof.
  unfold get_temperature, get_humidity. rewrite !eqb_nan.
  repeat split.
Qed.

End Sensor.

(** ** Input sampler: glitches and latency *)

Section Glitch.

Import Buttons Samples.

(** One poll of input [i] after the interrupt stored the sample [v]. *)
Lemma poll_after_sample (i : LogicalInput) (v : bool) (b : t) :
  let h := (2 * state i b + Z.b2z v) mod 2 ^ 16 in
  let r := poll i (sample i v b) in
  state i (snd r) = h
  /\ last i (snd r) = fst r
  /\ fst r = (if h =? 65535 then true
             else if h =? 0 then false else last i b).
Proof.
  cbv zeta.
  destruct (poll_unfold i (sample i v b)) as (E & Hs & Hl & _).
  destruct (sample_fields i v b) as (Rv & Sv & Lv).
  rewrite Hs, Hl. rewrite E at 1 2. cbn [fst].
  rewrite Rv, Sv, Lv, debounce_vote, debounce_history.
  repeat split.
Qed.

(** While some place of the history below 16 still holds [r], a poll
    reports [r]. *)
Lemma vote_with_dissent (h k : Z) (r l : bool) :
  0 <= k < 16 -> Z.testbit h k = r -> l = r ->
  (if h =? 65535 then true else if h =? 0 then false else l) = r.
Proof.
  intros Hk Hb Hl.
  destruct (Z.eqb_spec h 65535) as [E|E].
  - subst h. rewrite <- Hb. change 65535 with (Z.ones 16).
    rewrite Z.testbit_ones_nonneg by lia.
    symmetry. apply Z.ltb_lt. lia.
  - destruct (Z.eqb_spec h 0) as [E0|E0]; [|exact Hl].
    subst h. rewrite <- Hb. symmetry. apply Z.testbit_0_l.
Qed.

Lemma history_bits (s : Z) (v : bool) :
  let h := (2 * s + Z.b2z v) mod 2 ^ 16 in
  Z.testbit h 0 = v
  /\ (forall k, 0 < k < 16 -> Z.testbit h k = Z.testbit s (k - 1)).
Proof.
  cbv zeta. split.
  - rewrite Z.mod_pow2_bits_low by lia. apply Z.testbit_0_r.
  - intros k Hk. rewrite Z.mod_pow2_bits_low by lia.
    replace k with (Z.succ (k - 1)) at 1 by lia.
    apply Z.testbit_succ_r. lia.
Qed.

(** The invariant of a run without 16 dissenting samples in a row: the
    history still holds [r] just above the dissenting samples. *)
Lemma poll_samples_steady (i : LogicalInput) (r : bool) (vs : list bool)
    (run : nat) (b : t) :
  last i b = r -> (run < 16)%nat ->
  Z.testbit (state i b) (Z.of_nat run) = r ->
  no_long_run 16 (negb r) run vs = true ->
  Forall (fun out => out = r) (fst (poll_samples i vs b))
  /\ last i (snd (poll_samples i vs b)) = r.
Proof.
  revert run b. induction vs as [|v vs IH]; intros run b Hl Hr Hb Hn.
  - split; [constructor|exact Hl].
  - cbn [poll_samples no_long_run] in *.
    pose proof (poll_after_sample i v b) as K. cbv zeta in K.
    destruct K as (Ks & Kl & Kf).
    destruct (history_bits (state i b) v) as [B0 Bk].
    destruct (poll i (sample i v b)) as [out b1]. cbn [fst snd] in *.
    destruct (Bool.eqb v (negb r)) eqn:Ev.
    + apply andb_prop in Hn. destruct Hn as [Hlim Hn].
      apply Nat.ltb_lt in Hlim.
      assert (Ho : out = r).
      { rewrite Kf. apply (vote_with_dissent _ (Z.of_nat (S run)));
          [lia| |exact Hl].
        rewrite Bk by lia. rewrite <- Hb. f_equal. lia. }
      destruct (IH (S run) b1) as [I1 I2]; try assumption.
      * congruence.
      * rewrite Ks, Bk by lia. rewrite <- Hb. f_equal. lia.
      * destruct (poll_samples i vs b1) as [outs b2]. cbn [fst snd] in *.
        split; [constructor; assumption|exact I2].
    + assert (Ev' : v = r).
      { destruct v, r; cbn in Ev; congruence. }
      assert (Ho : out = r).
      { rewrite Kf. apply (vote_with_dissent _ 0); [lia| |exact Hl].
        rewrite B0. exact Ev'. }
      destruct (IH O b1) as [I1 I2]; try assumption.
      * congruence.
      * lia.
      * rewrite Ks. change (Z.of_nat 0) with 0. rewrite B0. exact Ev'.
      * destruct (poll_samples i vs b1) as [outs b2]. cbn [fst snd] in *.
        split; [constructor; assumption|exact I2].
Qed.

Lemma settled_bit (i : LogicalInput) (r : bool) (b : t) (k : Z) :
  settled i r b -> 0 <= k < 16 -> Z.testbit (state i b) k = r.
Proof.
  intros [_ S] Hk. rewrite S. destruct r.
  - change 65535 with (Z.ones 16). rewrite Z.testbit_ones_nonneg by lia.
    apply Z.ltb_lt. lia.
  - apply Z.testbit_0_l.
Qed.

Lemma glitches_rejected (i : LogicalInput) (r : bool) (vs : list bool)
    (b : t) :
  settled i r b ->
  no_long_run 16 (negb r) 0 vs = true ->
  Forall (fun out => out = r) (fst (poll_samples i vs b))
  /\ last i (snd (poll_samples i vs b)) = r.
Proof.
  intros S N.
  apply (poll_samples_steady i r vs 0 b); try assumption.
  - apply S.
  - lia.
  - apply (settled_bit i r b 0 S). lia.
Qed.

(** X7. Glitch rejection: for an input at rest, whatever the raw samples
    do, as long as they never stay on the opposite level for 16 polls in a
    row every poll keeps reporting the level at rest. *)
Theorem X7_glitches_rejected (i : LogicalInput) (r : bool) (vs : list bool)
    (b : t) :
  settled i r b ->
  no_long_run 16 (negb r) 0 vs = true ->
  Forall (fun out => out = r) (fst (poll_samples i vs b))
  /\ last i (snd (poll_samples i vs b)) = r.
Proof. apply glitches_rejected. Qed.

(** A released button that bounces for 15 polls, settles back, and bounces
    again. *)
Lemma X7_glitches_rejected_witness :
  Forall (fun out => out = false)
    (fst (poll_samples UP
            (repeat true 15 ++ [false] ++ repeat true 15 ++ [false; true])
            initial)).
Proof.
  refine (proj1 (X7_glitches_rejected UP false
    (repeat true 15 ++ [false] ++ repeat true 15 ++ [false; true])
    initial _ _)).
  - split; reflexivity.
  - reflexivity.
Defined.

(** The history stays unanimous under samples of its own level. *)
Lemma poll_samples_unanimous (i : LogicalInput) (v : bool) (n : nat) (b : t) :
  state i b = (if v then 65535 else 0) ->
  fst (poll_samples i (repeat v n) b) = repeat v n
  /\ state i (snd (poll_samples i (repeat v n) b))
     = (if v then 65535 else 0).
Proof.
  revert b. induction n as [|n IH]; intros b S.
  - split; [reflexivity|exact S].
  - cbn [repeat poll_samples].
    pose proof (poll_after_sample i v b) as K. cbv zeta in K.
    destruct K as (Ks & _ & Kf).
    destruct (poll i (sample i v b)) as [out b1]. cbn [fst snd] in *.
    assert (H : (2 * state i b + Z.b2z v) mod 2 ^ 16
                = if v then 65535 else 0).
    { rewrite S. destruct v; reflexivity. }
    rewrite H in Ks, Kf.
    destruct (IH b1 Ks) as [I1 I2].
    destruct (poll_samples i (repeat v n) b1) as [outs b2].
    cbn [fst snd] in *. split; [|exact I2].
    f_equal; [|exact I1]. rewrite Kf. destruct v; reflexivity.
Qed.

(** X8. Latency: when an input at rest changes level and holds the new
    level, the first 15 polls still report the old level and every poll from
    the 16th on reports the new one. *)
Theorem X8_change_reported_at_16 (i : LogicalInput) (r : bool) (n : nat)
    (b : t) :
  settled i r b ->
  fst (poll_samples i (repeat (negb r) (15 + n)) b)
  = repeat r 15 ++ repeat (negb r) n.
Proof.
  intro S.
  replace (repeat (negb r) (15 + n))
    with (repeat (negb r) 15 ++ repeat (negb r) n)
    by (symmetry; apply repeat_app).
  rewrite poll_samples_app. cbn [fst].
  assert (N : no_long_run 16 (negb r) 0 (repeat (negb r) 15) = true).
  { cbn. rewrite eqb_reflx. reflexivity. }
  destruct (glitches_rejected i r (repeat (negb r) 15) b S N) as [F L].
  assert (E1 : fst (poll_samples i (repeat (negb r) 15) b) = repeat r 15).
  { pose proof (poll_samples_length i (repeat (negb r) 15) b) as Len.
    rewrite repeat_length in Len.
    assert (F' : Forall (eq r)
                        (fst (poll_samples i (repeat (negb r) 15) b))).
    { revert F. apply Forall_impl. intros a Ha. symmetry. exact Ha. }
    apply Forall_eq_repeat in F'. rewrite F', Len. reflexivity. }
  rewrite E1. f_equal.
  destruct n as [|n]; [reflexivity|].
  set (b15 := snd (poll_samples i (repeat (negb r) 15) b)).
  assert (S15 : state i b15
                = Nat.iter 15 (fun s => (2 * s + Z.b2z (negb r)) mod 2 ^ 16)
                           (state i b)).
  { apply (poll_samples_repeat i (negb r) 14 b). }
  cbn [repeat poll_samples].
  pose proof (poll_after_sample i (negb r) b15) as K. cbv zeta in K.
  destruct K as (Ks & _ & Kf).
  destruct (poll i (sample i (negb r) b15)) as [out b16]. cbn [fst snd] in *.
  assert (H16 : (2 * state i b15 + Z.b2z (negb r)) mod 2 ^ 16
                = if negb r then 65535 else 0).
  { rewrite S15. rewrite <- (sixteen_samples (negb r) (state i b)).
    rewrite (Nat.iter_succ 15). reflexivity. }
  rewrite H16 in Ks, Kf.
  destruct (poll_samples_unanimous i (negb r) n b16 Ks) as [U _].
  destruct (poll_samples i (repeat (negb r) n) b16) as [outs b2].
  cbn [fst] in *. f_equal; [|exact U].
  rewrite Kf. destruct r; reflexivity.
Qed.

(** DOWN pressed from power-on and held for 17 polls. *)
Lemma X8_change_reported_at_16_witness :
  fst (poll_samples DOWN (repeat true 17) initial)
  = repeat false 15 ++ [true; true].
Proof.
  apply (X8_change_reported_at_16 DOWN false 2 initial).
  split; reflexivity.
Defined.

End Glitch.

(** ** Display multiplexer: what is shown *)

Section Shown.

Import Digits.

(** Ticks and nothing else: every call of [write] shows the stored digit of
    its position and the stored separator. *)
Lemma ticks_show_members (ops : list op) (d : t) :
  forallb is_tick ops = true -> counter_ok d ->
  fst (run ops d)
  = map (fun a => mkCall a (nth (Z.to_nat a) (current_numbers d) 0)
                         (current_separator_state d))
        (selected ops d).
Proof.
  unfold selected.
  revert d. induction ops as [|o ops IH]; intros d T H; [reflexivity|].
  destruct o; cbn [forallb is_tick andb] in T; try discriminate.
  cbn [run]. rewrite (isr_callback_handler_step d H).
  assert (H1 : counter_ok
                 (mk (current_numbers d) ((digit_counter d + 1) mod 4)
                     (current_separator_state d))).
  { unfold counter_ok; cbn [digit_counter].
    pose proof (Z.mod_pos_bound (digit_counter d + 1) 4 ltac:(lia)). lia. }
  pose proof (IH _ T H1) as E.
  cbn [current_numbers current_separator_state] in E.
  destruct (run ops _) as [cs d2]. cbn [fst] in *.
  cbn [map call_anode]. f_equal. exact E.
Qed.

Lemma only_ticks (ops : list op) :
  forallb is_tick ops = true -> filter is_tick ops = ops.
Proof.
  induction ops as [|o ops IH]; intro T; [reflexivity|].
  cbn [forallb] in T. apply andb_prop in T. destruct T as [T1 T2].
  cbn [filter]. rewrite T1, (IH T2). reflexivity.
Qed.

(** X9. After set(d1, d2, d3, d4) and set_separator(s), every tick writes
    the digit stored for the position it selects, with the separator s; four
    consecutive ticks show all four digits, each at its own position. *)
Theorem X9_set_digits_shown (history ops : list op)
    (digit_1 digit_2 digit_3 digit_4 : Z) (s : bool) :
  forallb is_tick ops = true ->
  let digits := [u8 digit_1; u8 digit_2; u8 digit_3; u8 digit_4] in
  let d :=
    set_separator s
      (set digit_1 digit_2 digit_3 digit_4 (snd (run history initial))) in
  let calls := fst (run ops d) in
  length calls = length ops
  /\ Forall (fun c =>
              0 <= call_anode c <= 3
              /\ call_number c = nth (Z.to_nat (call_anode c)) digits 0
              /\ call_separator c = s) calls
  /\ (length ops = 4%nat ->
      forall p, 0 <= p <= 3 ->
      In (mkCall p (nth (Z.to_nat p) digits 0) s) calls).
Proof.
  intro T. cbv zeta.
  set (d0 := snd (run history initial)).
  assert (H0 : counter_ok d0).
  { apply run_counter_ok. unfold counter_ok. cbn. lia. }
  set (d := set_separator s (set digit_1 digit_2 digit_3 digit_4 d0)).
  assert (H : counter_ok d) by exact H0.
  pose proof (ticks_show_members ops d T H) as E.
  destruct (selected_ticks ops d H) as [S1 _].
  rewrite (only_ticks ops T) in S1.
  cbn [d set set_separator current_numbers current_separator_state] in E.
  fold d in E. rewrite E.
  split.
  { rewrite S1, !length_map, length_seq. reflexivity. }
  split.
  { apply Forall_forall. intros c Hc. apply in_map_iff in Hc.
    destruct Hc as (a & <- & Ha). cbn [call_anode call_number
      call_separator].
    rewrite S1 in Ha. apply in_map_iff in Ha. destruct Ha as (k & <- & _).
    pose proof (Z.mod_pos_bound (digit_counter d + Z.of_nat k) 4
                  ltac:(lia)).
    repeat split; lia. }
  intros L p Hp. apply in_map_iff. exists p. split; [reflexivity|].
  rewrite S1, L. cbn [seq map].
  unfold counter_ok in H.
  assert (C : digit_counter d = 0 \/ digit_counter d = 1
              \/ digit_counter d = 2 \/ digit_counter d = 3) by lia.
  assert (P : p = 0 \/ p = 1 \/ p = 2 \/ p = 3) by lia.
  destruct C as [C|[C|[C|C]]]; rewrite C;
    destruct P as [P|[P|[P|P]]]; subst p; cbn; tauto.
Qed.

(** 12:34 with the separator lit, shown by four ticks. *)
Lemma X9_set_digits_shown_witness :
  In (mkCall 2 3 true)
     (fst (run [Tick; Tick; Tick; Tick]
               (set_separator true (set 1 2 3 4 (snd (run [Tick] initial)))))).
Proof.
  refine (proj2 (proj2
    (X9_set_digits_shown [Tick] [Tick; Tick; Tick; Tick] 1 2 3 4 true
       eq_refl)) eq_refl 2 _).
  lia.
Defined.

(** X10. What write() shifts out is the mask, low byte first: the two
    bytes sent between the latch strobes are bytes and put together again
    they give the 16-bit mask, for every configuration and every
    argument. *)
Theorem X10_frame_carries_mask (cfg : Config) (anode number : Z)
    (separator : bool) :
  let mask := write_mask cfg anode number separator in
  exists low high,
    write cfg anode number separator
    = [LatchLow; Transfer low; Transfer high; LatchHigh]
    /\ 0 <= low <= 255 /\ 0 <= high <= 255
    /\ low + 256 * high = mask
    /\ 0 <= mask < 2 ^ 16.
Proof.
  cbv zeta.
  assert (R : 0 <= write_mask cfg anode number separator < 2 ^ 16).
  { unfold write_mask, u16.
    destruct separator; apply Z.mod_pos_bound; lia. }
  set (mask := write_mask cfg anode number separator) in *.
  exists (Z.land mask 0xFF), (Z.land (Z.shiftr mask 8) 0xFF).
  split; [reflexivity|].
  change 255 with (Z.ones 8). rewrite !Z.land_ones by lia.
  rewrite Z.shiftr_div_pow2 by lia.
  pose proof (Z.mod_pos_bound mask (2 ^ 8) ltac:(lia)).
  pose proof (Z.mod_pos_bound (mask / 2 ^ 8) (2 ^ 8) ltac:(lia)).
  assert (Hq : 0 <= mask / 2 ^ 8 < 2 ^ 8).
  { split; [apply Z.div_pos; lia|apply Z.div_lt_upper_bound; lia]. }
  rewrite (Z.mod_small (mask / 2 ^ 8)) by lia.
  pose proof (Z.div_mod mask (2 ^ 8) ltac:(lia)).
  change (Z.ones 8) with 255.
  repeat split; lia.
Qed.

Lemma blank_table :
  forallb (fun d =>
             Blank.blank_row_ok d true && Blank.blank_row_ok d false)
          [0; 1; 2; 3; 4; 5; 6; 7; 8; 9; 10]
  = true.
Proof. vm_compute. reflexivity. Qed.

(** X11. A position outside 0..3 drives no tube: with the anodes wired
    active-low as shipped, write() then sets every anode word; the cathode
    word of the digit and the separator word are set as for a real
    position. *)
Theorem X11_no_tube_for_bad_position (anode d : Z) (separator : bool) :
  4 <= anode -> 0 <= d <= 255 ->
  let mask := write_mask pins_h anode d separator in
  (forall q, 0 <= q <= 3 ->
   Z.land mask (pgm_read_word PINS_ANODES q) = pgm_read_word PINS_ANODES q)
  /\ (forall e, 0 <= e <= 9 ->
      Z.land mask (pgm_read_word PINS_NUMBERS e)
      = if e =? d then pgm_read_word PINS_NUMBERS e else 0)
  /\ Z.land mask PIN_SEPARATOR = (if separator then PIN_SEPARATOR else 0).
Proof.
  intros Ha Hd. cbv zeta.
  assert (E4 : write_mask pins_h anode d separator
               = write_mask pins_h 4 d separator).
  { unfold write_mask. cbn [ANODES_INVERTED pins_h].
    replace (anode <? DIGITS_NUM) with false
      by (symmetry; apply Z.ltb_ge; unfold DIGITS_NUM; lia).
    reflexivity. }
  set (d' := if d <? 10 then d else 10).
  assert (Hd' : 0 <= d' <= 10).
  { unfold d'. destruct (Z.ltb_spec d 10); lia. }
  assert (Em : write_mask pins_h 4 d separator
               = write_mask pins_h 4 d' separator).
  { unfold d'. destruct (Z.ltb_spec d 10); [reflexivity|].
    apply blank_request; assumption. }
  assert (Ee : forall e, 0 <= e <= 9 -> (e =? d) = (e =? d')).
  { intros e He. unfold d'. destruct (Z.ltb_spec d 10); [reflexivity|].
    transitivity false; [apply Z.eqb_neq|symmetry; apply Z.eqb_neq]; lia. }
  rewrite E4, Em.
  pose proof blank_table as T. rewrite forallb_forall in T.
  assert (Id : In d' [0; 1; 2; 3; 4; 5; 6; 7; 8; 9; 10]) by (cbn; lia).
  specialize (T d' Id). apply andb_prop in T.
  assert (R : Blank.blank_row_ok d' separator = true)
    by (destruct separator; tauto).
  unfold Blank.blank_row_ok in R. cbv zeta in R.
  apply andb_prop in R. destruct R as [R R3].
  apply andb_prop in R. destruct R as [R1 R2].
  rewrite forallb_forall in R1, R2. apply Z.eqb_eq in R3.
  split; [|split; [|exact R3]].
  - intros q Hq. apply Z.eqb_eq, R1. cbn; lia.
  - intros e He. rewrite (Ee e He). apply Z.eqb_eq, R2. cbn; lia.
Qed.

Lemma X11_no_tube_for_bad_position_witness :
  Z.land (write_mask pins_h 7 5 false) PIN_SEPARATOR = 0.
Proof.
  apply (X11_no_tube_for_bad_position 7 5 false); lia.
Defined.

End Shown.

(** ** Converter: target, measurement and compare register *)

Section Converter.

Import Power.

Lemma run_setpoint_byte (ops : list op) (p : t) :
  0 <= setpoint p <= 255 -> 0 <= setpoint (snd (run ops p)) <= 255.
Proof.
  revert p. induction ops as [|o ops IH]; intros p H; [exact H|].
  destruct o as [adc now us|v]; cbn [run].
  - pose proof (regulate_soft_start adc now us p) as R. cbv zeta in R.
    destruct R as (_ & R3 & _).
    destruct (regulate adc now us p) as [p1 duty]. cbn [fst] in R3.
    specialize (IH p1 ltac:(rewrite R3; exact H)).
    destruct (run ops p1) as [ds p2]. exact IH.
  - apply IH. cbn [set_voltage setpoint]. unfold u8.
    change (2 ^ 8) with 256.
    pose proof (Z.mod_pos_bound v 256 ltac:(lia)). lia.
Qed.

Lemma ramp_below_target (t sp : Z) :
  0 <= t <= 1000 -> 0 <= sp <= 255 -> 0 <= ramp t sp <= sp.
Proof.
  intros Ht Hs. pose proof (ramp_within_one t sp Ht Hs) as R.
  unfold soft_start_spec in R.
  replace (t <=? 1000) with true in R by (symmetry; apply Z.leb_le; lia).
  assert (t * sp / 1000 <= sp).
  { apply Z.div_le_upper_bound; nia. }
  split; [|lia].
  unfold ramp, u8. apply Z.mod_pos_bound. lia.
Qed.

(** X12. Whatever the clock reads, wrapped or not, regulate() never asks
    for more than the target: after any history since init(), the effective
    setpoint of a call lies between 0 and the voltage given to set_voltage(),
    and the call leaves that target as it was. *)
Theorem X12_never_above_target (history : list op) (adc now us : Z) :
  let p := snd (run history init) in
  let p' := fst (regulate adc now us p) in
  get_voltage p' = get_voltage p
  /\ 0 <= setpoint_temp p' <= get_voltage p
  /\ get_voltage p <= 255.
Proof.
  cbv zeta.
  assert (H : 0 <= setpoint (snd (run history init)) <= 255).
  { apply run_setpoint_byte. cbn. lia. }
  set (p := snd (run history init)) in *.
  pose proof (regulate_soft_start adc now us p) as R. cbv zeta in R.
  destruct R as (_ & R3 & R2).
  unfold get_voltage. rewrite R3. split; [reflexivity|].
  split; [|lia]. rewrite R2.
  set (e := u64 (now - (if time_started p =? 0 then now
                        else time_started p))).
  assert (He : 0 <= e) by (unfold e, u64; apply Z.mod_pos_bound; lia).
  unfold CONVERTER_SOFT_START_TIME.
  destruct (Z.gtb_spec e 1000) as [G|G].
  - lia.
  - apply ramp_below_target; lia.
Qed.

Lemma measure_table :
  all_below 1024 Feedback.measure_row_ok = true.
Proof. vm_compute. reflexivity. Qed.

Lemma measure_row (adc : Z) :
  0 <= adc <= 1023 ->
  Feedback.is_finite (measure_voltage adc) = true
  /\ (Feedback.exact_voltage adc - Feedback.tolerance
      <= F32.to_Q (measure_voltage adc))%Q
  /\ (F32.to_Q (measure_voltage adc)
      <= Feedback.exact_voltage adc + Feedback.tolerance)%Q
  /\ (F32.to_Q (measure_voltage adc) + (1 # 4)
      <= F32.to_Q (measure_voltage (adc + 1)))%Q.
Proof.
  intro H.
  pose proof (all_below_spec _ _ measure_table adc ltac:(lia)) as R.
  unfold Feedback.measure_row_ok in R. cbv zeta in R.
  repeat (apply andb_prop in R; destruct R as [R ?]).
  repeat split; try (apply Qle_bool_iff; assumption). assumption.
Qed.

(** X13. For every reading of the 10-bit converter, measure_voltage()
    gives a finite number within 0.0001 V of the exact divider formula
    adc / 1023 * 1.106 * (R_LOW + R_HIGH) / R_LOW, and a larger reading
    gives a voltage larger by at least a quarter of a volt per step. *)
Theorem X13_measure_voltage (adc steps : Z) :
  0 <= adc -> 0 <= steps -> adc + steps <= 1023 ->
  let v := F32.to_Q (measure_voltage adc) in
  Feedback.is_finite (measure_voltage adc) = true
  /\ (Feedback.exact_voltage adc - (1 # 10000) <= v)%Q
  /\ (v <= Feedback.exact_voltage adc + (1 # 10000))%Q
  /\ (v + inject_Z steps * (1 # 4)
      <= F32.to_Q (measure_voltage (adc + steps)))%Q.
Proof.
  intros Ha Hs Hb. cbv zeta.
  destruct (measure_row adc ltac:(lia)) as (F & L & U & _).
  repeat split; try assumption.
  revert Hb. pattern steps. apply natlike_ind; [| |exact Hs].
  - intros _. rewrite Z.add_0_r. unfold inject_Z.
    setoid_replace ((0 # 1) * (1 # 4))%Q with 0%Q by reflexivity.
    rewrite Qplus_0_r. apply Qle_refl.
  - intros k Hk IH Hb. specialize (IH ltac:(lia)).
    destruct (measure_row (adc + k) ltac:(lia)) as (_ & _ & _ & S).
    replace (adc + Z.succ k) with (adc + k + 1) by lia.
    eapply Qle_trans; [|exact S].
    eapply Qle_trans; [|apply Qplus_le_l; exact IH].
    unfold Z.succ. rewrite inject_Z_plus. 
    apply Qle_lteq. right. ring.
Qed.

(** 140 V and 180 V are about 160 steps apart. *)
Lemma X13_measure_voltage_witness :
  (F32.to_Q (measure_voltage 558) + inject_Z 160 * (1 # 4)
   <= F32.to_Q (measure_voltage 718))%Q.
Proof.
  refine (proj2 (proj2 (proj2 (X13_measure_voltage 558 160 _ _ _)))); lia.
Defined.

(** X14. set_duty_cycle() scales its 16-bit argument to the period of
    Timer 1 without overflow: the compare register receives
    CONVERTER_PERIOD_CYCLES * duty / 1024 rounded down, so 0 switches the
    output off, 1024 reaches the period and arguments up to 512 stay within
    half of it; this is also what regulate() leaves in the register for the
    duty cycle it reports. *)
Theorem X14_duty_register (duty : Z) (p : Power.t) :
  0 <= duty < 2 ^ 16 ->
  OCR1A (set_duty_cycle duty p) = CONVERTER_PERIOD_CYCLES * duty / 1024
  /\ (duty <= 1024 ->
      0 <= OCR1A (set_duty_cycle duty p) <= CONVERTER_PERIOD_CYCLES)
  /\ (duty <= 512 ->
      OCR1A (set_duty_cycle duty p) <= CONVERTER_PERIOD_CYCLES / 2)
  /\ (forall adc now us,
      let r := regulate adc now us p in
      OCR1A (fst r) = CONVERTER_PERIOD_CYCLES * snd r / 1024).
Proof.
  intro H.
  assert (E : forall d q, 0 <= d < 2 ^ 16 ->
              OCR1A (set_duty_cycle d q) = CONVERTER_PERIOD_CYCLES * d / 1024).
  { intros d q Hd. cbn [set_duty_cycle OCR1A].
    change CONVERTER_PERIOD_CYCLES with 200.
    unfold u32, u16. rewrite Z.shiftr_div_pow2 by lia.
    rewrite (Z.mod_small (200 * d)) by lia.
    change (2 ^ 10) with 1024.
    apply Z.mod_small. split; [apply Z.div_pos; lia|].
    apply Z.div_lt_upper_bound; lia. }
  rewrite E by exact H. change CONVERTER_PERIOD_CYCLES with 200.
  split; [reflexivity|]. split; [|split].
  - intro L. split; [apply Z.div_pos; lia|].
    apply Z.div_le_upper_bound; lia.
  - intro L. change (200 / 2) with 100. apply Z.div_le_upper_bound; lia.
  - intros adc now us. cbv zeta. unfold regulate.
    destruct (PetalPID.calculate _ _ _ _) as [output c]. cbn [fst snd].
    rewrite E; [reflexivity|]. unfold u16. apply Z.mod_pos_bound. lia.
Qed.

Lemma X14_duty_register_witness :
  OCR1A (set_duty_cycle 512 init) = CONVERTER_PERIOD_CYCLES * 512 / 1024.
Proof.
  refine (proj1 (X14_duty_register 512 init _)). lia.
Defined.

End Converter.

(** ** Tone engine: prescaler and output levels *)

Section Divider.

Import Buzzer.

Lemma shiftr_div (a n : Z) : 0 <= n -> Z.shiftr a n = a / 2 ^ n.
Proof. intro H. apply Z.shiftr_div_pow2. exact H. Qed.

(** X15. set_frequency() takes the smallest of the seven prescalers for
    which the period fits the 8-bit counter and leaves the period divided by
    it for OCR2A.  From 2^18 cycles on (below 31 Hz) no prescaler fits: the
    previous prescaler stays and the count left is still 256 or more. *)
Theorem X15_smallest_prescaler (old cycles : Z) :
  0 <= cycles ->
  let r := select_prescaler old cycles in
  (cycles < 2 ^ 18 ->
   exists d,
     In (fst r, d) Prescaler.divisors
     /\ snd r = cycles / d /\ 0 <= snd r < _RESOLUTION
     /\ forall bits' d',
          In (bits', d') Prescaler.divisors -> d' < d ->
          _RESOLUTION <= cycles / d')
  /\ (2 ^ 18 <= cycles ->
      fst r = old /\ snd r = cycles / 1024 /\ _RESOLUTION <= snd r).
Proof.
  intro H. cbv zeta. unfold select_prescaler, _RESOLUTION.
  rewrite !Z.shiftr_shiftr by lia. cbn [Z.add Pos.add Pos.succ].
  rewrite !shiftr_div by lia.
  change (2 ^ 3) with 8. change (2 ^ 5) with 32. change (2 ^ 6) with 64.
  change (2 ^ 7) with 128. change (2 ^ 8) with 256.
  change (2 ^ 10) with 1024. change (2 ^ 18) with 262144.
  pose proof (Z.div_mod cycles 8 ltac:(lia)).
  pose proof (Z.mod_pos_bound cycles 8 ltac:(lia)).
  pose proof (Z.div_mod cycles 32 ltac:(lia)).
  pose proof (Z.mod_pos_bound cycles 32 ltac:(lia)).
  pose proof (Z.div_mod cycles 64 ltac:(lia)).
  pose proof (Z.mod_pos_bound cycles 64 ltac:(lia)).
  pose proof (Z.div_mod cycles 128 ltac:(lia)).
  pose proof (Z.mod_pos_bound cycles 128 ltac:(lia)).
  pose proof (Z.div_mod cycles 256 ltac:(lia)).
  pose proof (Z.mod_pos_bound cycles 256 ltac:(lia)).
  pose proof (Z.div_mod cycles 1024 ltac:(lia)).
  pose proof (Z.mod_pos_bound cycles 1024 ltac:(lia)).
  assert (D1 : cycles / 1 = cycles) by apply Z.div_1_r.
  assert (T : forall d (P : Z -> Prop),
              P 1 -> P 8 -> P 32 -> P 64 -> P 128 -> P 256 -> P 1024 ->
              forall bits', In (bits', d) Prescaler.divisors -> P d).
  { intros d P P1 P8 P32 P64 P128 P256 P1024 bits' I.
    cbn in I.
    repeat (destruct I as [I|I];
            [injection I as _ <-; assumption|]).
    contradiction. }
  destruct (Z.ltb_spec cycles 256) as [C1|C1].
  { split; [intros _|intro; lia]. exists 1. cbn [fst snd].
    split; [cbn; tauto|]. split; [lia|]. split; [lia|].
    intros bits' d' I L. revert L.
    apply (T d' (fun d' => d' < 1 -> 256 <= cycles / d')) with (bits' := bits');
      try exact I; intros; lia. }
  destruct (Z.ltb_spec (cycles / 8) 256) as [C2|C2].
  { split; [intros _|intro; lia]. exists 8. cbn [fst snd].
    split; [cbn; tauto|]. split; [lia|]. split; [lia|].
    intros bits' d' I L. revert L.
    apply (T d' (fun d' => d' < 8 -> 256 <= cycles / d')) with (bits' := bits');
      try exact I; intros; lia. }
  destruct (Z.ltb_spec (cycles / 32) 256) as [C3|C3].
  { split; [intros _|intro; lia]. exists 32. cbn [fst snd].
    split; [cbn; tauto|]. split; [lia|]. split; [lia|].
    intros bits' d' I L. revert L.
    apply (T d' (fun d' => d' < 32 -> 256 <= cycles / d')) with (bits' := bits');
      try exact I; intros; lia. }
  destruct (Z.ltb_spec (cycles / 64) 256) as [C4|C4].
  { split; [intros _|intro; lia]. exists 64. cbn [fst snd].
    split; [cbn; tauto|]. split; [lia|]. split; [lia|].
    intros bits' d' I L. revert L.
    apply (T d' (fun d' => d' < 64 -> 256 <= cycles / d')) with (bits' := bits');
      try exact I; intros; lia. }
  destruct (Z.ltb_spec (cycles / 128) 256) as [C5|C5].
  { split; [intros _|intro; lia]. exists 128. cbn [fst snd].
    split; [cbn; tauto|]. split; [lia|]. split; [lia|].
    intros bits' d' I L. revert L.
    apply (T d' (fun d' => d' < 128 -> 256 <= cycles / d')) with (bits' := bits');
      try exact I; intros; lia. }
  destruct (Z.ltb_spec (cycles / 256) 256) as [C6|C6].
  { split; [intros _|intro; lia]. exists 256. cbn [fst snd].
    split; [cbn; tauto|]. split; [lia|]. split; [lia|].
    intros bits' d' I L. revert L.
    apply (T d' (fun d' => d' < 256 -> 256 <= cycles / d')) with (bits' := bits');
      try exact I; intros; lia. }
  destruct (Z.ltb_spec (cycles / 1024) 256) as [C7|C7].
  { split; [intros _|intro; lia]. exists 1024. cbn [fst snd].
    split; [cbn; tauto|]. split; [lia|]. split; [lia|].
    intros bits' d' I L. revert L.
    apply (T d' (fun d' => d' < 1024 -> 256 <= cycles / d')) with (bits' := bits');
      try exact I; intros; lia. }
  split; [intro; lia|intros _]. cbn [fst snd]. repeat split; lia.
Qed.

(** 1 kHz, the frequency of init(): 8000 cycles, prescaler 32, TOP 250. *)
Lemma X15_smallest_prescaler_witness :
  exists d,
    In (fst (select_prescaler 0 8000), d) Prescaler.divisors
    /\ snd (select_prescaler 0 8000) = 8000 / d
    /\ 0 <= snd (select_prescaler 0 8000) < _RESOLUTION
    /\ forall bits' d',
         In (bits', d') Prescaler.divisors -> d' < d ->
         _RESOLUTION <= 8000 / d'.
Proof.
  refine (proj1 (X15_smallest_prescaler 0 8000 _) _); vm_compute; congruence.
Defined.

End Divider.

Section Output.

Import Buzzer.

Variable note_frequency : Z -> F32.float.

Lemma set_frequency_top (f : F32.float) (b : t) :
  0 <= OCR2A (set_frequency f b) <= 255.
Proof.
  unfold set_frequency.
  destruct (select_prescaler _ _) as [bits cycles]. cbn [OCR2A].
  unfold u8. pose proof (Z.mod_pos_bound cycles (2 ^ 8) ltac:(lia)).
  change (2 ^ 8) with 256 in *. lia.
Qed.

(** The high byte of the product of two bytes. *)
Lemma high_byte (top duty : Z) :
  0 <= top <= 255 -> 0 <= duty <= 255 ->
  u8 (Z.shiftr (u16 (top * duty)) 8) = top * duty / 256
  /\ 0 <= top * duty / 256 <= top.
Proof.
  intros Ht Hd. unfold u8, u16.
  change (2 ^ 16) with 65536. change (2 ^ 8) with 256.
  rewrite (Z.mod_small (top * duty)) by nia.
  rewrite shiftr_div by lia. change (2 ^ 8) with 256.
  assert (0 <= top * duty / 256 <= top).
  { split; [apply Z.div_pos; nia|apply Z.div_le_upper_bound; nia]. }
  split; [apply Z.mod_small; lia|assumption].
Qed.

Lemma set_duty_cycle_levels (duty attack : Z) (b : t) :
  0 <= duty <= attack -> attack <= 255 -> 0 <= OCR2A b <= 255 ->
  attack_pwm_value b = attack -> 0 <= decay_timer b < 2 ^ 32 ->
  Levels.levels_ok (set_duty_cycle duty b).
Proof.
  intros Hd Ha Ht Ea Hm. unfold Levels.levels_ok.
  cbn [set_duty_cycle duty_cycle attack_pwm_value OCR2A OCR2B decay_timer].
  destruct (high_byte (OCR2A b) duty Ht ltac:(lia)) as [E _].
  rewrite Ea, E. repeat split; lia.
Qed.

Lemma play_note_levels (n v now : Z) (b : t) :
  0 <= v <= 255 -> 0 <= now < 2 ^ 32 -> 0 <= OCR2A b <= 255 ->
  Levels.levels_ok (play_note note_frequency n v now b).
Proof.
  intros Hv Hn Ht.
  pose proof (play_note_fields note_frequency n v now b) as K.
  cbv zeta in K. destruct K as (K1 & K2 & K3 & K4 & K5 & _).
  assert (Top : 0 <= OCR2A (play_note note_frequency n v now b) <= 255).
  { apply (f_equal snd) in K1.
    destruct (negb (n =? note_last b) && negb (n =? 0));
      unfold frequency_registers in K1; cbn [snd] in K1; rewrite K1;
      [apply set_frequency_top|exact Ht]. }
  unfold Levels.levels_ok. rewrite K2, K3, K5.
  assert (Hd : 0 <= (if n =? 0 then 0 else v) <= 255)
    by (destruct (n =? 0); lia).
  rewrite K4, K3.
  destruct (high_byte _ _ Top Hd) as [E _]. rewrite E.
  repeat split; lia.
Qed.

Lemma decay_levels (now : Z) (b : t) :
  0 <= now < 2 ^ 32 -> Levels.levels_ok b -> Levels.levels_ok (decay now b).
Proof.
  intros Hn (Hd & Ha & Ht & Eb & Hm). unfold decay. cbv zeta.
  set (timer := if decay_timer b >? now then now else decay_timer b).
  assert (Hl : 0 <= timer <= now).
  { unfold timer. destruct (Z.gtb_spec (decay_timer b) now); lia. }
  assert (Hl' : timer < 2 ^ 32) by lia.
  assert (U : u64 (now - timer) = now - timer).
  { unfold u64. apply Z.mod_small. lia. }
  rewrite U.
  destruct (negb (timer =? 0) && (now - timer >=? DECAY_TIME)).
  - apply set_duty_cycle_levels with (attack := attack_pwm_value b);
      cbn [OCR2A attack_pwm_value decay_timer]; try lia; reflexivity.
  - destruct (Z.ltb_spec (now - timer) DECAY_TIME) as [L|L].
    + unfold DECAY_TIME in L.
      cbn [attack_pwm_value].
      rewrite <- U at 1.
      rewrite (map_long_ramp (now - timer) (attack_pwm_value b))
        by lia.
      apply set_duty_cycle_levels with (attack := attack_pwm_value b);
        cbn [OCR2A attack_pwm_value decay_timer]; try lia;
        try reflexivity.
      assert (0 <= (now - timer) * attack_pwm_value b / 400
              <= attack_pwm_value b).
      { split; [apply Z.div_pos; nia|apply Z.div_le_upper_bound; nia]. }
      lia.
    + unfold Levels.levels_ok.
      cbn [duty_cycle attack_pwm_value OCR2A OCR2B decay_timer].
      repeat split; lia.
Qed.

Lemma play_chime_levels (now now_note r1 r2 r3 : Z) (b : t) :
  0 <= now_note < 2 ^ 32 -> Levels.levels_ok b ->
  Levels.levels_ok
    (fst (fst (play_chime note_frequency now now_note r1 r2 r3 b))).
Proof.
  intros Hn (Hd & Ha & Ht & Eb & Hm). unfold play_chime. cbv zeta.
  destruct (u64 _ >=? chime_note_duration b).
  - match goal with
    | |- context [play_note ?f ?n ?v ?m ?x] =>
        assert (L : Levels.levels_ok (play_note f n v m x));
        [|set (b1 := play_note f n v m x) in *]
    end.
    { apply play_note_levels; [|exact Hn|exact Ht].
      cbn [attack_pwm_value]. unfold u8.
      match goal with
      | |- 0 <= ?a mod 2 ^ 8 <= 255 =>
          pose proof (Z.mod_pos_bound a (2 ^ 8) ltac:(lia));
          change (2 ^ 8) with 256 in *; lia
      end. }
    destruct (u8 (note_counter b1 + 1) >? note_duration_divider b1);
      cbn [fst]; exact L.
  - cbn [fst]. unfold Levels.levels_ok.
    cbn [duty_cycle attack_pwm_value OCR2A OCR2B decay_timer].
    repeat split; lia.
Qed.

Lemma run_levels (ops : list op) (b : t) :
  Forall Levels.op_in_range ops -> Levels.levels_ok b ->
  Levels.levels_ok (snd (run note_frequency ops b)).
Proof.
  revert b. induction ops as [|o ops IH]; intros b F L; [exact L|].
  inversion F as [|? ? F1 F2]; subst.
  destruct o as [n v now|now|i]; cbn [run]; cbn in F1.
  - apply IH; [exact F2|]. destruct L as (_ & _ & Ht & _).
    apply play_note_levels; tauto.
  - apply IH; [exact F2|]. apply decay_levels; assumption.
  - pose proof (play_chime_levels (in_millis i) (in_millis_note i)
                  (in_r1 i) (in_r2 i) (in_r3 i) b F1 L) as L1.
    destruct (play_chime _ _ _ _ _ _ _) as [[b1 played] drawn].
    cbn [fst] in L1. specialize (IH b1 F2 L1).
    destruct (run note_frequency ops b1) as [flags b2]. exact IH.
Qed.

Lemma init_levels : Levels.levels_ok init.
Proof.
  assert (E : duty_cycle init = 0 /\ attack_pwm_value init = 0
              /\ OCR2A init = 250 /\ OCR2B init = 0 /\ decay_timer init = 0)
    by (vm_compute; repeat split).
  destruct E as (E1 & E2 & E3 & E4 & E5). unfold Levels.levels_ok.
  rewrite E1, E2, E3, E4, E5. repeat split; lia.
Qed.

(** X16. From init() on, whatever notes, chimes and decay steps follow
    and whatever the random numbers and clock readings are, the duty cycle
    stays between 0 and the attack velocity of the latest note, the velocity
    and OCR2A are bytes, and the compare register OCR2B holds
    OCR2A * duty / 256, never above the counter top OCR2A. *)
Theorem X16_output_levels (ops : list op) :
  Forall Levels.op_in_range ops ->
  let b := snd (run note_frequency ops init) in
  0 <= duty_cycle b <= attack_pwm_value b
  /\ attack_pwm_value b <= 255
  /\ 0 <= OCR2A b <= 255
  /\ OCR2B b = OCR2A b * duty_cycle b / 256
  /\ 0 <= OCR2B b <= OCR2A b.
Proof.
  intro F. cbv zeta.
  destruct (run_levels ops init F init_levels) as (Hd & Ha & Ht & Eb & _).
  repeat split; try lia; rewrite Eb.
  - apply Z.div_pos; nia.
  - apply Z.div_le_upper_bound; nia.
Qed.

(** X17. A note played by play_chime() is an entry of ALARM_CHIME_NOTES
    chosen by the second random number; its velocity is 30 + 2 * (r1 mod 40),
    an even number from 30 to 108, unless the entry is the rest 0, which is
    played with velocity 0; the duty cycle starts at that velocity and both
    timestamps are reset. *)
Theorem X17_chime_note (now now_note r1 r2 r3 : Z) (b : t) :
  0 <= r1 -> 0 <= r2 -> note_due now b = true ->
  let b' := fst (fst (play_chime note_frequency now now_note r1 r2 r3 b)) in
  let note := nth (Z.to_nat (r2 mod 16)) ALARM_CHIME_NOTES 0 in
  let velocity := if note =? 0 then 0 else 30 + 2 * (r1 mod 40) in
  In note ALARM_CHIME_NOTES
  /\ note_last b' = note
  /\ attack_pwm_value b' = velocity
  /\ duty_cycle b' = velocity
  /\ 0 <= velocity <= 108
  /\ decay_timer b' = now_note
  /\ chime_timer b' = now.
Proof.
  intros H1 H2 Due. cbv zeta.
  assert (Rn : Z.rem r2 ALARM_CHIME_NOTES_N = r2 mod 16).
  { apply Z.rem_mod_nonneg; unfold ALARM_CHIME_NOTES_N; lia. }
  assert (Rv : Z.rem r1 BUZZER_PWM_DEVIATION = r1 mod 40).
  { apply Z.rem_mod_nonneg; unfold BUZZER_PWM_DEVIATION; lia. }
  pose proof (Z.mod_pos_bound r2 16 ltac:(lia)) as B2.
  pose proof (Z.mod_pos_bound r1 40 ltac:(lia)) as B1.
  assert (V : u8 (BUZZER_PWM_START
                  + (s16 (Z.rem r1 BUZZER_PWM_DEVIATION * 2)
                     - Z.quot (s16 BUZZER_PWM_DEVIATION) 2))
              = 30 + 2 * (r1 mod 40)).
  { rewrite Rv. unfold BUZZER_PWM_START, BUZZER_PWM_DEVIATION, s16, u8.
    change (2 ^ 15) with 32768. change (2 ^ 16) with 65536.
    change (2 ^ 8) with 256.
    rewrite (Z.mod_small (r1 mod 40 * 2 + 32768)) by lia.
    change ((40 + 32768) mod 65536 - 32768) with 40.
    change (Z.quot 40 2) with 20.
    rewrite Z.mod_small by lia. lia. }
  unfold play_chime. cbv zeta. unfold note_due in Due. rewrite Due.
  rewrite V, Rn. unfold pgm_read_byte.
  set (note := nth (Z.to_nat (r2 mod 16)) ALARM_CHIME_NOTES 0).
  match goal with
  | |- context [play_note ?f ?n ?v ?m ?x] =>
      pose proof (play_note_fields f n v m x) as K;
      set (b1 := play_note f n v m x) in *
  end.
  cbv zeta in K. destruct K as (_ & K2 & K3 & _ & K5 & K6 & K7 & _).
  cbn [attack_pwm_value chime_timer] in K2, K3, K7.
  assert (I : In note ALARM_CHIME_NOTES).
  { unfold note. apply nth_In. cbn [ALARM_CHIME_NOTES length]. lia. }
  assert (R : 0 <= (if note =? 0 then 0 else 30 + 2 * (r1 mod 40)) <= 108)
    by (destruct (note =? 0); lia).
  destruct (u8 (note_counter b1 + 1) >? note_duration_divider b1);
    cbn [fst note_last attack_pwm_value duty_cycle decay_timer chime_timer];
    repeat split; try assumption; lia.
Qed.

End Output.

Lemma X16_output_levels_witness :
  Buzzer.OCR2B
    (snd (Buzzer.run Buzzer.concert_pitch
            [Buzzer.PlayNote 69 100 1000; Buzzer.Decay 1200] Buzzer.init))
  = Buzzer.OCR2A
      (snd (Buzzer.run Buzzer.concert_pitch
              [Buzzer.PlayNote 69 100 1000; Buzzer.Decay 1200] Buzzer.init))
    * Buzzer.duty_cycle
        (snd (Buzzer.run Buzzer.concert_pitch
                [Buzzer.PlayNote 69 100 1000; Buzzer.Decay 1200]
                Buzzer.init))
    / 256.
Proof.
  refine (proj1 (proj2 (proj2 (proj2
    (X16_output_levels Buzzer.concert_pitch
       [Buzzer.PlayNote 69 100 1000; Buzzer.Decay 1200] _))))).
  repeat constructor; cbn; lia.
Defined.

Lemma X17_chime_note_witness :
  Buzzer.attack_pwm_value
    (fst (fst (Buzzer.play_chime Buzzer.concert_pitch 5000 5000 47 12 3
                 Buzzer.init)))
  = 44.
Proof.
  refine (proj1 (proj2 (proj2
    (X17_chime_note Buzzer.concert_pitch 5000 5000 47 12 3 Buzzer.init
       _ _ _)))).
  - lia.
  - lia.
  - vm_compute. reflexivity.
Defined.

(** ** Main program *)

Section Firmware.

Import Main.

Variable note_frequency : Z -> F32.float.

(** Rules for the statements. *)
Lemma preserves_ret {A : Type} (I : t -> Prop) (a : A) :
  preserves I (ret a).
Proof. intros m H. exact H. Qed.

Lemma preserves_test {A : Type} (I : t -> Prop) (e : t -> A) :
  preserves I (test e).
Proof. intros m H. exact H. Qed.

Lemma preserves_bind {A B : Type} (I : t -> Prop) (c : M A) (k : A -> M B) :
  preserves I c -> (forall a, preserves I (k a)) -> preserves I (bind c k).
Proof.
  intros Hc Hk m H. unfold bind. specialize (Hc m H).
  destruct (c m) as [a m1]. apply Hk. exact Hc.
Qed.

Lemma preserves_ifM {A : Type} (I : t -> Prop) (c : M bool) (a b : M A) :
  preserves I c -> preserves I a -> preserves I b -> preserves I (ifM c a b).
Proof.
  intros Hc Ha Hb. unfold ifM. apply preserves_bind; [exact Hc|].
  intros [|]; assumption.
Qed.

Lemma preserves_whenM (I : t -> Prop) (c : M bool) (a : M unit) :
  preserves I c -> preserves I a -> preserves I (whenM c a).
Proof.
  intros Hc Ha. apply preserves_ifM; [exact Hc|exact Ha|apply preserves_ret].
Qed.

Lemma preserves_orM (I : t -> Prop) (a b : M bool) :
  preserves I a -> preserves I b -> preserves I (orM a b).
Proof.
  intros Ha Hb. unfold orM. apply preserves_bind; [exact Ha|].
  intros [|]; [apply preserves_ret|exact Hb].
Qed.

Lemma preserves_assign (I : t -> Prop) (w : t -> t) :
  (forall m, I m -> I (w m)) -> preserves I (assign w).
Proof. intros H m Hm. apply H. exact Hm. Qed.

Lemma preserves_buttons_get (I : t -> Prop)
    (get : Buttons.t -> bool * Buttons.t) :
  (forall m b, I m -> I (with_buttons b m)) -> preserves I (buttons_get get).
Proof.
  intros H m Hm. unfold buttons_get.
  destruct (get (buttons m)) as [r b]. apply H. exact Hm.
Qed.

(** A guarded statement may rely on its guard. *)
Lemma preserves_guarded (I : t -> Prop) (e : t -> bool) (a : M unit) :
  (forall m, I m -> e m = true -> I (snd (a m))) ->
  preserves I (whenM (test e) a).
Proof.
  intros H m Hm. unfold whenM, ifM, bind, test.
  destruct (e m) eqn:E; [apply H; assumption|exact Hm].
Qed.

(** A statement keeps a property when every part of it does: [special]
    settles the parts that assign what the property is about. *)
Ltac keep_with special :=
  repeat first
    [ special
    | apply preserves_ret
    | apply preserves_test
    | match goal with
      | |- preserves _ (if ?x then _ else _) => destruct x
      | |- preserves _ (let _ := _ in _) => cbv zeta
      end
    | apply preserves_bind; [|intros ?]
    | apply preserves_ifM
    | apply preserves_whenM
    | apply preserves_orM
    | apply preserves_buttons_get;
      let H := fresh in intros ? ? H; exact H
    | apply preserves_assign;
      let H := fresh in intros ? H; exact H ].

(** Running a statement on a state, one step at a time. *)
Lemma bind_run {A B : Type} (c : M A) (k : A -> M B) (m : t) :
  bind c k m = k (fst (c m)) (snd (c m)).
Proof. unfold bind. destruct (c m); reflexivity. Qed.

Lemma ifM_run {A : Type} (c : M bool) (a b : M A) (m : t) :
  ifM c a b m = if fst (c m) then a (snd (c m)) else b (snd (c m)).
Proof. unfold ifM. rewrite bind_run. destruct (fst (c m)); reflexivity. Qed.

Lemma whenM_run (c : M bool) (a : M unit) (m : t) :
  whenM c a m = if fst (c m) then a (snd (c m)) else (tt, snd (c m)).
Proof. unfold whenM. rewrite ifM_run. reflexivity. Qed.

Lemma orM_run (a b : M bool) (m : t) :
  orM a b m = if fst (a m) then (true, snd (a m)) else b (snd (a m)).
Proof. unfold orM. rewrite bind_run. destruct (fst (a m)); reflexivity. Qed.

Lemma buttons_get_run (get : Buttons.t -> bool * Buttons.t) (m : t) :
  buttons_get get m
  = (fst (get (buttons m)), with_buttons (snd (get (buttons m))) m).
Proof. unfold buttons_get. destruct (get (buttons m)); reflexivity. Qed.

Ltac fields :=
  cbn [fst snd assign test ret
       mode separator_timer blink_timer wave_timer btn_timer inc_dec_timer
       alarm_preview_timer set_hours set_minutes alarm_hours alarm_minutes
       alarm_disabled_hours alarm_disabled_minutes wave_positions wave_counter
       inc_dec_delay separator blink_state set_last wave_started alarm_active
       power digits rtc temp_humid buzzer buttons eeprom rtc_set_log
       with_mode with_separator_timer with_blink_timer with_wave_timer
       with_btn_timer with_inc_dec_timer with_alarm_preview_timer
       with_set_hours with_set_minutes with_alarm_hours with_alarm_minutes
       with_alarm_disabled_hours with_alarm_disabled_minutes
       with_wave_positions with_wave_counter with_inc_dec_delay
       with_blink_state with_set_last with_wave_started with_alarm_active
       with_power with_digits with_rtc with_temp_humid with_buzzer
       with_buttons with_eeprom with_rtc_set_log].

(** A term in which no statement is left to run. *)
Ltac settled x :=
  lazymatch x with
  | context [@bind] => fail
  | context [@ifM] => fail
  | context [whenM] => fail
  | context [orM] => fail
  | context [buttons_get] => fail
  | context [if _ then _ else _] => fail
  | _ => idtac
  end.

Ltac exec_with extra :=
  repeat first
    [ progress fields
    | extra
    | match goal with
      | |- context [if ?c then _ else _] =>
          settled c; let E := fresh "E" in destruct c eqn:E
      | |- context [bind ?c ?k ?m] => settled m; rewrite (bind_run c k m)
      | |- context [ifM ?c ?a ?b ?m] => settled m; rewrite (ifM_run c a b m)
      | |- context [whenM ?c ?a ?m] => settled m; rewrite (whenM_run c a m)
      | |- context [orM ?a ?b ?m] => settled m; rewrite (orM_run a b m)
      | |- context [buttons_get ?g ?m] =>
          settled m; rewrite (buttons_get_run g m)
      end ].

Ltac exec := exec_with fail.

(** *** Settings and the EEPROM *)

Lemma restore_voltage_band (cells : Z -> Z) :
  CONVERTER_SETPOINT_MIN <= restore_voltage cells <= CONVERTER_SETPOINT_MAX.
Proof.
  unfold restore_voltage. cbv zeta.
  destruct (Z.gtb_spec (eeprom_read cells 4) CONVERTER_SETPOINT_MAX);
    destruct (Z.ltb_spec (eeprom_read cells 4) CONVERTER_SETPOINT_MIN);
    cbn [orb]; try (vm_compute; split; discriminate); lia.
Qed.

Lemma restore_alarm_band (cells : Z -> Z) :
  0 <= restore_alarm_hours cells <= 23
  /\ 0 <= restore_alarm_minutes cells <= 59.
Proof.
  unfold restore_alarm_hours, restore_alarm_minutes, eeprom_read, u8.
  cbv zeta.
  pose proof (Z.mod_pos_bound (cells 5) (2 ^ 8) ltac:(lia)).
  pose proof (Z.mod_pos_bound (cells 6) (2 ^ 8) ltac:(lia)).
  destruct (Z.gtb_spec (cells 5 mod 2 ^ 8) 23);
    destruct (Z.gtb_spec (cells 6 mod 2 ^ 8) 59); lia.
Qed.

(** A cell holding a valid setting restores to it. *)
Lemma restore_written (cells : Z -> Z) (address v : Z) :
  let cells' := fun a => if a =? address then u8 v else cells a in
  (address = 4 ->
   CONVERTER_SETPOINT_MIN <= v <= CONVERTER_SETPOINT_MAX ->
   restore_voltage cells' = v)
  /\ (address = 5 -> 0 <= v <= 23 -> restore_alarm_hours cells' = v)
  /\ (address = 6 -> 0 <= v <= 59 -> restore_alarm_minutes cells' = v)
  /\ (address = 7 -> 0 <= v <= 1 -> restore_alarm_active cells' = (v =? 0))
  /\ (address <> 4 -> restore_voltage cells' = restore_voltage cells)
  /\ (address <> 5 ->
      restore_alarm_hours cells' = restore_alarm_hours cells)
  /\ (address <> 6 ->
      restore_alarm_minutes cells' = restore_alarm_minutes cells)
  /\ (address <> 7 ->
      restore_alarm_active cells' = restore_alarm_active cells).
Proof.
  cbv zeta.
  unfold restore_voltage, restore_alarm_hours, restore_alarm_minutes,
    restore_alarm_active, eeprom_read, CONVERTER_SETPOINT_MIN,
    CONVERTER_SETPOINT_MAX.
  cbv zeta.
  assert (U : 0 <= v <= 255 -> u8 (u8 v) = v).
  { intro Hv. unfold u8. rewrite Z.mod_mod by lia.
    apply Z.mod_small. lia. }
  repeat split.
  - intros -> Hv. cbn [Z.eqb Pos.eqb]. rewrite U by lia.
    destruct (Z.gtb_spec v 180); destruct (Z.ltb_spec v 140); cbn [orb];
      lia.
  - intros -> Hv. cbn [Z.eqb Pos.eqb]. rewrite U by lia.
    destruct (Z.gtb_spec v 23); lia.
  - intros -> Hv. cbn [Z.eqb Pos.eqb]. rewrite U by lia.
    destruct (Z.gtb_spec v 59); lia.
  - intros -> Hv. cbn [Z.eqb Pos.eqb]. rewrite U by lia. reflexivity.
  - intro N. eqb_false 4 address. reflexivity.
  - intro N. eqb_false 5 address. reflexivity.
  - intro N. eqb_false 6 address. reflexivity.
  - intro N. eqb_false 7 address. reflexivity.
Qed.

Lemma settings_bands (m : t) :
  settings_saved m ->
  CONVERTER_SETPOINT_MIN <= voltage m <= CONVERTER_SETPOINT_MAX
  /\ 0 <= alarm_hours m <= 23 /\ 0 <= alarm_minutes m <= 59.
Proof.
  intros (V & H & N & _). rewrite V, H, N.
  split; [apply restore_voltage_band|apply restore_alarm_band].
Qed.

Lemma voltage_set (v : Z) (p : Power.t) :
  0 <= v <= 255 -> Power.get_voltage (Power.set_voltage v p) = v.
Proof.
  intro H. cbn. unfold u8. apply Z.mod_small. lia.
Qed.

(** Editing the voltage: the new value is written to cell 4. *)
Lemma voltage_up_saved :
  preserves settings_saved
    (whenM (test (fun m => voltage m <? CONVERTER_SETPOINT_MAX))
       (assign (fun m =>
          with_power (Power.set_voltage (voltage m + 1) (power m)) m) ;;
        eeprom_write 4 voltage)).
Proof.
  apply preserves_guarded. intros m S G.
  destruct (settings_bands m S) as (B & _).
  destruct S as (_ & H & N & A). apply Z.ltb_lt in G.
  unfold CONVERTER_SETPOINT_MIN, CONVERTER_SETPOINT_MAX in *.
  unfold settings_saved.
  cbv beta iota zeta delta [bind assign eeprom_write snd fst voltage].
  cbn [power eeprom with_power with_eeprom alarm_hours alarm_minutes
       alarm_active].
  fold (voltage m). rewrite (voltage_set (voltage m + 1)) by lia.
  pose proof (restore_written (eeprom m) 4 (voltage m + 1)) as W.
  cbv zeta in W. destruct W as (W4 & _ & _ & _ & _ & W5 & W6 & W7).
  rewrite W4, W5, W6, W7
    by (unfold CONVERTER_SETPOINT_MIN, CONVERTER_SETPOINT_MAX; lia).
  repeat split; assumption.
Qed.

Lemma voltage_down_saved :
  preserves settings_saved
    (whenM (test (fun m => voltage m >? CONVERTER_SETPOINT_MIN))
       (assign (fun m =>
          with_power (Power.set_voltage (voltage m - 1) (power m)) m) ;;
        eeprom_write 4 voltage)).
Proof.
  apply preserves_guarded. intros m S G.
  destruct (settings_bands m S) as (B & _).
  destruct S as (_ & H & N & A). apply Z.gtb_lt in G.
  unfold CONVERTER_SETPOINT_MIN, CONVERTER_SETPOINT_MAX in *.
  unfold settings_saved.
  cbv beta iota zeta delta [bind assign eeprom_write snd fst voltage].
  cbn [power eeprom with_power with_eeprom alarm_hours alarm_minutes
       alarm_active].
  fold (voltage m). rewrite (voltage_set (voltage m - 1)) by lia.
  pose proof (restore_written (eeprom m) 4 (voltage m - 1)) as W.
  cbv zeta in W. destruct W as (W4 & _ & _ & _ & _ & W5 & W6 & W7).
  rewrite W4, W5, W6, W7
    by (unfold CONVERTER_SETPOINT_MIN, CONVERTER_SETPOINT_MAX; lia).
  repeat split; assumption.
Qed.

(** Editing the alarm time: both values are written to cells 5 and 6. *)
Lemma alarm_edit_saved (up : bool) :
  preserves settings_saved
    (whenM (test (fun m =>
              (mode m =? MODE_SET_HOURS)
              && (if up then alarm_hours m <? 23 else alarm_hours m >? 0)))
       (assign (fun m =>
          with_alarm_hours
            (u8 (if up then alarm_hours m + 1 else alarm_hours m - 1)) m)) ;;
     whenM (test (fun m =>
              (mode m =? MODE_SET_MINUTES)
              && (if up then alarm_minutes m <? 59
                  else alarm_minutes m >? 0)))
       (assign (fun m =>
          with_alarm_minutes
            (u8 (if up then alarm_minutes m + 1 else alarm_minutes m - 1))
            m)) ;;
     assign (with_alarm_disabled_hours 255) ;;
     assign (with_alarm_disabled_minutes 255) ;;
     eeprom_write 5 alarm_hours ;;
     eeprom_write 6 alarm_minutes).
Proof.
  intros m S.
  destruct (settings_bands m S) as (_ & Bh & Bm).
  destruct S as (V & H & N & A).
  set (h' := if (mode m =? MODE_SET_HOURS)
                && (if up then alarm_hours m <? 23 else alarm_hours m >? 0)
             then u8 (if up then alarm_hours m + 1 else alarm_hours m - 1)
             else alarm_hours m).
  set (n' := if (mode m =? MODE_SET_MINUTES)
                && (if up then alarm_minutes m <? 59
                    else alarm_minutes m >? 0)
             then u8 (if up then alarm_minutes m + 1
                      else alarm_minutes m - 1)
             else alarm_minutes m).
  assert (Hh : 0 <= h' <= 23).
  { unfold h'. destruct (mode m =? MODE_SET_HOURS); cbn [andb]; [|lia].
    destruct up.
    - destruct (Z.ltb_spec (alarm_hours m) 23); [|lia].
      unfold u8. rewrite Z.mod_small; lia.
    - destruct (Z.gtb_spec (alarm_hours m) 0); [|lia].
      unfold u8. rewrite Z.mod_small; lia. }
  assert (Hn : 0 <= n' <= 59).
  { unfold n'. destruct (mode m =? MODE_SET_MINUTES); cbn [andb]; [|lia].
    destruct up.
    - destruct (Z.ltb_spec (alarm_minutes m) 59); [|lia].
      unfold u8. rewrite Z.mod_small; lia.
    - destruct (Z.gtb_spec (alarm_minutes m) 0); [|lia].
      unfold u8. rewrite Z.mod_small; lia. }
  match goal with
  | |- settings_saved (snd (?c m)) =>
      assert (E : voltage (snd (c m)) = voltage m
                  /\ alarm_hours (snd (c m)) = h'
                  /\ alarm_minutes (snd (c m)) = n'
                  /\ alarm_active (snd (c m)) = alarm_active m
                  /\ eeprom (snd (c m))
                     = (fun a => if a =? 6 then u8 n'
                                 else if a =? 5 then u8 h' else eeprom m a))
  end.
  { unfold h', n', whenM, ifM, bind, test, assign, eeprom_write, ret.
    destruct ((mode m =? MODE_SET_HOURS)
              && (if up then alarm_hours m <? 23 else alarm_hours m >? 0));
      cbn [snd fst mode alarm_minutes with_alarm_hours];
      destruct ((mode m =? MODE_SET_MINUTES)
                && (if up then alarm_minutes m <? 59
                    else alarm_minutes m >? 0));
      cbn; repeat split. }
  destruct E as (E1 & E2 & E3 & E4 & E5).
  unfold settings_saved. rewrite E1, E2, E3, E4, E5.
  pose proof (restore_written
                (fun a => if a =? 5 then u8 h' else eeprom m a) 6 n') as W6.
  pose proof (restore_written (eeprom m) 5 h') as W5.
  cbv zeta in W5, W6.
  destruct W6 as (_ & _ & W6n & _ & W6v & W6h & _ & W6a).
  destruct W5 as (_ & W5h & _ & _ & W5v & _ & _ & W5a).
  rewrite W6v, W6h, W6n, W6a, W5v, W5h, W5a by lia.
  repeat split; assumption.
Qed.

(** The alarm state goes to cell 7 whenever it changes. *)
Lemma alarm_on_saved :
  preserves settings_saved
    (assign (with_alarm_active true) ;;
     eeprom_write 7 (fun m => Z.b2z (negb (alarm_active m)))).
Proof.
  intros m (V & H & N & A). unfold settings_saved.
  cbv beta iota zeta delta [bind assign eeprom_write snd fst voltage].
  cbn [power eeprom with_alarm_active with_eeprom alarm_hours alarm_minutes
       alarm_active negb Z.b2z].
  pose proof (restore_written (eeprom m) 7 0) as W. cbv zeta in W.
  destruct W as (_ & _ & _ & W7 & W4 & W5 & W6 & _).
  change (u8 0) with 0 in *.
  rewrite W4, W5, W6, W7 by lia. repeat split; assumption.
Qed.

Lemma alarm_off_saved (i : input) :
  preserves settings_saved
    (assign (with_alarm_active false) ;;
     assign (fun m => with_alarm_disabled_hours (rtc_hours m) m) ;;
     assign (fun m => with_alarm_disabled_minutes (rtc_minutes m) m) ;;
     eeprom_write 7 (fun m => Z.b2z (negb (alarm_active m))) ;;
     play_note note_frequency i NOTE_TIME_MODE BUTTON_NOTE_PWM 169).
Proof.
  intros m (V & H & N & A). unfold settings_saved.
  cbv beta iota zeta delta
    [bind assign eeprom_write play_note snd fst voltage].
  cbn [power eeprom with_alarm_active with_eeprom with_buzzer
       with_alarm_disabled_hours with_alarm_disabled_minutes
       alarm_hours alarm_minutes alarm_active negb Z.b2z].
  pose proof (restore_written (eeprom m) 7 1) as W. cbv zeta in W.
  destruct W as (_ & _ & _ & W7 & W4 & W5 & W6 & _).
  change (u8 1) with 1 in *.
  rewrite W4, W5, W6, W7 by lia. repeat split; assumption.
Qed.

(** The statements that assign a setting, each with its write to the
    EEPROM. *)
Lemma regulate_saved (i : input) :
  preserves settings_saved
    (assign (fun m =>
       with_power (fst (Power.regulate (adc i) (millis_regulate i)
                                       (micros i) (power m))) m)).
Proof.
  intros m S. unfold settings_saved, assign, voltage, Power.get_voltage in *.
  cbn [snd power with_power eeprom alarm_hours alarm_minutes alarm_active].
  destruct (regulate_soft_start (adc i) (millis_regulate i) (micros i)
              (power m)) as (_ & R & _).
  rewrite R. exact S.
Qed.

Ltac saved i :=
  first [ exact voltage_up_saved | exact voltage_down_saved
        | exact (alarm_edit_saved true) | exact (alarm_edit_saved false)
        | exact alarm_on_saved | exact (alarm_off_saved i)
        | exact (regulate_saved i) ].

Ltac keep_saved i := keep_with ltac:(saved i).

Lemma increment_saved (i : input) :
  preserves settings_saved (increment note_frequency i).
Proof. unfold increment. keep_saved i. Qed.

Lemma decrement_saved (i : input) :
  preserves settings_saved (decrement note_frequency i).
Proof. unfold decrement. keep_saved i. Qed.

Lemma return_to_main_saved (i : input) :
  preserves settings_saved (return_to_main note_frequency i).
Proof. unfold return_to_main. keep_saved i. Qed.

Lemma inc_dec_saved (i : input) :
  preserves settings_saved (inc_dec note_frequency i).
Proof.
  unfold inc_dec.
  keep_with ltac:(first [ exact (increment_saved i)
                        | exact (decrement_saved i) ]).
Qed.

Lemma alarm_saved (i : input) :
  preserves settings_saved (alarm note_frequency i).
Proof. unfold alarm. keep_saved i. Qed.

Lemma mode_clock_saved (i : input) (sqw_interrupt : bool) :
  preserves settings_saved (mode_clock note_frequency i sqw_interrupt).
Proof. unfold mode_clock, wave, start_wave. keep_saved i. Qed.

Lemma mode_voltage_saved (i : input) :
  preserves settings_saved (mode_voltage note_frequency i).
Proof.
  unfold mode_voltage.
  keep_with ltac:(first [ exact (inc_dec_saved i)
                        | exact (return_to_main_saved i) ]).
Qed.

Lemma mode_set_saved (i : input) (sqw_interrupt : bool) :
  preserves settings_saved (mode_set note_frequency i sqw_interrupt).
Proof.
  unfold mode_set.
  keep_with ltac:(first [ exact (inc_dec_saved i)
                        | exact (return_to_main_saved i) ]).
Qed.

Lemma mode_weather_saved (i : input) :
  preserves settings_saved (mode_weather note_frequency i).
Proof.
  unfold mode_weather.
  keep_with ltac:(exact (return_to_main_saved i)).
Qed.

Lemma loop_saved (i : input) :
  preserves settings_saved (loop note_frequency i).
Proof.
  unfold loop.
  keep_with ltac:(first [ exact (regulate_saved i)
                        | exact (alarm_saved i)
                        | exact (mode_clock_saved i _)
                        | exact (mode_voltage_saved i)
                        | exact (mode_set_saved i _)
                        | exact (mode_weather_saved i) ]).
Qed.

Lemma step_saved (o : op) (m : t) :
  settings_saved m -> settings_saved (step note_frequency o m).
Proof.
  intro S. destruct o as [i|bit p| |]; cbn [step].
  - apply loop_saved. exact S.
  - exact S.
  - exact S.
  - exact S.
Qed.

Lemma run_saved (ops : list op) (m : t) :
  settings_saved m -> settings_saved (run note_frequency ops m).
Proof.
  revert m. induction ops as [|o ops IH]; intros m S; [exact S|].
  cbn [run fold_left]. apply IH. apply step_saved. exact S.
Qed.

Lemma rotate_seed_keeps (seed : Z) (cells : Z -> Z) (a : Z) :
  4 <= a -> rotate_seed seed cells a = cells a.
Proof.
  intro H. unfold rotate_seed. cbv zeta.
  eqb_false a 3. eqb_false a 2. eqb_false a 1. eqb_false a 0. reflexivity.
Qed.

(** What [setup] restores depends on cells 4 to 7 only. *)
Lemma setup_settings (b : boot) :
  voltage (setup b) = restore_voltage (boot_cells b)
  /\ alarm_hours (setup b) = restore_alarm_hours (boot_cells b)
  /\ alarm_minutes (setup b) = restore_alarm_minutes (boot_cells b)
  /\ alarm_active (setup b) = restore_alarm_active (boot_cells b)
  /\ settings_saved (setup b).
Proof.
  set (cells := rotate_seed (boot_seed b) (boot_cells b)).
  assert (E : voltage (setup b) = restore_voltage cells
              /\ alarm_hours (setup b) = restore_alarm_hours cells
              /\ alarm_minutes (setup b) = restore_alarm_minutes cells
              /\ alarm_active (setup b) = restore_alarm_active cells
              /\ eeprom (setup b) = cells).
  { unfold setup. cbv zeta. fold cells.
    cbv beta iota zeta delta [start_wave bind assign snd fst voltage].
    cbn [power eeprom alarm_hours alarm_minutes alarm_active
         with_wave_started with_wave_counter with_wave_positions].
    rewrite voltage_set; [repeat split|].
    pose proof (restore_voltage_band cells).
    unfold CONVERTER_SETPOINT_MIN, CONVERTER_SETPOINT_MAX in *. lia. }
  destruct E as (E1 & E2 & E3 & E4 & E5).
  assert (R : restore_voltage cells = restore_voltage (boot_cells b)
              /\ restore_alarm_hours cells
                 = restore_alarm_hours (boot_cells b)
              /\ restore_alarm_minutes cells
                 = restore_alarm_minutes (boot_cells b)
              /\ restore_alarm_active cells
                 = restore_alarm_active (boot_cells b)).
  { unfold restore_voltage, restore_alarm_hours, restore_alarm_minutes,
      restore_alarm_active, eeprom_read, cells.
    rewrite !rotate_seed_keeps by lia. repeat split. }
  destruct R as (R1 & R2 & R3 & R4).
  unfold settings_saved. rewrite E1, E2, E3, E4, E5.
  repeat split; congruence.
Qed.

(** X18. The settings survive a loss of power: at any moment after
    setup(), whatever passes of loop() and interrupts have happened, the
    converter voltage, the alarm time and the alarm state are the ones a new
    setup() restores from the EEPROM as it is at that moment; the voltage
    is within CONVERTER_SETPOINT_MIN..MAX and the alarm time is a time of
    day. *)
Theorem X18_settings_survive_reboot (b : boot) (ops : list op)
    (pins : Buttons.Pins) (seed status b0 b1 b2 : Z) :
  let m := run note_frequency ops (setup b) in
  let m' := setup (mkBoot (eeprom m) pins seed status b0 b1 b2) in
  voltage m' = voltage m
  /\ alarm_hours m' = alarm_hours m
  /\ alarm_minutes m' = alarm_minutes m
  /\ alarm_active m' = alarm_active m
  /\ CONVERTER_SETPOINT_MIN <= voltage m <= CONVERTER_SETPOINT_MAX
  /\ 0 <= alarm_hours m <= 23
  /\ 0 <= alarm_minutes m <= 59.
Proof.
  cbv zeta.
  set (m := run note_frequency ops (setup b)).
  assert (S : settings_saved m).
  { apply run_saved. apply setup_settings. }
  destruct (settings_bands m S) as (Bv & Bh & Bm).
  destruct S as (V & H & N & A).
  destruct (setup_settings (mkBoot (eeprom m) pins seed status b0 b1 b2))
    as (V' & H' & N' & A' & _).
  cbn [boot_cells] in V', H', N', A'.
  repeat split; try congruence; lia.
Qed.

(** *** Alarm *)

Lemma rtc_time_table :
  Power.all_below 128 (fun raw =>
    (0 <=? RTC.bcd_to_dec raw) && (RTC.bcd_to_dec raw <=? 85)
    && ((63 <? raw) || (RTC.bcd_to_dec raw <=? 45)))
  = true.
Proof. vm_compute. reflexivity. Qed.

(** Whatever the clock chip sent, the hours and minutes reported are below
    the blank code 255 and their decimal digits are numerals. *)
Lemma rtc_time_bound (m : t) :
  0 <= rtc_hours m <= 45 /\ 0 <= rtc_minutes m <= 85
  /\ 0 <= rtc_seconds m <= 85.
Proof.
  unfold rtc_hours, rtc_minutes, rtc_seconds, RTC.get_hours,
    RTC.get_minutes, RTC.get_seconds.
  pose proof (all_below_spec _ _ rtc_time_table) as T.
  assert (B : forall x k, 0 <= k -> 0 <= Z.land x (Z.ones k) < 2 ^ k).
  { intros x k Hk. rewrite Z.land_ones by exact Hk.
    apply Z.mod_pos_bound. apply Z.pow_pos_nonneg; lia. }
  pose proof (B (RTC.hours_raw (rtc m)) 6 ltac:(lia)) as Bh.
  pose proof (B (RTC.minutes_raw (rtc m)) 7 ltac:(lia)) as Bm.
  pose proof (B (RTC.seconds_raw (rtc m)) 7 ltac:(lia)) as Bs.
  change (Z.ones 6) with 63 in Bh. change (Z.ones 7) with 127 in Bm, Bs.
  change (2 ^ 6) with 64 in Bh. change (2 ^ 7) with 128 in Bm, Bs.
  change (Z.of_nat 128) with 128 in T.
  pose proof (T (Z.land (RTC.hours_raw (rtc m)) 63) ltac:(lia)) as Th.
  pose proof (T (Z.land (RTC.minutes_raw (rtc m)) 127) ltac:(lia)) as Tm.
  pose proof (T (Z.land (RTC.seconds_raw (rtc m)) 127) ltac:(lia)) as Ts.
  cbv beta in Th, Tm, Ts.
  apply andb_prop in Th, Tm, Ts.
  destruct Th as [Th Th'], Tm as [Tm _], Ts as [Ts _].
  apply andb_prop in Th, Tm, Ts.
  apply orb_prop in Th'.
  destruct Th' as [Th'|Th']; [apply Z.ltb_lt in Th'; lia|].
  repeat match goal with
         | H : _ /\ _ |- _ => destruct H
         | H : (_ <=? _) = true |- _ => apply Z.leb_le in H
         end.
  lia.
Qed.

(** X23. After alarm() the alarm rings exactly when the switch is reported
    on and either it rang before or the clock shows the alarm time and the
    alarm was not switched off during this very minute.  Switching it off
    while it rings records the current minute; the record is kept while the
    clock shows that minute and is cleared (255, 255) otherwise.  The alarm
    time itself is never changed. *)
Theorem X23_alarm_switch (i : input) (m : t) :
  let m' := snd (alarm note_frequency i m) in
  let switch := fst (Buttons.get_alarm (buttons m)) in
  let at_alarm_time :=
    (rtc_hours m =? alarm_hours m) && (rtc_minutes m =? alarm_minutes m) in
  let switched_off :=
    (rtc_hours m =? alarm_disabled_hours m)
    && (rtc_minutes m =? alarm_disabled_minutes m) in
  alarm_active m'
  = switch && (alarm_active m || (at_alarm_time && negb switched_off))
  /\ (alarm_disabled_hours m', alarm_disabled_minutes m')
     = (if (alarm_active m && negb switch) || switched_off
        then (rtc_hours m, rtc_minutes m) else (255, 255))
  /\ alarm_hours m' = alarm_hours m
  /\ alarm_minutes m' = alarm_minutes m.
Proof.
  cbv zeta.
  destruct (rtc_time_bound m) as (Bh & Bm & _).
  assert (Nh : (rtc_hours m =? 255) = false) by (apply Z.eqb_neq; lia).
  assert (Nm : (rtc_minutes m =? 255) = false) by (apply Z.eqb_neq; lia).
  unfold alarm, get_alarm, eeprom_write, play_note, play_chime.
  unfold rtc_hours, rtc_minutes in *.
  destruct (fst (Buttons.get_alarm (buttons m))) eqn:Sw;
    destruct (alarm_active m) eqn:Act;
    cbn [negb andb orb]; exec;
    rewrite ?Sw, ?Act, ?Nh, ?Nm in *;
    destruct (RTC.get_hours (rtc m) =? alarm_disabled_hours m) eqn:Dh;
    destruct (RTC.get_minutes (rtc m) =? alarm_disabled_minutes m) eqn:Dm;
    destruct (RTC.get_hours (rtc m) =? alarm_hours m) eqn:Ah;
    destruct (RTC.get_minutes (rtc m) =? alarm_minutes m) eqn:Am;
    cbn [negb andb orb] in *; try discriminate;
    try apply Z.eqb_eq in Dh; try apply Z.eqb_eq in Dm;
    repeat split; congruence.
Qed.

(** *** Editing *)



(** increment() and decrement() leave the display, the mode, the time
    read and the repeat timers alone. *)
Lemma edit_frame (i : input) (up : bool) (m : t) :
  let m' :=
    snd ((if up then increment note_frequency i
          else decrement note_frequency i) m) in
  inc_dec_delay m' = inc_dec_delay m /\ btn_timer m' = btn_timer m
  /\ inc_dec_timer m' = inc_dec_timer m /\ digits m' = digits m
  /\ mode m' = mode m /\ rtc m' = rtc m.
Proof.
  cbv zeta.
  set (I := fun s : t =>
              inc_dec_delay s = inc_dec_delay m /\ btn_timer s = btn_timer m
              /\ inc_dec_timer s = inc_dec_timer m /\ digits s = digits m
              /\ mode s = mode m /\ rtc s = rtc m).
  assert (P : preserves I (if up then increment note_frequency i
                           else decrement note_frequency i)).
  { destruct up; unfold increment, decrement; keep_with fail. }
  apply (P m). unfold I. repeat split.
Qed.

Lemma inc_dec_effect (i : input) (m : t) :
  let r := inc_dec note_frequency i m in
  let held := fst (orM get_down get_up m) in
  let due := u64 (millis i 374 - btn_timer m) >=? inc_dec_delay m in
  let e := u64 (millis i 376 - inc_dec_timer m) in
  fst r = held
  /\ inc_dec_delay (snd r)
     = (if held
        then if due
             then if e <=? 2000 then 250 - 9 * e / 100 else 70
             else inc_dec_delay m
        else 250)
  /\ btn_timer (snd r) = (if held && due then millis i 376 else btn_timer m)
  /\ inc_dec_timer (snd r)
     = (if held then inc_dec_timer m else millis i 393)
  /\ (if held && due then 70 <= inc_dec_delay (snd r) <= 250 else True)
  /\ digits (snd r) = digits m /\ mode (snd r) = mode m
  /\ rtc (snd r) = rtc m.
Proof.
  cbv zeta.
  assert (Mp : forall e, 0 <= e <= 2000 ->
               u16 (map_long (s32 e) 0 BTN_INC_DEC_DELAY_TRANS_TIME
                             BTN_INC_DEC_DELAY_LOW BTN_INC_DEC_DELAY_HIGH)
               = 250 - 9 * e / 100
               /\ 70 <= 250 - 9 * e / 100 <= 250).
  { intros e He.
    assert (D : 0 <= 9 * e / 100 <= 180).
    { split; [apply Z.div_pos; lia|apply Z.div_le_upper_bound; lia]. }
    split; [|lia].
    unfold map_long, BTN_INC_DEC_DELAY_TRANS_TIME, BTN_INC_DEC_DELAY_LOW,
      BTN_INC_DEC_DELAY_HIGH, s32, u16.
    change (2 ^ 31) with 2147483648. change (2 ^ 32) with 4294967296.
    change (2 ^ 16) with 65536.
    rewrite (Z.mod_small (e + 2147483648)) by lia.
    replace (e + 2147483648 - 2147483648 - 0) with e by lia.
    change ((70 - 250 + 2147483648) mod 4294967296 - 2147483648)
      with (- 180).
    change ((2000 - 0 + 2147483648) mod 4294967296 - 2147483648) with 2000.
    rewrite (Z.mod_small (e + 2147483648)) by lia.
    replace (e + 2147483648 - 2147483648) with e by lia.
    rewrite (Z.mod_small (e * -180 + 2147483648)) by lia.
    replace (e * -180 + 2147483648 - 2147483648) with (- (e * 180)) by lia.
    rewrite Z.quot_opp_l by lia.
    rewrite Z.quot_div_nonneg by lia.
    assert (Q : e * 180 / 2000 = 9 * e / 100).
    { replace (e * 180) with (9 * e * 20) by lia.
      change 2000 with (100 * 20).
      apply Z.div_mul_cancel_r; lia. }
    rewrite Q.
    rewrite (Z.mod_small (- (9 * e / 100) + 250 + 2147483648)) by lia.
    replace (- (9 * e / 100) + 250 + 2147483648 - 2147483648)
      with (250 - 9 * e / 100) by lia.
    apply Z.mod_small. lia. }
  assert (Ue : u64 (millis i 376 - inc_dec_timer m) <= 2000 ->
               0 <= u64 (millis i 376 - inc_dec_timer m) <= 2000).
  { intro H. split; [|exact H]. unfold u64. apply Z.mod_pos_bound. lia. }
  unfold inc_dec, get_down, get_up. exec;
    try match goal with
        | |- context [snd (decrement ?f ?j ?s)] =>
            destruct (edit_frame j false s) as (K1 & K2 & K3 & K4 & K5 & K6);
            cbv iota in K1, K2, K3, K4, K5, K6;
            rewrite K1, K2, K3, K4, K5, K6
        | |- context [snd (increment ?f ?j ?s)] =>
            destruct (edit_frame j true s) as (K1 & K2 & K3 & K4 & K5 & K6);
            cbv iota in K1, K2, K3, K4, K5, K6;
            rewrite K1, K2, K3, K4, K5, K6
        end;
    fields;
    unfold BTN_INC_DEC_DELAY_TRANS_TIME, BTN_INC_DEC_DELAY_HIGH,
      BTN_INC_DEC_DELAY_LOW in *;
    repeat match goal with
           | H : (_ <=? _) = true |- _ => apply Z.leb_le in H
           | H : (_ <=? _) = false |- _ => apply Z.leb_gt in H
           end;
    try match goal with
        | H : u64 (millis i 376 - inc_dec_timer m) <= 2000 |- _ =>
            destruct (Mp _ (Ue H)) as [Mv Mb]; rewrite Mv
        end;
    try discriminate; repeat split; try reflexivity; lia.
Qed.

(** X21. Auto-repeat: inc_dec() reports whether DOWN or UP is held.
    While neither is, the repeat delay is BTN_INC_DEC_DELAY_LOW (250 ms)
    and the hold timer follows the clock.  While one is held, nothing
    changes until the delay has elapsed since the previous step; then
    btn_timer takes the clock reading t and the delay becomes
    250 - 9 * e / 100 for a hold time e = t - inc_dec_timer of at most
    2000 ms, and BTN_INC_DEC_DELAY_HIGH (70 ms) beyond: always between 70
    and 250. *)
Theorem X21_repeat_delay (i : input) (m : t) :
  let r := inc_dec note_frequency i m in
  let held := fst (orM get_down get_up m) in
  let due := u64 (millis i 374 - btn_timer m) >=? inc_dec_delay m in
  let e := u64 (millis i 376 - inc_dec_timer m) in
  fst r = held
  /\ inc_dec_delay (snd r)
     = (if held
        then if due
             then if e <=? 2000 then 250 - 9 * e / 100 else 70
             else inc_dec_delay m
        else 250)
  /\ btn_timer (snd r) = (if held && due then millis i 376 else btn_timer m)
  /\ inc_dec_timer (snd r)
     = (if held then inc_dec_timer m else millis i 393)
  /\ (if held && due then 70 <= inc_dec_delay (snd r) <= 250 else True).
Proof.
  pose proof (inc_dec_effect i m) as K. cbv zeta in *.
  destruct K as (K1 & K2 & K3 & K4 & K5 & _).
  repeat split; assumption.
Qed.

(** Whether DOWN or UP is held depends on the input sampler alone. *)
Lemma held_buttons (s m : t) :
  buttons s = buttons m ->
  fst (orM get_down get_up s) = fst (orM get_down get_up m).
Proof.
  intro H. unfold get_down, get_up.
  rewrite !orM_run, !buttons_get_run. fields. rewrite H.
  destruct (fst (Buttons.get_down (buttons m))); reflexivity.
Qed.

(** *** Voltage mode *)

(** X19. At any moment after setup(), a pass of mode_voltage() with DOWN
    or UP held leaves on the tubes a blank, 1, and the tens and ones of the
    target voltage it found, which together read as that voltage, and stays
    in the mode it was in; with both released it goes back to MODE_TIME
    and shows the time reported by the clock chip.  The separator is off
    either way. *)
Theorem X19_voltage_shown (b : boot) (ops : list op) (i : input) :
  let m := run note_frequency ops (setup b) in
  let m' := snd (mode_voltage note_frequency i m) in
  let v := voltage m in
  let held := fst (orM get_down get_up m) in
  shown m'
  = (if held then [255; 1; (v - 100) / 10; v mod 10]
     else [rtc_hours m / 10; rtc_hours m mod 10;
           rtc_minutes m / 10; rtc_minutes m mod 10])
  /\ 100 + 10 * ((v - 100) / 10) + v mod 10 = v
  /\ Digits.current_separator_state (digits m') = false
  /\ mode m' = (if held then mode m else MODE_TIME).
Proof.
  cbv zeta.
  set (m := run note_frequency ops (setup b)).
  assert (S : settings_saved m).
  { apply run_saved. apply setup_settings. }
  destruct (settings_bands m S) as (Bv & _).
  unfold CONVERTER_SETPOINT_MIN, CONVERTER_SETPOINT_MAX in Bv.
  destruct (rtc_time_bound m) as (Bh & Bm & _).
  assert (U : forall x, 0 <= x <= 255 -> u8 x = x).
  { intros x Hx. unfold u8. apply Z.mod_small. lia. }
  assert (D : Z.quot (voltage m) 100 = 1
              /\ Z.quot (u16 (voltage m - u16 (1 * 100))) 10
                 = (voltage m - 100) / 10
              /\ Z.rem (voltage m) 10 = voltage m mod 10
              /\ 0 <= (voltage m - 100) / 10 <= 9
              /\ 0 <= voltage m mod 10 <= 9).
  { rewrite Z.quot_div_nonneg, Z.rem_mod_nonneg by lia.
    assert (Q : voltage m / 100 = 1).
    { symmetry. apply Z.div_unique with (r := voltage m - 100). lia. lia. }
    unfold u16. change (2 ^ 16) with 65536.
    rewrite (Z.mod_small (1 * 100)) by lia.
    rewrite (Z.mod_small (voltage m - 1 * 100)) by lia.
    rewrite Z.quot_div_nonneg by lia.
    pose proof (Z.mod_pos_bound (voltage m) 10 ltac:(lia)).
    assert (0 <= (voltage m - 1 * 100) / 10 <= 9).
    { split; [apply Z.div_pos; lia|].
      apply Z.div_le_upper_bound; lia. }
    replace (voltage m - 1 * 100) with (voltage m - 100) in * by lia.
    repeat split; lia. }
  destruct D as (D1 & D2 & D3 & D4 & D5).
  assert (T : Z.quot (rtc_hours m) 10 = rtc_hours m / 10
              /\ Z.rem (rtc_hours m) 10 = rtc_hours m mod 10
              /\ Z.quot (rtc_minutes m) 10 = rtc_minutes m / 10
              /\ Z.rem (rtc_minutes m) 10 = rtc_minutes m mod 10
              /\ 0 <= rtc_hours m / 10 <= 9
              /\ 0 <= rtc_hours m mod 10 <= 9
              /\ 0 <= rtc_minutes m / 10 <= 9
              /\ 0 <= rtc_minutes m mod 10 <= 9).
  { rewrite !Z.quot_div_nonneg, !Z.rem_mod_nonneg by lia.
    pose proof (Z.mod_pos_bound (rtc_hours m) 10 ltac:(lia)).
    pose proof (Z.mod_pos_bound (rtc_minutes m) 10 ltac:(lia)).
    assert (0 <= rtc_hours m / 10 <= 9).
    { split; [apply Z.div_pos; lia|apply Z.div_le_upper_bound; lia]. }
    assert (0 <= rtc_minutes m / 10 <= 9).
    { split; [apply Z.div_pos; lia|apply Z.div_le_upper_bound; lia]. }
    repeat split; lia. }
  destruct T as (T1 & T2 & T3 & T4 & T5 & T6 & T7 & T8).
  assert (V : 100 + 10 * ((voltage m - 100) / 10) + voltage m mod 10
              = voltage m).
  { pose proof (Z.div_mod (voltage m - 100) 10 ltac:(lia)).
    assert ((voltage m - 100) mod 10 = voltage m mod 10); [|lia].
    replace (voltage m) with (voltage m - 100 + 10 * 10) at 2 by lia.
    rewrite Z.mod_add by lia. reflexivity. }
  unfold mode_voltage, digits_set, digits_set_separator, shown.
  rewrite !bind_run. fields. rewrite whenM_run, bind_run. fields.
  match goal with
  | |- context [inc_dec ?f ?j ?s0] => set (s := s0) in *
  end.
  assert (Fs : buttons s = buttons m
               /\ digits s
                  = Digits.mk [255; 1; (voltage m - 100) / 10;
                               voltage m mod 10]
                              (Digits.digit_counter (digits m)) false
               /\ mode s = mode m /\ rtc s = rtc m).
  { unfold s. fields. unfold Digits.set_separator, Digits.set.
    cbn [Digits.current_numbers Digits.digit_counter].
    fold (voltage m). rewrite D1, D2, D3. rewrite !U by lia.
    repeat split. }
  clearbody s. destruct Fs as (F1 & F2 & F3 & F4).
  pose proof (inc_dec_effect i s) as K. cbv zeta in K.
  destruct K as (K1 & _ & _ & _ & _ & K2 & K3 & K4).
  rewrite K1, (held_buttons s m F1).
  set (m2 := snd (inc_dec note_frequency i s)) in *.
  destruct (fst (orM get_down get_up m)); cbn [negb]; fields.
  - rewrite K2, K3, F2, F3.
    cbn [Digits.current_numbers Digits.current_separator_state].
    repeat split. exact V.
  - unfold return_to_main, show_time, digits_set, digits_set_separator,
      rtc_clear_interrupt, play_note.
    rewrite !bind_run. fields.
    unfold Digits.set_separator.
    cbn [Digits.current_numbers Digits.current_separator_state Digits.set].
    unfold rtc_hours, rtc_minutes in *. fields. rewrite K4, F4.
    rewrite T1, T2, T3, T4. rewrite !U by lia.
    repeat split. exact V.
Qed.

(** *** Wave *)

Lemma wave_tables :
  forallb (fun d =>
    let p := Buzzer.pgm_read_byte NUMBER_TO_POSITION d in
    let n := Buzzer.pgm_read_byte POSITION_TO_NUMBER d in
    (0 <=? p) && (p <=? 9) && (0 <=? n) && (n <=? 9)
    && (Buzzer.pgm_read_byte POSITION_TO_NUMBER p =? d)
    && (Buzzer.pgm_read_byte NUMBER_TO_POSITION n =? d)
    && forallb (fun n =>
         (count_occ Z.eq_dec
            (map (fun k => above (Z.of_nat k) d) (seq 1 20)) n
          =? 2)%nat)
         [0; 1; 2; 3; 4; 5; 6; 7; 8; 9])
    [0; 1; 2; 3; 4; 5; 6; 7; 8; 9]
  = true.
Proof. vm_compute. reflexivity. Qed.

Lemma wave_table (d : Z) :
  0 <= d <= 9 ->
  0 <= Buzzer.pgm_read_byte NUMBER_TO_POSITION d <= 9
  /\ 0 <= Buzzer.pgm_read_byte POSITION_TO_NUMBER d <= 9
  /\ Buzzer.pgm_read_byte POSITION_TO_NUMBER
       (Buzzer.pgm_read_byte NUMBER_TO_POSITION d) = d
  /\ Buzzer.pgm_read_byte NUMBER_TO_POSITION
       (Buzzer.pgm_read_byte POSITION_TO_NUMBER d) = d
  /\ forall n, 0 <= n <= 9 ->
     count_occ Z.eq_dec (map (fun k => above (Z.of_nat k) d) (seq 1 20)) n
     = 2%nat.
Proof.
  intro H. pose proof wave_tables as T. rewrite forallb_forall in T.
  specialize (T d ltac:(cbn; lia)). cbv zeta in T.
  repeat (apply andb_prop in T; destruct T as [T ?]).
  repeat match goal with
         | K : (_ <=? _) = true |- _ => apply Z.leb_le in K
         | K : (_ =? _) = true |- _ => apply Z.eqb_eq in K
         end.
  repeat split; try assumption.
  intros n Hn.
  match goal with
  | K : forallb _ _ = true |- _ =>
      rewrite forallb_forall in K; specialize (K n ltac:(cbn; lia));
      apply Nat.eqb_eq in K; exact K
  end.
Qed.

(** The height of a tube [k] steps after the start of the wave. *)
Lemma wave_height (d k : Z) :
  0 <= d <= 9 -> 0 <= k ->
  let p := (Buzzer.pgm_read_byte NUMBER_TO_POSITION d + k) mod 10 in
  (if p =? 9 then 0 else u8 (p + 1))
  = (Buzzer.pgm_read_byte NUMBER_TO_POSITION d + (k + 1)) mod 10
  /\ u8 (Buzzer.pgm_read_byte POSITION_TO_NUMBER
           ((Buzzer.pgm_read_byte NUMBER_TO_POSITION d + (k + 1)) mod 10))
     = above (k + 1) d.
Proof.
  intros Hd Hk. cbv zeta.
  set (x := Buzzer.pgm_read_byte NUMBER_TO_POSITION d).
  pose proof (Z.mod_pos_bound (x + k) 10 ltac:(lia)) as B.
  pose proof (Z.mod_pos_bound (x + (k + 1)) 10 ltac:(lia)) as B'.
  split.
  - replace (x + (k + 1)) with (x + k + 1) by lia.
    rewrite <- (Zplus_mod_idemp_l (x + k) 1 10).
    destruct (Z.eqb_spec ((x + k) mod 10) 9) as [E|E].
    + rewrite E. reflexivity.
    + unfold u8. change (2 ^ 8) with 256.
      rewrite (Z.mod_small ((x + k) mod 10 + 1) 256) by lia.
      symmetry. apply Z.mod_small. lia.
  - unfold above. fold x.
    destruct (wave_table ((x + (k + 1)) mod 10) ltac:(lia))
      as (_ & P & _).
    unfold u8. apply Z.mod_small. change (2 ^ 8) with 256. lia.
Qed.

(** One step of the wave. *)
Lemma wave_step (i : input) (m : t) (k d1 d2 d3 d4 : Z) :
  wave_started m = true ->
  (u64 (millis i 186 - wave_timer m) >=? 100) = true ->
  wave_counter m = k -> 0 <= k <= 20 ->
  0 <= d1 <= 9 -> 0 <= d2 <= 9 -> 0 <= d3 <= 9 -> 0 <= d4 <= 9 ->
  wave_positions m
  = map (fun d => (Buzzer.pgm_read_byte NUMBER_TO_POSITION d + k) mod 10)
        [d1; d2; d3; d4] ->
  let m' := snd (wave i m) in
  wave_positions m'
  = map (fun d =>
           (Buzzer.pgm_read_byte NUMBER_TO_POSITION d + (k + 1)) mod 10)
        [d1; d2; d3; d4]
  /\ wave_counter m' = k + 1
  /\ wave_started m' = negb (k =? 20)
  /\ shown m'
     = (if k =? 20
        then [u8 (Z.quot (rtc_hours m) 10); u8 (Z.rem (rtc_hours m) 10);
              u8 (Z.quot (rtc_minutes m) 10);
              u8 (Z.rem (rtc_minutes m) 10)]
        else map (above (k + 1)) [d1; d2; d3; d4])
  /\ rtc m' = rtc m
  /\ wave_timer m' = millis i 187
  /\ mode m' = mode m /\ buttons m' = buttons m
  /\ alarm_active m' = alarm_active m
  /\ alarm_preview_timer m' = alarm_preview_timer m.
Proof.
  intros St Due Ck Hk H1 H2 H3 H4 Ps. cbv zeta.
  destruct (wave_height d1 k H1 ltac:(lia)) as [A1 B1].
  destruct (wave_height d2 k H2 ltac:(lia)) as [A2 B2].
  destruct (wave_height d3 k H3 ltac:(lia)) as [A3 B3].
  destruct (wave_height d4 k H4 ltac:(lia)) as [A4 B4].
  cbv zeta in A1, A2, A3, A4.
  assert (Uk : u8 (k + 1) = k + 1).
  { unfold u8. apply Z.mod_small. change (2 ^ 8) with 256. lia. }
  unfold wave, show_time, digits_set, shown.
  rewrite whenM_run. fields. rewrite St.
  rewrite whenM_run. fields. rewrite Due.
  rewrite !bind_run. fields. rewrite whenM_run. fields.
  rewrite Ps, Ck, Uk. cbn [map nth]. rewrite A1, A2, A3, A4.
  replace (k + 1 =? 21) with (k =? 20)
    by (destruct (Z.eqb_spec k 20), (Z.eqb_spec (k + 1) 21);
        reflexivity || lia).
  destruct (k =? 20); [rewrite bind_run|]; fields;
    cbn [Digits.set Digits.current_numbers negb];
    rewrite ?B1, ?B2, ?B3, ?B4; repeat split; assumption || reflexivity.
Qed.

(** *** Separator *)

(** The parts of mode_clock() around the handling of a new second leave
    the separator and its timer alone. *)
Lemma separator_frame (i : input) (x : bool) (t : Z) :
  let I := fun s : Main.t =>
             Digits.current_separator_state (digits s) = x
             /\ separator_timer s = t in
  preserves I (wave i)
  /\ preserves I
       (ifM (test alarm_active)
          (whenM (test (fun m =>
                    u64 (millis i 206 - blink_timer m) >=? ALARM_BLINK_RATE))
             (assign (with_blink_timer (millis i 207)) ;;
              assign (fun m => with_blink_state (negb (blink_state m)) m)) ;;
           ifM (test blink_state)
             show_time
             (digits_set (fun _ => 255) (fun _ => 255) (fun _ => 255)
                         (fun _ => 255)))
          (whenM (test (fun m =>
                    negb (alarm_preview_timer m =? 0)
                    && (u64 (millis i 217 - alarm_preview_timer m)
                        <=? ALARM_PREVIEW_TIME)))
             (digits_set (fun m => Z.quot (alarm_hours m) 10)
                         (fun m => Z.rem (alarm_hours m) 10)
                         (fun m => Z.quot (alarm_minutes m) 10)
                         (fun m => Z.rem (alarm_minutes m) 10))))
  /\ preserves I
       (ifM get_set
          (whenM (test (fun m => negb (set_last m)))
             (assign (with_mode MODE_SET_HOURS) ;;
              assign (with_set_last true) ;;
              whenM (x <- get_alarm ;; ret (negb x))
                (assign (fun m => with_set_hours (rtc_hours m) m) ;;
                 assign (fun m => with_set_minutes (rtc_minutes m) m)) ;;
              play_note note_frequency i NOTE_SET_MODE BUTTON_NOTE_PWM 256))
          (assign (with_set_last false)) ;;
        ifM (orM get_down get_up)
          (assign (with_mode MODE_VOLTAGE) ;;
           assign (with_btn_timer (millis i 265)) ;;
           assign (fun m => with_inc_dec_timer (btn_timer m) m) ;;
           assign (with_inc_dec_delay BTN_INC_DEC_DELAY_LOW))
          (whenM get_weather
             (assign (with_mode MODE_WEATHER) ;;
              play_note note_frequency i NOTE_WEATHER_MODE
                        Buzzer.BUZZER_PWM_START 273))).
Proof.
  cbv zeta. unfold wave. split; [|split]; keep_with fail.
Qed.

(** X24. The separator in mode_clock(): a pass that handles a new second
    lights it and restarts its timer with the clock reading; a pass finds
    it expired when the timer is not 0 and SEPARATOR_TIME (250 ms) or more
    have passed, and then switches it off and clears the timer; no other
    part of mode_clock() touches either.  (A timer value of 0 stands for
    no timer: a separator lit at a clock reading of exactly 0 stays lit
    until the next second.) *)
Theorem X24_separator (i : input) (sqw_interrupt : bool) (m : t) :
  let m' := snd (mode_clock note_frequency i sqw_interrupt m) in
  let timer := if sqw_interrupt then millis i 228 else separator_timer m in
  let expired :=
    negb (timer =? 0) && (u64 (millis i 242 - timer) >=? SEPARATOR_TIME) in
  Digits.current_separator_state (digits m')
  = (if expired then false
     else if sqw_interrupt then true
     else Digits.current_separator_state (digits m))
  /\ separator_timer m' = (if expired then 0 else timer).
Proof.
  cbv zeta. unfold mode_clock.
  rewrite bind_run.
  set (x := Digits.current_separator_state (digits m)).
  set (t := separator_timer m).
  destruct (separator_frame i x t) as (P1 & P2 & _).
  cbv zeta in P1, P2.
  pose proof (P1 m (conj eq_refl eq_refl)) as Q1.
  set (m1 := snd (wave i m)) in *. clearbody m1.
  rewrite bind_run. specialize (P2 m1 Q1).
  match goal with
  | |- context [snd (?c m1)] => set (m2 := snd (c m1)) in *
  end.
  clearbody m2. destruct P2 as [Q2 Q3].
  rewrite bind_run.
  match goal with
  | |- context [snd (?c m2)] =>
      assert (Q : Digits.current_separator_state (digits (snd (c m2)))
                  = (if sqw_interrupt then true else x)
                  /\ separator_timer (snd (c m2))
                     = (if sqw_interrupt then millis i 228 else t));
      [|set (m3 := snd (c m2)) in *]
  end.
  { unfold show_time, digits_set, digits_set_separator, start_wave.
    destruct sqw_interrupt; exec;
      cbn [Digits.current_separator_state Digits.set Digits.set_separator];
      split; assumption || reflexivity. }
  clearbody m3. destruct Q as [Q4 Q5].
  set (timer := if sqw_interrupt then millis i 228 else t) in *.
  rewrite bind_run.
  match goal with
  | |- context [snd (?c m3)] =>
      assert (Q : Digits.current_separator_state (digits (snd (c m3)))
                  = (if negb (timer =? 0)
                        && (u64 (millis i 242 - timer) >=? SEPARATOR_TIME)
                     then false
                     else if sqw_interrupt then true else x)
                  /\ separator_timer (snd (c m3))
                     = (if negb (timer =? 0)
                           && (u64 (millis i 242 - timer) >=? SEPARATOR_TIME)
                        then 0 else timer));
      [|set (m4 := snd (c m3)) in *]
  end.
  { unfold digits_set_separator. rewrite whenM_run. fields. rewrite Q5.
    destruct (negb (timer =? 0)
              && (u64 (millis i 242 - timer) >=? SEPARATOR_TIME));
      [rewrite bind_run|]; fields;
      cbn [Digits.current_separator_state Digits.set_separator];
      split; assumption || reflexivity. }
  clearbody m4. destruct Q as [Q6 Q7].
  destruct (separator_frame i
              (Digits.current_separator_state (digits m4))
              (separator_timer m4)) as (_ & _ & P3).
  cbv zeta in P3. destruct (P3 m4 (conj eq_refl eq_refl)) as [Q8 Q9].
  rewrite Q8, Q9, Q6, Q7. split; reflexivity.
Qed.

(** *** Modes *)

(** Polling one input does not disturb what another one reports. *)
Lemma poll_other (j k : Buttons.LogicalInput) (b : Buttons.t) :
  j <> k ->
  fst (Buttons.poll j (snd (Buttons.poll k b))) = fst (Buttons.poll j b).
Proof.
  intro N. destruct j, k; try contradiction; reflexivity.
Qed.

(** The variables the mode machine reads: the mode, the previous level of
    SET, and what the inputs chosen by [watch] report. *)
Lemma poll_keeps_watch (watch : Buttons.LogicalInput -> bool) (m : t)
    (k : Buttons.LogicalInput) :
  watch k = false ->
  preserves
    (fun s =>
       mode s = mode m /\ set_last s = set_last m
       /\ forall j, watch j = true -> reported j s = reported j m)
    (buttons_get (Buttons.poll k)).
Proof.
  intros W s (H1 & H2 & H3). rewrite buttons_get_run. fields.
  split; [exact H1|]. split; [exact H2|].
  intros j Wj. rewrite <- (H3 j Wj). unfold reported. fields.
  apply poll_other. intro E. subst j. congruence.
Qed.

Lemma poll_keeps_reports (watch : Buttons.LogicalInput -> bool) (m : t)
    (k : Buttons.LogicalInput) :
  watch k = false ->
  preserves
    (fun s => forall j, watch j = true -> reported j s = reported j m)
    (buttons_get (Buttons.poll k)).
Proof.
  intros W s H. rewrite buttons_get_run. fields.
  intros j Wj. rewrite <- (H j Wj). unfold reported. fields.
  apply poll_other. intro E. subst j. congruence.
Qed.

Lemma after_bind {A B : Type} (I Q : t -> Prop) (c : M A) (k : A -> M B)
    (m : t) :
  I m -> preserves I c -> (forall a s, I s -> Q (snd (k a s))) ->
  Q (snd (bind c k m)).
Proof.
  intros Hm Hc Hk. rewrite bind_run. apply Hk. apply Hc. exact Hm.
Qed.

(** Running statements that poll the inputs: the polls are written with
    [Buttons.poll] and reduced to polls of the sampler as it was found. *)
Ltac as_polls :=
  change Buttons.get_up with (Buttons.poll Buttons.UP);
  change Buttons.get_down with (Buttons.poll Buttons.DOWN);
  change Buttons.get_weather with (Buttons.poll Buttons.WEATHER);
  change Buttons.get_set with (Buttons.poll Buttons.SET);
  change Buttons.get_alarm with (Buttons.poll Buttons.ALARM).

Ltac exec_polls := exec_with ltac:(rewrite poll_other by discriminate).

Lemma alarm_keeps_buttons (i : input) (m : t) :
  preserves
    (fun s =>
       mode s = mode m /\ set_last s = set_last m
       /\ forall j, buttons_only j = true -> reported j s = reported j m)
    (alarm note_frequency i).
Proof.
  unfold alarm, get_alarm.
  keep_with ltac:(exact (poll_keeps_watch buttons_only m Buttons.ALARM
                           eq_refl)).
Qed.

(** The last part of mode_clock(): SET, then DOWN, UP and WEATHER. *)
Lemma set_button_next (i : input) (s : t) :
  let s' :=
    snd (ifM get_set
           (whenM (test (fun m => negb (set_last m)))
              (assign (with_mode MODE_SET_HOURS) ;;
               assign (with_set_last true) ;;
               whenM (x <- get_alarm ;; ret (negb x))
                 (assign (fun m => with_set_hours (rtc_hours m) m) ;;
                  assign (fun m => with_set_minutes (rtc_minutes m) m)) ;;
               play_note note_frequency i NOTE_SET_MODE BUTTON_NOTE_PWM
                         256))
           (assign (with_set_last false)) s) in
  (mode s'
   = (if reported Buttons.SET s && negb (set_last s) then MODE_SET_HOURS
      else mode s)
   /\ set_last s' = reported Buttons.SET s)
  /\ forall j,
       match j with Buttons.SET | Buttons.ALARM => false | _ => true end
       = true ->
       reported j s' = reported j s.
Proof.
  cbv zeta. split.
  - unfold reported, get_set, get_alarm, play_note.
    as_polls. exec_polls;
      repeat match goal with
             | H : negb _ = _ |- _ => apply (f_equal negb) in H;
                                      rewrite negb_involutive in H;
                                      cbn [negb] in H
             end;
      cbn [andb orb negb] in *; split; congruence.
  - set (W := fun j : Buttons.LogicalInput =>
                match j with
                | Buttons.SET | Buttons.ALARM => false
                | _ => true
                end).
    refine ((_ : preserves
                   (fun x => forall j, W j = true ->
                                       reported j x = reported j s) _)
              s (fun _ _ => eq_refl)).
    unfold get_set, get_alarm, play_note. as_polls.
    keep_with
      ltac:(first [ exact (poll_keeps_reports W s Buttons.SET eq_refl)
                  | exact (poll_keeps_reports W s Buttons.ALARM eq_refl) ]).
Qed.

Lemma other_buttons_next (i : input) (s : t) :
  let s' :=
    snd (ifM (orM get_down get_up)
           (assign (with_mode MODE_VOLTAGE) ;;
            assign (with_btn_timer (millis i 265)) ;;
            assign (fun m => with_inc_dec_timer (btn_timer m) m) ;;
            assign (with_inc_dec_delay BTN_INC_DEC_DELAY_LOW))
           (whenM get_weather
              (assign (with_mode MODE_WEATHER) ;;
               play_note note_frequency i NOTE_WEATHER_MODE
                         Buzzer.BUZZER_PWM_START 273)) s) in
  mode s'
  = (if reported Buttons.DOWN s || reported Buttons.UP s then MODE_VOLTAGE
     else if reported Buttons.WEATHER s then MODE_WEATHER
     else mode s)
  /\ set_last s' = set_last s.
Proof.
  cbv zeta. unfold reported, get_down, get_up, get_weather, play_note.
  as_polls. exec_polls; cbn [andb orb negb] in *; split; congruence.
Qed.

Lemma buttons_next (i : input) (s : t) :
  let s' :=
    snd ((ifM get_set
            (whenM (test (fun m => negb (set_last m)))
               (assign (with_mode MODE_SET_HOURS) ;;
                assign (with_set_last true) ;;
                whenM (x <- get_alarm ;; ret (negb x))
                  (assign (fun m => with_set_hours (rtc_hours m) m) ;;
                   assign (fun m => with_set_minutes (rtc_minutes m) m)) ;;
                play_note note_frequency i NOTE_SET_MODE BUTTON_NOTE_PWM
                          256))
            (assign (with_set_last false)) ;;
          ifM (orM get_down get_up)
            (assign (with_mode MODE_VOLTAGE) ;;
             assign (with_btn_timer (millis i 265)) ;;
             assign (fun m => with_inc_dec_timer (btn_timer m) m) ;;
             assign (with_inc_dec_delay BTN_INC_DEC_DELAY_LOW))
            (whenM get_weather
               (assign (with_mode MODE_WEATHER) ;;
                play_note note_frequency i NOTE_WEATHER_MODE
                          Buzzer.BUZZER_PWM_START 273))) s) in
  mode s'
  = (if reported Buttons.DOWN s || reported Buttons.UP s then MODE_VOLTAGE
     else if reported Buttons.WEATHER s then MODE_WEATHER
     else if reported Buttons.SET s && negb (set_last s) then MODE_SET_HOURS
     else mode s)
  /\ set_last s' = reported Buttons.SET s.
Proof.
  cbv zeta. rewrite bind_run.
  pose proof (set_button_next i s) as K. cbv zeta in K.
  match type of K with
  | context [snd (?c s)] => set (s1 := snd (c s)) in *
  end.
  destruct K as ((K1 & K2) & K3).
  pose proof (other_buttons_next i s1) as L. cbv zeta in L.
  destruct L as (L1 & L2).
  rewrite L1, L2, K1, K2, (K3 Buttons.DOWN eq_refl),
    (K3 Buttons.UP eq_refl), (K3 Buttons.WEATHER eq_refl).
  split; reflexivity.
Qed.

(** The mode after mode_clock(). *)
Lemma mode_clock_next (i : input) (sqw_interrupt : bool) (m s : t) :
  mode s = mode m /\ set_last s = set_last m
  /\ (forall j, buttons_only j = true -> reported j s = reported j m) ->
  let s' := snd (mode_clock note_frequency i sqw_interrupt s) in
  mode s'
  = (if reported Buttons.DOWN m || reported Buttons.UP m then MODE_VOLTAGE
     else if reported Buttons.WEATHER m then MODE_WEATHER
     else if reported Buttons.SET m && negb (set_last m) then MODE_SET_HOURS
     else mode m)
  /\ set_last s' = reported Buttons.SET m.
Proof.
  intro Hs. cbv zeta. unfold mode_clock.
  set (I := fun s : t =>
              mode s = mode m /\ set_last s = set_last m
              /\ forall j, buttons_only j = true ->
                    reported j s = reported j m).
  apply (after_bind I); [exact Hs|unfold wave; keep_with fail|].
  intros _ s1 H1.
  apply (after_bind I); [exact H1|keep_with fail|]. clear s1 H1.
  intros _ s1 H1.
  apply (after_bind I);
    [exact H1|unfold start_wave; keep_with fail|]. clear s1 H1.
  intros _ s1 H1.
  apply (after_bind I); [exact H1|keep_with fail|]. clear s1 H1.
  intros _ s1 (F1 & F2 & F3).
  rewrite <- (F3 Buttons.DOWN eq_refl), <- (F3 Buttons.UP eq_refl),
    <- (F3 Buttons.WEATHER eq_refl), <- (F3 Buttons.SET eq_refl),
    <- F1, <- F2.
  apply (buttons_next i s1).
Qed.

(** return_to_main() selects the clock and leaves the level of SET as it
    was recorded. *)
Lemma return_to_main_next (i : input) (s : t) :
  let s' := snd (return_to_main note_frequency i s) in
  mode s' = MODE_TIME /\ set_last s' = set_last s
  /\ forall j, reported j s' = reported j s.
Proof.
  cbv zeta.
  unfold return_to_main, show_time, digits_set, digits_set_separator,
    rtc_clear_interrupt, play_note, reported.
  exec. repeat split; reflexivity.
Qed.

(** inc_dec() answers whether Down or Up is held. *)
Lemma inc_dec_result (i : input) (s : t) :
  fst (inc_dec note_frequency i s)
  = reported Buttons.DOWN s || reported Buttons.UP s.
Proof.
  unfold inc_dec, reported, get_down, get_up. as_polls.
  rewrite ifM_run, orM_run, !buttons_get_run. fields.
  destruct (fst (Buttons.poll Buttons.DOWN (buttons s))); fields.
  - rewrite bind_run. reflexivity.
  - rewrite poll_other by discriminate.
    destruct (fst (Buttons.poll Buttons.UP (buttons s)));
      rewrite !bind_run; reflexivity.
Qed.

(** inc_dec() polls Down, Up and the alarm switch only, and leaves the
    mode. *)
Lemma inc_dec_keeps (i : input) (m : t) :
  preserves
    (fun s =>
       mode s = mode m /\ set_last s = set_last m
       /\ forall j,
            match j with
            | Buttons.SET | Buttons.WEATHER => true
            | _ => false
            end = true ->
            reported j s = reported j m)
    (inc_dec note_frequency i).
Proof.
  set (W := fun j : Buttons.LogicalInput =>
              match j with
              | Buttons.SET | Buttons.WEATHER => true
              | _ => false
              end).
  unfold inc_dec, increment, decrement, get_down, get_up, get_alarm.
  as_polls.
  keep_with
    ltac:(first [ exact (poll_keeps_watch W m Buttons.DOWN eq_refl)
                | exact (poll_keeps_watch W m Buttons.UP eq_refl)
                | exact (poll_keeps_watch W m Buttons.ALARM eq_refl) ]).
Qed.

(** The mode after mode_voltage(). *)
Lemma mode_voltage_next (i : input) (m s : t) :
  mode s = mode m /\ set_last s = set_last m
  /\ (forall j, buttons_only j = true -> reported j s = reported j m) ->
  let s' := snd (mode_voltage note_frequency i s) in
  mode s'
  = (if reported Buttons.DOWN m || reported Buttons.UP m then mode m
     else MODE_TIME)
  /\ set_last s' = set_last m.
Proof.
  intro Hs. cbv zeta. unfold mode_voltage.
  set (I := fun s : t =>
              mode s = mode m /\ set_last s = set_last m
              /\ forall j, buttons_only j = true ->
                    reported j s = reported j m).
  apply (after_bind I); [exact Hs|keep_with fail|].
  intros _ s1 H1.
  apply (after_bind I); [exact H1|keep_with fail|]. clear s1 H1.
  intros _ s1 (F1 & F2 & F3).
  rewrite whenM_run, !bind_run. fields. rewrite inc_dec_result.
  rewrite (F3 Buttons.DOWN eq_refl), (F3 Buttons.UP eq_refl).
  destruct (inc_dec_keeps i m s1) as (G1 & G2 & _).
  { split; [exact F1|]. split; [exact F2|].
    intros j Wj. apply F3. destruct j; try discriminate; reflexivity. }
  destruct (reported Buttons.DOWN m || reported Buttons.UP m);
    cbn [negb]; fields.
  - split; assumption.
  - destruct (return_to_main_next i (snd (inc_dec note_frequency i s1)))
      as (R1 & R2 & _).
    rewrite R1, R2. split; [reflexivity|exact G2].
Qed.

(** The mode after mode_weather(). *)
Lemma mode_weather_next (i : input) (m s : t) :
  mode s = mode m /\ set_last s = set_last m
  /\ (forall j, buttons_only j = true -> reported j s = reported j m) ->
  let s' := snd (mode_weather note_frequency i s) in
  mode s' = (if reported Buttons.WEATHER m then mode m else MODE_TIME)
  /\ set_last s' = set_last m.
Proof.
  intro Hs. cbv zeta. unfold mode_weather.
  set (I := fun s : t =>
              mode s = mode m /\ set_last s = set_last m
              /\ forall j, buttons_only j = true ->
                    reported j s = reported j m).
  apply (after_bind I); [exact Hs|keep_with fail|].
  intros a s1 H1. cbv beta zeta.
  apply (after_bind I); [exact H1|keep_with fail|]. clear s1 H1.
  intros b s1 H1. cbv beta zeta.
  apply (after_bind I); [exact H1|keep_with fail|]. clear s1 H1.
  intros _ s1 H1.
  apply (after_bind I); [exact H1|keep_with fail|]. clear s1 H1.
  intros _ s1 (F1 & F2 & F3).
  unfold get_weather. as_polls.
  rewrite whenM_run, bind_run, buttons_get_run. fields.
  change (fst (Buttons.poll Buttons.WEATHER (buttons s1)))
    with (reported Buttons.WEATHER s1).
  rewrite (F3 Buttons.WEATHER eq_refl).
  destruct (reported Buttons.WEATHER m); cbn [negb]; fields.
  - split; assumption.
  - match goal with
    | |- context [return_to_main _ _ ?x] =>
        destruct (return_to_main_next i x) as (R1 & R2 & _)
    end.
    rewrite R1, R2. fields. split; [reflexivity|exact F2].
Qed.

(** The last part of mode_set(): SET moves from the hours to the minutes
    and from the minutes back to the clock. *)
Lemma set_button_edit (i : input) (s : t) :
  let s' :=
    snd (ifM get_set
           (whenM (test (fun m => negb (set_last m)))
              (assign (with_set_last true) ;;
               ifM (test (fun m => mode m =? MODE_SET_HOURS))
                 (assign (with_mode MODE_SET_MINUTES) ;;
                  play_note note_frequency i NOTE_SET_MODE BUTTON_NOTE_PWM
                            336)
                 (return_to_main note_frequency i)))
           (assign (with_set_last false)) s) in
  mode s'
  = (if reported Buttons.SET s && negb (set_last s)
     then if mode s =? MODE_SET_HOURS then MODE_SET_MINUTES else MODE_TIME
     else mode s)
  /\ set_last s' = reported Buttons.SET s.
Proof.
  cbv zeta.
  unfold return_to_main, reported, get_set, play_note, show_time,
    digits_set, digits_set_separator, rtc_clear_interrupt.
  as_polls. exec_polls;
    repeat match goal with
           | H : negb _ = _ |- _ => apply (f_equal negb) in H;
                                    rewrite negb_involutive in H;
                                    cbn [negb] in H
           end;
    cbn [andb orb negb] in *; split; congruence.
Qed.

(** The mode after mode_set(). *)
Lemma mode_set_next (i : input) (sqw_interrupt : bool) (m s : t) :
  mode s = mode m /\ set_last s = set_last m
  /\ (forall j, buttons_only j = true -> reported j s = reported j m) ->
  let s' := snd (mode_set note_frequency i sqw_interrupt s) in
  mode s'
  = (if reported Buttons.SET m && negb (set_last m)
     then if mode m =? MODE_SET_HOURS then MODE_SET_MINUTES else MODE_TIME
     else mode m)
  /\ set_last s' = reported Buttons.SET m.
Proof.
  intro Hs. cbv zeta. unfold mode_set.
  set (I := fun s : t =>
              mode s = mode m /\ set_last s = set_last m
              /\ forall j, buttons_only j = true ->
                    reported j s = reported j m).
  apply (after_bind I); [exact Hs|keep_with fail|].
  intros _ s1 H1.
  apply (after_bind I);
    [exact H1
    |unfold get_alarm; as_polls;
     keep_with ltac:(exact (poll_keeps_watch buttons_only m Buttons.ALARM
                              eq_refl))
    |].
  clear s1 H1. intros _ s1 (F1 & F2 & F3).
  apply (after_bind
           (fun s : t =>
              mode s = mode m /\ set_last s = set_last m
              /\ forall j,
                   match j with
                   | Buttons.SET | Buttons.WEATHER => true
                   | _ => false
                   end = true ->
                   reported j s = reported j m)).
  { split; [exact F1|]. split; [exact F2|].
    intros j Wj. apply F3. destruct j; try discriminate; reflexivity. }
  { keep_with ltac:(exact (inc_dec_keeps i m)). }
  clear s1 F1 F2 F3. intros _ s1 (F1 & F2 & F3).
  rewrite <- (F3 Buttons.SET eq_refl), <- F1, <- F2.
  apply (set_button_edit i s1).
Qed.

(** X25.  The mode after one pass of loop(), read off the inputs as a poll
    reports them when the pass begins.  From the clock, Down or Up selects
    the voltage, otherwise Weather the weather, otherwise a new press of
    SET the hours; the voltage stays while Down or Up is held and the
    weather while Weather is; a new press of SET moves from the hours to
    the minutes and from the minutes to the clock.  The level of SET is
    recorded in the clock and in the two editing modes only. *)
Theorem X25_mode_machine (i : input) (m : t) :
  let m' := snd (loop note_frequency i m) in
  let held := reported Buttons.DOWN m || reported Buttons.UP m in
  let weather := reported Buttons.WEATHER m in
  let set := reported Buttons.SET m in
  let pressed := set && negb (set_last m) in
  mode m'
  = (if mode m =? MODE_TIME then
       if held then MODE_VOLTAGE
       else if weather then MODE_WEATHER
       else if pressed then MODE_SET_HOURS
       else MODE_TIME
     else if mode m =? MODE_VOLTAGE then
       if held then MODE_VOLTAGE else MODE_TIME
     else if mode m =? MODE_SET_HOURS then
       if pressed then MODE_SET_MINUTES else MODE_SET_HOURS
     else if mode m =? MODE_SET_MINUTES then
       if pressed then MODE_TIME else MODE_SET_MINUTES
     else if mode m =? MODE_WEATHER then
       if weather then MODE_WEATHER else MODE_TIME
     else mode m)
  /\ set_last m'
     = (if (mode m =? MODE_TIME) || (mode m =? MODE_SET_HOURS)
           || (mode m =? MODE_SET_MINUTES)
        then set else set_last m).
Proof.
  cbv zeta. unfold loop.
  set (I := fun s : t =>
              mode s = mode m /\ set_last s = set_last m
              /\ forall j, buttons_only j = true ->
                    reported j s = reported j m).
  assert (Hm : I m) by (split; [|split]; reflexivity).
  apply (after_bind I); [exact Hm|keep_with fail|].
  intros _ s1 H1.
  apply (after_bind I); [exact H1|keep_with fail|]. clear s1 H1.
  intros _ s1 H1.
  apply (after_bind I);
    [exact H1|unfold rtc_clear_interrupt; keep_with fail|]. clear s1 H1.
  intros sqw s1 H1.
  rewrite bind_run. fields.
  rewrite ifM_run. fields.
  pose proof H1 as (F1 & F2 & F3). rewrite F1.
  destruct (Z.eqb_spec (mode m) MODE_TIME) as [E1|E1].
  { rewrite bind_run. fields. cbn [orb].
    pose proof (mode_clock_next i sqw m _ (alarm_keeps_buttons i m s1 H1))
      as K.
    cbv zeta in K. rewrite E1 in K. exact K. }
  rewrite ifM_run. fields. rewrite F1.
  destruct (Z.eqb_spec (mode m) MODE_VOLTAGE) as [E2|E2].
  { pose proof (mode_voltage_next i m s1 H1) as K.
    cbv zeta in K. rewrite E2 in K.
    replace (mode m =? MODE_SET_HOURS) with false
      by (rewrite E2; reflexivity).
    replace (mode m =? MODE_SET_MINUTES) with false
      by (rewrite E2; reflexivity).
    exact K. }
  rewrite ifM_run. fields. rewrite F1.
  destruct (Z.eqb_spec (mode m) MODE_SET_HOURS) as [E3|E3].
  { cbn [orb].
    pose proof (mode_set_next i sqw m s1 H1) as K.
    cbv zeta in K. rewrite E3 in K.
    change (MODE_SET_HOURS =? MODE_SET_HOURS) with true in K.
    exact K. }
  destruct (Z.eqb_spec (mode m) MODE_SET_MINUTES) as [E4|E4].
  { cbn [orb].
    pose proof (mode_set_next i sqw m s1 H1) as K.
    cbv zeta in K. rewrite E4 in K.
    change (MODE_SET_MINUTES =? MODE_SET_HOURS) with false in K.
    exact K. }
  cbn [orb]. rewrite whenM_run. fields. rewrite F1.
  destruct (Z.eqb_spec (mode m) MODE_WEATHER) as [E5|E5].
  { pose proof (mode_weather_next i m s1 H1) as K.
    cbv zeta in K. rewrite E5 in K. exact K. }
  fields. split; assumption.
Qed.

(** *** The wave through loop() *)

(** Inputs at rest are the object as it was constructed; they report
    nothing and stay at rest, also through a pin change that finds every
    pin high. *)
Lemma released_initial (m : t) :
  released m = true -> buttons m = Buttons.initial.
Proof.
  unfold released. cbn [forallb]. intro R.
  rewrite !andb_true_iff, !negb_true_iff, !Z.eqb_eq in R.
  destruct (buttons m).
  cbn [Buttons.raw Buttons.state Buttons.last Buttons.up Buttons.down
       Buttons.weather Buttons.set Buttons.alarm Buttons.up_last
       Buttons.down_last Buttons.weather_last Buttons.set_last
       Buttons.alarm_last Buttons.up_state Buttons.down_state
       Buttons.weather_state Buttons.set_state Buttons.alarm_state] in R.
  decompose [and] R. subst. reflexivity.
Qed.

Lemma initial_polls (j : Buttons.LogicalInput) :
  Buttons.poll j Buttons.initial = (false, Buttons.initial).
Proof. destruct j; reflexivity. Qed.

Lemma initial_read (pcicr_bit : Z) (p : Buttons.Pins) :
  pins_high (PinChange pcicr_bit p) = true ->
  Buttons.read pcicr_bit p Buttons.initial = Buttons.initial.
Proof.
  cbn [pins_high]. intro H. rewrite !andb_true_iff in H.
  destruct H as ((((P1 & P2) & P3) & P4) & P5).
  unfold Buttons.read. rewrite P1, P2, P3, P4, P5. cbv zeta.
  cbn [negb Buttons.initial Buttons.up Buttons.down Buttons.weather
       Buttons.set Buttons.alarm Buttons.up_last Buttons.down_last
       Buttons.weather_last Buttons.set_last Buttons.alarm_last
       Buttons.up_state Buttons.down_state Buttons.weather_state
       Buttons.set_state Buttons.alarm_state].
  repeat match goal with
         | |- context [if ?c then _ else _] => destruct c
         end; reflexivity.
Qed.

(** A branch that is not taken. *)
Lemma preserves_else {A : Type} (I : t -> Prop) (e : t -> bool)
    (a b : M A) :
  (forall m, I m -> e m = false) -> preserves I b ->
  preserves I (ifM (test e) a b).
Proof.
  intros He Hb m Hm. rewrite ifM_run. fields. rewrite (He m Hm).
  apply Hb. exact Hm.
Qed.

(** alarm() with the switch at rest: the alarm is not active afterwards
    and no preview is pending. *)
Lemma alarm_released (i : input) (m : t) :
  buttons m = Buttons.initial ->
  let s := snd (alarm note_frequency i m) in
  alarm_active s = false /\ alarm_preview_timer s = 0.
Proof.
  intro Hb. cbv zeta.
  unfold alarm, get_alarm, play_note, play_chime, eeprom_write.
  as_polls.
  exec_with ltac:(rewrite Hb, initial_polls);
    try discriminate; split; reflexivity || assumption.
Qed.

(** Polling an input at rest, under a property that says so. *)
Ltac poll_initial :=
  idtac;
  match goal with
  | |- preserves _ (buttons_get _) =>
      let s := fresh "s" in
      let H := fresh "H" in
      intros s H; rewrite buttons_get_run; cbv beta in *; fields;
      decompose [and] H; repeat split; try assumption;
      match goal with
      | Hb : buttons s = Buttons.initial |- _ =>
          rewrite Hb, initial_polls; reflexivity
      end
  end.

Lemma alarm_keeps_wave (i : input) (m : t) :
  preserves
    (fun s =>
       mode s = mode m /\ buttons s = Buttons.initial
       /\ wave_started s = wave_started m
       /\ wave_counter s = wave_counter m /\ wave_timer s = wave_timer m
       /\ wave_positions s = wave_positions m
       /\ digits s = digits m /\ rtc s = rtc m)
    (alarm note_frequency i).
Proof.
  unfold alarm, get_alarm, play_note, play_chime, eeprom_write.
  as_polls. keep_with poll_initial.
Qed.


(** What follows the wave block in mode_clock(), with the alarm off, no
    preview pending and the inputs at rest: while the wave runs nothing
    else writes the tubes or the wave, and once it has ended the tubes
    keep the time. *)
Lemma mode_clock_wave (i : input) (sqw_interrupt : bool) (s : t) :
  buttons s = Buttons.initial -> alarm_active s = false ->
  alarm_preview_timer s = 0 ->
  let s1 := snd (wave i s) in
  let s' := snd (mode_clock note_frequency i sqw_interrupt s) in
  let time := [u8 (Z.quot (rtc_hours s) 10); u8 (Z.rem (rtc_hours s) 10);
               u8 (Z.quot (rtc_minutes s) 10);
               u8 (Z.rem (rtc_minutes s) 10)] in
  mode s' = mode s /\ buttons s' = Buttons.initial /\ rtc s' = rtc s
  /\ (wave_started s1 = true ->
      wave_started s' = true /\ wave_counter s' = wave_counter s1
      /\ wave_timer s' = wave_timer s1
      /\ wave_positions s' = wave_positions s1 /\ shown s' = shown s1)
  /\ (shown s1 = time -> shown s' = time).
Proof.
  intros Hb Ha Hp. cbv zeta. unfold mode_clock. rewrite bind_run.
  assert (B1 : mode (snd (wave i s)) = mode s
               /\ buttons (snd (wave i s)) = Buttons.initial
               /\ rtc (snd (wave i s)) = rtc s
               /\ alarm_active (snd (wave i s)) = false
               /\ alarm_preview_timer (snd (wave i s)) = 0).
  { refine ((_ : preserves
                   (fun x => mode x = mode s
                             /\ buttons x = Buttons.initial
                             /\ rtc x = rtc s /\ alarm_active x = false
                             /\ alarm_preview_timer x = 0) (wave i))
              s _).
    - unfold wave, show_time, digits_set. keep_with fail.
    - repeat split; assumption. }
  unfold rtc_hours, rtc_minutes.
  set (r := rtc s) in *. set (a := mode s) in *.
  set (s1 := snd (wave i s)) in *. clearbody s1 r a. clear s Hb Ha Hp.
  destruct B1 as (M1 & M2 & M3 & M4 & M5).
  set (time := [u8 (Z.quot (RTC.get_hours r) 10);
                u8 (Z.rem (RTC.get_hours r) 10);
                u8 (Z.quot (RTC.get_minutes r) 10);
                u8 (Z.rem (RTC.get_minutes r) 10)]).
  assert (Tail : forall x,
            buttons x = Buttons.initial ->
            snd ((ifM get_set
                    (whenM (test (fun m => negb (set_last m)))
                       (assign (with_mode MODE_SET_HOURS) ;;
                        assign (with_set_last true) ;;
                        whenM (x <- get_alarm ;; ret (negb x))
                          (assign
                             (fun m =>
                                with_set_hours (RTC.get_hours (rtc m)) m) ;;
                           assign
                             (fun m =>
                                with_set_minutes (RTC.get_minutes (rtc m))
                                                 m)) ;;
                        play_note note_frequency i NOTE_SET_MODE
                                  BUTTON_NOTE_PWM 256))
                    (assign (with_set_last false)) ;;
                  ifM (orM get_down get_up)
                    (assign (with_mode MODE_VOLTAGE) ;;
                     assign (with_btn_timer (millis i 265)) ;;
                     assign (fun m => with_inc_dec_timer (btn_timer m) m) ;;
                     assign (with_inc_dec_delay BTN_INC_DEC_DELAY_LOW))
                    (whenM get_weather
                       (assign (with_mode MODE_WEATHER) ;;
                        play_note note_frequency i NOTE_WEATHER_MODE
                                  Buzzer.BUZZER_PWM_START 273))) x)
            = with_set_last false x).
  { intros x Hx. unfold get_set, get_down, get_up, get_weather, get_alarm.
    as_polls.
    exec_with ltac:(first [rewrite Hx|rewrite initial_polls]).
    destruct x. cbn [buttons] in Hx. subst. reflexivity. }
  destruct (wave_started s1) eqn:W1.
  - set (J := fun x : t =>
                (mode x = a /\ buttons x = Buttons.initial /\ rtc x = r
                 /\ alarm_active x = false /\ alarm_preview_timer x = 0)
                /\ wave_started x = true
                /\ wave_counter x = wave_counter s1
                /\ wave_timer x = wave_timer s1
                /\ wave_positions x = wave_positions s1
                /\ shown x = shown s1).
    assert (J1 : J s1) by (repeat split; assumption).
    apply (after_bind J); [exact J1| |].
    { apply preserves_else;
        [intros x HJ; apply HJ|].
      apply preserves_guarded. intros x ((_ & _ & _ & _ & P) & _) HE.
      exfalso. rewrite P in HE. discriminate. }
    intros _ s2 J2.
    apply (after_bind J); [exact J2| |].
    { unfold digits_set_separator.
      keep_with
        ltac:(solve [apply preserves_guarded;
                     intros x ((_ & _ & _ & A & _) & W & _) HE;
                     exfalso; rewrite ?A, W in HE;
                     cbn [negb andb] in HE;
                     rewrite ?andb_false_r in HE; discriminate]). }
    clear s2 J2. intros _ s2 J2.
    apply (after_bind J);
      [exact J2|unfold digits_set_separator; keep_with fail|].
    clear s2 J2. intros _ s2 ((K1 & K2 & K3 & K4 & K5) & K6 & K7 & K8
                              & K9 & K10).
    rewrite (Tail s2 K2). fields. unfold shown in *. fields.
    repeat split; try assumption. intro E. rewrite K10. exact E.
  - set (J := fun x : t =>
                (mode x = a /\ buttons x = Buttons.initial /\ rtc x = r
                 /\ alarm_active x = false /\ alarm_preview_timer x = 0)
                /\ (shown s1 = time -> shown x = time)).
    assert (J1 : J s1) by (repeat split; assumption || (intro E; exact E)).
    apply (after_bind J); [exact J1| |].
    { apply preserves_else;
        [intros x HJ; apply HJ|].
      apply preserves_guarded. intros x ((_ & _ & _ & _ & P) & _) HE.
      exfalso. rewrite P in HE. discriminate. }
    intros _ s2 J2.
    apply (after_bind J); [exact J2| |].
    { unfold digits_set_separator, start_wave.
      keep_with
        ltac:(idtac;
              match goal with
              | |- preserves _ show_time =>
                  unfold show_time, digits_set; apply preserves_assign;
                  intros x ((Q1 & Q2 & Q3 & Q4 & Q5) & _);
                  split; [repeat split; assumption|];
                  intros _; unfold shown, rtc_hours, rtc_minutes; fields;
                  cbn [Digits.set Digits.current_numbers];
                  rewrite Q3; reflexivity
              end). }
    clear s2 J2. intros _ s2 J2.
    apply (after_bind J);
      [exact J2|unfold digits_set_separator; keep_with fail|].
    clear s2 J2. intros _ s2 ((K1 & K2 & K3 & K4 & K5) & K6).
    rewrite (Tail s2 K2). fields. unfold shown in *. fields.
    split; [exact K1|]. split; [exact K2|]. split; [exact K3|].
    split; [intro E; discriminate|exact K6].
Qed.

(** A pass that comes too early leaves the wave alone. *)
Lemma wave_idle (i : input) (s : t) :
  wave_started s = true ->
  (u64 (millis i 186 - wave_timer s) >=? 100) = false ->
  snd (wave i s) = s.
Proof.
  intros St Due. unfold wave. rewrite whenM_run. fields. rewrite St.
  rewrite whenM_run. fields. rewrite Due. reflexivity.
Qed.

(** One pass of loop() while the wave runs, the clock is shown and the
    inputs are at rest. *)
Lemma wave_pass (i : input) (m : t) (k d1 d2 d3 d4 : Z) :
  mode m = MODE_TIME -> buttons m = Buttons.initial ->
  wave_started m = true -> wave_counter m = k -> 0 <= k <= 20 ->
  0 <= d1 <= 9 -> 0 <= d2 <= 9 -> 0 <= d3 <= 9 -> 0 <= d4 <= 9 ->
  wave_positions m
  = map (fun d => (Buzzer.pgm_read_byte NUMBER_TO_POSITION d + k) mod 10)
        [d1; d2; d3; d4] ->
  let m' := snd (loop note_frequency i m) in
  let due := u64 (millis i 186 - wave_timer m) >=? 100 in
  mode m' = MODE_TIME /\ buttons m' = Buttons.initial
  /\ (due = false ->
      wave_started m' = true /\ wave_counter m' = k
      /\ wave_timer m' = wave_timer m
      /\ wave_positions m' = wave_positions m /\ shown m' = shown m)
  /\ (due = true -> k < 20 ->
      wave_started m' = true /\ wave_counter m' = k + 1
      /\ wave_timer m' = millis i 187
      /\ wave_positions m'
         = map (fun d =>
                  (Buzzer.pgm_read_byte NUMBER_TO_POSITION d + (k + 1))
                  mod 10) [d1; d2; d3; d4]
      /\ shown m' = map (above (k + 1)) [d1; d2; d3; d4])
  /\ (due = true -> k = 20 ->
      shown m'
      = [rtc_hours m' / 10; rtc_hours m' mod 10;
         rtc_minutes m' / 10; rtc_minutes m' mod 10]).
Proof.
  intros Hmode Hb St Ck Hk H1 H2 H3 H4 Ps. cbv zeta. unfold loop.
  set (I := fun s : t =>
              mode s = MODE_TIME /\ buttons s = Buttons.initial
              /\ wave_started s = true /\ wave_counter s = k
              /\ wave_timer s = wave_timer m
              /\ wave_positions s = wave_positions m
              /\ digits s = digits m).
  assert (Hm : I m) by (repeat split; assumption).
  apply (after_bind I); [exact Hm|keep_with fail|].
  intros _ s1 I1.
  apply (after_bind I); [exact I1|keep_with fail|]. clear s1 I1.
  intros _ s1 I1.
  apply (after_bind I);
    [exact I1|unfold rtc_clear_interrupt; keep_with fail|]. clear s1 I1.
  intros sqw s1 (I1 & I2 & I3 & I4 & I5 & I6 & I7).
  rewrite bind_run. unfold shown, rtc_hours, rtc_minutes. fields.
  rewrite ifM_run. fields. rewrite I1.
  change (MODE_TIME =? MODE_TIME) with true. cbv iota.
  rewrite bind_run. cbv beta.
  destruct (alarm_released i s1 I2) as (A1 & A2).
  destruct (alarm_keeps_wave i s1 s1) as (F1 & F2 & F3 & F4 & F5 & F6 & F7
                                          & F8).
  { repeat split; assumption. }
  set (s2 := snd (alarm note_frequency i s1)) in *. clearbody s2.
  pose proof (mode_clock_wave i sqw s2 F2 A1 A2) as C. cbv zeta in C.
  unfold shown, rtc_hours, rtc_minutes in C.
  set (s' := snd (mode_clock note_frequency i sqw s2)) in *.
  clearbody s'. destruct C as (C1 & C2 & C3 & C4 & C5).
  split; [rewrite C1, F1; exact I1|]. split; [exact C2|].
  destruct (u64 (millis i 186 - wave_timer m) >=? 100) eqn:Due.
  - assert (Due2 : (u64 (millis i 186 - wave_timer s2) >=? 100) = true)
      by (rewrite F5, I5; exact Due).
    assert (St2 : wave_started s2 = true) by (rewrite F3; exact I3).
    assert (Ck2 : wave_counter s2 = k) by (rewrite F4; exact I4).
    assert (Ps2 : wave_positions s2
                  = map (fun d =>
                           (Buzzer.pgm_read_byte NUMBER_TO_POSITION d + k)
                           mod 10) [d1; d2; d3; d4])
      by (rewrite F6, I6; exact Ps).
    pose proof (wave_step i s2 k d1 d2 d3 d4 St2 Due2 Ck2 Hk H1 H2 H3 H4
                  Ps2) as W.
    cbv zeta in W. unfold shown, rtc_hours, rtc_minutes in W.
    destruct W as (W1 & W2 & W3 & W4 & W5 & W6 & _).
    split; [intro E; discriminate|]. split.
    + intros _ Hlt.
      replace (k =? 20) with false in W3, W4
        by (symmetry; apply Z.eqb_neq; lia).
      destruct (C4 W3) as (G1 & G2 & G3 & G4 & G5).
      rewrite G1, G2, G3, G4, G5, W1, W2, W4, W6. repeat split.
    + intros _ E20. rewrite E20 in W4. cbn [Z.eqb Pos.eqb] in W4.
      rewrite (C5 W4), C3.
      destruct (rtc_time_bound s2) as (Bh & Bm & _).
      unfold rtc_hours, rtc_minutes in Bh, Bm.
      rewrite !Z.quot_div_nonneg, !Z.rem_mod_nonneg by lia.
      assert (U : forall x, 0 <= x <= 9 -> u8 x = x).
      { intros x Hx. unfold u8. apply Z.mod_small.
        change (2 ^ 8) with 256. lia. }
      rewrite !U; [reflexivity| | | |].
      * pose proof (Z.mod_pos_bound (RTC.get_minutes (rtc s2)) 10
                      ltac:(lia)). lia.
      * split; [apply Z.div_pos; lia|].
        apply Z.div_le_upper_bound; lia.
      * pose proof (Z.mod_pos_bound (RTC.get_hours (rtc s2)) 10
                      ltac:(lia)). lia.
      * split; [apply Z.div_pos; lia|].
        apply Z.div_le_upper_bound; lia.
  - assert (Due2 : (u64 (millis i 186 - wave_timer s2) >=? 100) = false)
      by (rewrite F5, I5; exact Due).
    assert (St2 : wave_started s2 = true) by (rewrite F3; exact I3).
    rewrite (wave_idle i s2 St2 Due2) in C4.
    destruct (C4 St2) as (G1 & G2 & G3 & G4 & G5).
    split.
    + intros _. rewrite G1, G2, G3, G4, G5, F4, F5, F6, F7, I4, I5, I6, I7.
      repeat split.
    + split; intro E; discriminate.
Qed.

Lemma wave_due_nonneg (timer : Z) (ops : list op) :
  0 <= wave_due timer ops.
Proof.
  revert timer. induction ops as [|o ops IH]; intro timer;
    cbn [wave_due]; [lia|].
  destruct o as [i| | |]; try apply IH.
  destruct (u64 (millis i 186 - timer) >=? 100); [|apply IH].
  specialize (IH (millis i 187)). lia.
Qed.

(** The wave through any passes and interrupts that find the inputs at
    rest: it has taken as many steps as passes found it due. *)
Lemma wave_runs (ops : list op) (m : t) (k d1 d2 d3 d4 : Z) :
  mode m = MODE_TIME -> buttons m = Buttons.initial ->
  wave_started m = true -> wave_counter m = k -> 0 <= k ->
  0 <= d1 <= 9 -> 0 <= d2 <= 9 -> 0 <= d3 <= 9 -> 0 <= d4 <= 9 ->
  wave_positions m
  = map (fun d => (Buzzer.pgm_read_byte NUMBER_TO_POSITION d + k) mod 10)
        [d1; d2; d3; d4] ->
  (1 <= k -> shown m = map (above k) [d1; d2; d3; d4]) ->
  forallb pins_high ops = true ->
  let n := k + wave_due (wave_timer m) ops in
  n <= 20 ->
  let m' := run note_frequency ops m in
  mode m' = MODE_TIME /\ buttons m' = Buttons.initial
  /\ wave_started m' = true /\ wave_counter m' = n
  /\ wave_positions m'
     = map (fun d =>
              (Buzzer.pgm_read_byte NUMBER_TO_POSITION d + n) mod 10)
           [d1; d2; d3; d4]
  /\ (1 <= n -> shown m' = map (above n) [d1; d2; d3; d4]).
Proof.
  revert m k. induction ops as [|o ops IH];
    intros m k Hmode Hb St Ck Hk H1 H2 H3 H4 Ps Sh Quiet; cbv zeta.
  - cbn [wave_due run fold_left]. rewrite Z.add_0_r. intros _.
    repeat split; assumption.
  - cbn [forallb] in Quiet. apply andb_prop in Quiet.
    destruct Quiet as [Q Quiet].
    change (run note_frequency (o :: ops) m)
      with (run note_frequency ops (step note_frequency o m)).
    destruct o as [i|pcicr_bit p| |]; cbn [wave_due step].
    + pose proof (wave_due_nonneg (millis i 187) ops) as N1.
      pose proof (wave_due_nonneg (wave_timer m) ops) as N2.
      destruct (u64 (millis i 186 - wave_timer m) >=? 100) eqn:Due;
        intro Hn.
      * assert (Hk' : 0 <= k <= 20) by lia.
        pose proof (wave_pass i m k d1 d2 d3 d4 Hmode Hb St Ck Hk'
                      H1 H2 H3 H4 Ps) as P.
        cbv zeta in P. rewrite Due in P.
        destruct P as (P1 & P2 & _ & P3 & _).
        destruct (P3 eq_refl ltac:(lia)) as (G1 & G2 & G3 & G4 & G5).
        pose proof (IH (snd (loop note_frequency i m)) (k + 1)
                      P1 P2 G1 G2 ltac:(lia) H1 H2 H3 H4 G4
                      (fun _ => G5) Quiet) as R.
        cbv zeta in R. rewrite G3 in R.
        replace (k + 1 + wave_due (millis i 187) ops)
          with (k + (1 + wave_due (millis i 187) ops)) in R by lia.
        apply R. exact Hn.
      * assert (Hk' : 0 <= k <= 20) by lia.
        pose proof (wave_pass i m k d1 d2 d3 d4 Hmode Hb St Ck Hk'
                      H1 H2 H3 H4 Ps) as P.
        cbv zeta in P. rewrite Due in P.
        destruct P as (P1 & P2 & P3 & _).
        destruct (P3 eq_refl) as (G1 & G2 & G3 & G4 & G5).
        pose proof (IH (snd (loop note_frequency i m)) k
                      P1 P2 G1 G2 Hk H1 H2 H3 H4) as R.
        cbv zeta in R. rewrite G3, G4, G5 in R.
        apply (R Ps Sh Quiet). exact Hn.
    + intro Hn.
      apply (IH (with_buttons (Buttons.read pcicr_bit p (buttons m)) m) k);
        try assumption.
      fields. rewrite Hb. apply initial_read. exact Q.
    + intro Hn.
      apply (IH (with_rtc (RTC.sqw_callback (rtc m)) m) k); assumption.
    + intro Hn.
      apply (IH (with_digits
                   (snd (Digits.isr_callback_handler (digits m))) m) k);
        assumption.
Qed.

(** X22.  The wave, with the clock shown, the alarm switch off and no
    button pressed, through any passes of loop() and interrupts.  Started
    with every tube at the height of a numeral d, the wave has taken one
    step for each pass that found 100 ms elapsed on its timer; after k
    steps, k from 1 to 20, it is still running and every tube shows the
    numeral k places above d in the stack of cathodes, whatever the clock
    chip has reported meanwhile.  The pass that takes the 21st step leaves
    on the tubes the time the clock chip reports then.  Ten or twenty
    places up is the same numeral, so the first 20 steps light each of
    the ten numerals of a tube exactly twice; start_wave() starts from the
    numerals of the time. *)
Theorem X22_wave_exercises_cathodes (ops : list op) (m0 : t)
    (d1 d2 d3 d4 : Z) :
  mode m0 = MODE_TIME -> released m0 = true ->
  wave_started m0 = true -> wave_counter m0 = 0 ->
  wave_positions m0
  = map (Buzzer.pgm_read_byte NUMBER_TO_POSITION) [d1; d2; d3; d4] ->
  0 <= d1 <= 9 -> 0 <= d2 <= 9 -> 0 <= d3 <= 9 -> 0 <= d4 <= 9 ->
  forallb pins_high ops = true ->
  let k := wave_due (wave_timer m0) ops in
  k <= 20 ->
  let m := run note_frequency ops m0 in
  wave_started m = true /\ wave_counter m = k
  /\ (1 <= k -> shown m = map (above k) [d1; d2; d3; d4])
  /\ (k = 20 ->
      forall i, (u64 (millis i 186 - wave_timer m) >=? 100) = true ->
      let m' := step note_frequency (Pass i) m in
      shown m'
      = [rtc_hours m' / 10; rtc_hours m' mod 10;
         rtc_minutes m' / 10; rtc_minutes m' mod 10])
  /\ (forall d n, 0 <= d <= 9 -> 0 <= n <= 9 ->
      above 10 d = d /\ above 20 d = d
      /\ count_occ Z.eq_dec
           (map (fun j => above (Z.of_nat j) d) (seq 1 20)) n
         = 2%nat)
  /\ (forall s,
      let s' := snd (start_wave s) in
      wave_started s' = true /\ wave_counter s' = 0
      /\ wave_positions s'
         = map (Buzzer.pgm_read_byte NUMBER_TO_POSITION)
               [rtc_hours s / 10; rtc_hours s mod 10;
                rtc_minutes s / 10; rtc_minutes s mod 10]).
Proof.
  intros Hmode Hr St Ck Ps H1 H2 H3 H4 Quiet. cbv zeta. intro Hk.
  pose proof (released_initial m0 Hr) as Hb.
  pose proof (wave_due_nonneg (wave_timer m0) ops) as N.
  assert (Ps0 : wave_positions m0
                = map (fun d =>
                         (Buzzer.pgm_read_byte NUMBER_TO_POSITION d + 0)
                         mod 10) [d1; d2; d3; d4]).
  { rewrite Ps. cbn [map].
    destruct (wave_table d1 H1) as (P1 & _).
    destruct (wave_table d2 H2) as (P2 & _).
    destruct (wave_table d3 H3) as (P3 & _).
    destruct (wave_table d4 H4) as (P4 & _).
    rewrite !Z.add_0_r, !Z.mod_small by lia. reflexivity. }
  pose proof (wave_runs ops m0 0 d1 d2 d3 d4 Hmode Hb St Ck ltac:(lia)
                H1 H2 H3 H4 Ps0 ltac:(lia) Quiet) as R.
  cbv zeta in R. rewrite Z.add_0_l in R.
  destruct (R Hk) as (R1 & R2 & R3 & R4 & R5 & R6).
  split; [exact R3|]. split; [exact R4|]. split; [exact R6|].
  split.
  { intros E i Due. cbn [step].
    pose proof (wave_pass i (run note_frequency ops m0) 20 d1 d2 d3 d4
                  R1 R2 R3 ltac:(rewrite R4; exact E) ltac:(lia)
                  H1 H2 H3 H4 ltac:(rewrite R5, E; reflexivity)) as P.
    cbv zeta in P. rewrite Due in P.
    destruct P as (_ & _ & _ & _ & P). exact (P eq_refl eq_refl). }
  split.
  { intros d n Hd Hn. split; [|split].
    - assert (C : d = 0 \/ d = 1 \/ d = 2 \/ d = 3 \/ d = 4 \/ d = 5
                  \/ d = 6 \/ d = 7 \/ d = 8 \/ d = 9) by lia.
      repeat (destruct C as [C|C]; [subst d; reflexivity|]).
      subst d; reflexivity.
    - assert (C : d = 0 \/ d = 1 \/ d = 2 \/ d = 3 \/ d = 4 \/ d = 5
                  \/ d = 6 \/ d = 7 \/ d = 8 \/ d = 9) by lia.
      repeat (destruct C as [C|C]; [subst d; reflexivity|]).
      subst d; reflexivity.
    - apply (wave_table d Hd). exact Hn. }
  intro s. cbv zeta. unfold start_wave. rewrite !bind_run. fields.
  destruct (rtc_time_bound s) as (Bh & Bm & _).
  unfold rtc_hours, rtc_minutes in *. fields.
  rewrite !Z.quot_div_nonneg, !Z.rem_mod_nonneg by lia.
  repeat split.
Qed.

End Firmware.


(** The wave started by setup() after a cold start, through four passes of
    loop(), three of which find 100 ms elapsed, with a timer tick, a
    square-wave interrupt and a pin change that finds every pin high in
    between: the tubes show the numeral three places above 0. *)
Lemma X22_wave_exercises_cathodes_witness :
  Main.shown
    (Main.run Buzzer.concert_pitch
       [Main.Pass (Main.quiet_input 100); Main.Tick; Main.SquareWave;
        Main.Pass (Main.quiet_input 150); Main.Pass (Main.quiet_input 200);
        Main.PinChange 1 (Buttons.mkPins true true true true true);
        Main.Pass (Main.quiet_input 300)]
       (Main.setup Main.cold_boot))
  = map (Main.above 3) [0; 0; 0; 0].
Proof.
  refine (proj1 (proj2 (proj2
    (X22_wave_exercises_cathodes Buzzer.concert_pitch
       [Main.Pass (Main.quiet_input 100); Main.Tick; Main.SquareWave;
        Main.Pass (Main.quiet_input 150); Main.Pass (Main.quiet_input 200);
        Main.PinChange 1 (Buttons.mkPins true true true true true);
        Main.Pass (Main.quiet_input 300)]
       (Main.setup Main.cold_boot) 0 0 0 0 _ _ _ _ _ _ _ _ _ _ _))) _).
  - reflexivity.
  - vm_compute. reflexivity.
  - reflexivity.
  - reflexivity.
  - vm_compute. reflexivity.
  - lia.
  - lia.
  - lia.
  - lia.
  - reflexivity.
  - vm_compute. discriminate.
  - vm_compute. discriminate.
Defined.
